(** * GymBuddy server: the data model and its consistency rules

    A shallow embedding of the Express/SQLite server of the workout tracker
    (the [app.get]/[app.post]/[app.put]/[app.delete] handlers and the
    [loadRoutineFull] helper), followed by theorems about routine mutation,
    workout snapshots and the personal-records query.

    The second half of the development covers the rest of the server (the
    seeding, the catalogue and list endpoints, the invariants of the
    tables) and the parts of the client that compute: [escapeHtml],
    [fmtDuration], the counters and the navigation of a workout session,
    [startWorkout], [collectRoutineFromDOM] and the forms, each composed
    with the request it sends.

    Modelling conventions.
    - A table is the list of its rows in [rowid] order; [INSERT] appends.
    - A nullable column is an [option]; [INTEGER] is [Z], [REAL] is [Q]
      (weights are only copied and compared, never computed with), [TEXT] is
      [string], compared bytewise as SQLite's BINARY collation does.
    - JSON bodies are records of optional fields; a field that is absent,
      [undefined] or [null] is [None].
    - [Date.now()] and [nanoid(8)] are oracles indexed by the number of calls
      made so far; the world carries both call counters.
    - Whether SQLite enforces the declared FOREIGN KEY clauses is a switch of
      the environment ([PRAGMA foreign_keys]); every theorem holds for both
      settings unless it says otherwise.
    - A statement that violates a constraint throws; a throw inside
      [db.transaction] rolls the database back, and a throw that leaves a
      handler is answered by Express with status 500. *)

From Stdlib Require Import List String Ascii ZArith QArith Bool Lia Lqa.
From Stdlib Require Import Sorting.Sorted Sorting.Permutation.
From Stdlib Require Import DecimalString.
Import ListNotations.

Local Open Scope string_scope.
Local Open Scope Z_scope.

(** ** The schema *)

Record Exercise := {
  e_id : string;
  e_name : string;
  e_image : option string;
  e_bodyPart : option string;
  e_primaryMuscles : option string;
  e_secondaryMuscles : option string;
  e_equipment : option string;
  e_isCustom : option Z
}.

(** Table [routines]. *)
Record Routine := {
  r_id : string;
  r_name : string;
  r_createdAt : option Z;
  r_updatedAt : option Z
}.

(** Table [routine_exercises]. *)
Record RoutineExercise := {
  re_id : string;
  re_routine_id : string;
  re_exercise_id : string;
  re_order_index : option Z
}.

(** Table [routine_sets]. *)
Record RoutineSet := {
  rs_id : string;
  rs_routine_exercise_id : string;
  rs_reps : option Z;
  rs_peso : option Q
}.

(** Table [workouts]. *)
Record Workout := {
  w_id : string;
  w_routine_id : option string;
  w_startedAt : option Z;
  w_finishedAt : option Z;
  w_durationSec : option Z
}.

(** Table [workout_items]. *)
Record WorkoutItem := {
  wi_id : string;
  wi_workout_id : string;
  wi_exercise_id : option string;
  wi_name : option string;
  wi_bodyPart : option string;
  wi_image : option string;
  wi_order_index : option Z
}.

(** Table [workout_sets]. *)
Record WorkoutSet := {
  ws_id : string;
  ws_workout_item_id : string;
  ws_reps : option Z;
  ws_peso : option Q;
  ws_done : option Z
}.

(** The database: the seven tables. *)
Record DB := {
  exercises : list Exercise;
  routines : list Routine;
  routine_exercises : list RoutineExercise;
  routine_sets : list RoutineSet;
  workouts : list Workout;
  workout_items : list WorkoutItem;
  workout_sets : list WorkoutSet
}.

(** The database right after [CREATE TABLE IF NOT EXISTS] on a new file. *)
Definition empty_db : DB :=
  {| exercises := []; routines := []; routine_exercises := [];
     routine_sets := []; workouts := []; workout_items := [];
     workout_sets := [] |}.

(** Replacing one table. *)
Definition with_exercises (t : list Exercise) (d : DB) : DB :=
  {| exercises := t; routines := routines d;
     routine_exercises := routine_exercises d; routine_sets := routine_sets d;
     workouts := workouts d; workout_items := workout_items d;
     workout_sets := workout_sets d |}.

Definition with_routines (t : list Routine) (d : DB) : DB :=
  {| exercises := exercises d; routines := t;
     routine_exercises := routine_exercises d; routine_sets := routine_sets d;
     workouts := workouts d; workout_items := workout_items d;
     workout_sets := workout_sets d |}.

Definition with_routine_exercises (t : list RoutineExercise) (d : DB) : DB :=
  {| exercises := exercises d; routines := routines d;
     routine_exercises := t; routine_sets := routine_sets d;
     workouts := workouts d; workout_items := workout_items d;
     workout_sets := workout_sets d |}.

Definition with_routine_sets (t : list RoutineSet) (d : DB) : DB :=
  {| exercises := exercises d; routines := routines d;
     routine_exercises := routine_exercises d; routine_sets := t;
     workouts := workouts d; workout_items := workout_items d;
     workout_sets := workout_sets d |}.

Definition with_workouts (t : list Workout) (d : DB) : DB :=
  {| exercises := exercises d; routines := routines d;
     routine_exercises := routine_exercises d; routine_sets := routine_sets d;
     workouts := t; workout_items := workout_items d;
     workout_sets := workout_sets d |}.

Definition with_workout_items (t : list WorkoutItem) (d : DB) : DB :=
  {| exercises := exercises d; routines := routines d;
     routine_exercises := routine_exercises d; routine_sets := routine_sets d;
     workouts := workouts d; workout_items := t;
     workout_sets := workout_sets d |}.

Definition with_workout_sets (t : list WorkoutSet) (d : DB) : DB :=
  {| exercises := exercises d; routines := routines d;
     routine_exercises := routine_exercises d; routine_sets := routine_sets d;
     workouts := workouts d; workout_items := workout_items d;
     workout_sets := t |}.

(** ** JavaScript and SQL values *)

(** [!x] is false exactly for a non-empty string. *)
Definition truthy (x : option string) : bool :=
  match x with
  | Some (String _ _) => true
  | _ => false
  end.

(** [x || d] on an optional string. *)
Definition or_else (x : option string) (d : string) : string :=
  match x with
  | Some (String c s) => String c s
  | _ => d
  end.

(** [COALESCE(x, y, ...)]: the first argument that is not NULL. *)
Fixpoint COALESCE {A : Type} (xs : list (option A)) : option A :=
  match xs with
  | [] => None
  | Some x :: _ => Some x
  | None :: rest => COALESCE rest
  end.

(** [MAX(col)] ignores NULLs and is NULL when nothing is left. *)
Fixpoint MAX (xs : list (option Z)) : option Z :=
  match xs with
  | [] => None
  | None :: rest => MAX rest
  | Some x :: rest =>
      match MAX rest with
      | None => Some x
      | Some m => Some (Z.max x m)
      end
  end.

(** [x + 1] in SQL: NULL stays NULL. *)
Definition sql_succ (x : option Z) : option Z := option_map (fun v => v + 1) x.

(** [x IS NULL], as the integer SQL yields. *)
Definition IS_NULL {A : Type} (x : option A) : Z :=
  match x with None => 1 | Some _ => 0 end.

(** SQLite's order on a nullable column: NULL sorts before every value. *)
Definition cmp_null {A : Type} (cmp : A -> A -> comparison)
    (x y : option A) : comparison :=
  match x, y with
  | None, None => Eq
  | None, Some _ => Lt
  | Some _, None => Gt
  | Some a, Some b => cmp a b
  end.

(** [ORDER BY key ASC] and [ORDER BY key DESC]. *)
Definition ASC {A K : Type} (key : A -> K) (cmp : K -> K -> comparison)
    (a b : A) : comparison := cmp (key a) (key b).

Definition DESC {A K : Type} (key : A -> K) (cmp : K -> K -> comparison)
    (a b : A) : comparison := cmp (key b) (key a).

(** The terms of an ORDER BY clause, most significant first. *)
Fixpoint lex {A : Type} (terms : list (A -> A -> comparison))
    (a b : A) : comparison :=
  match terms with
  | [] => Eq
  | t :: rest =>
      match t a b with
      | Eq => lex rest a b
      | c => c
      end
  end.

(** [a] may come before [b]. *)
Definition cmp_leb {A : Type} (cmp : A -> A -> comparison) (a b : A) : bool :=
  match cmp a b with Gt => false | _ => true end.

Section OrderBy.
Context {A : Type} (cmp : A -> A -> comparison).

(** Insertion of a row in front of the first row it may precede. *)
Fixpoint insert_row (x : A) (l : list A) : list A :=
  match l with
  | [] => [x]
  | y :: rest =>
      if cmp_leb cmp x y then x :: y :: rest else y :: insert_row x rest
  end.

(** ORDER BY as a stable sort: rows that compare equal keep the order in
    which the scan produced them. *)
Fixpoint order_by (l : list A) : list A :=
  match l with
  | [] => []
  | x :: rest => insert_row x (order_by rest)
  end.
End OrderBy.

(** Equality of nullable values as PARTITION BY and DISTINCT see it: NULL
    is grouped with NULL. *)
Definition option_eqb {A : Type} (eqb : A -> A -> bool)
    (x y : option A) : bool :=
  match x, y with
  | None, None => true
  | Some a, Some b => eqb a b
  | _, _ => false
  end.

(** [SELECT DISTINCT]: the first occurrence of each value is kept. *)
Fixpoint distinct {A : Type} (eqb : A -> A -> bool) (l : list A) : list A :=
  match l with
  | [] => []
  | x :: rest => x :: filter (fun y => negb (eqb x y)) (distinct eqb rest)
  end.

(** ** Strings *)

Definition bytes (l : list nat) : string :=
  string_of_list_ascii (map ascii_of_nat l).

(** The code points ECMAScript counts as white space or line terminators,
    in UTF-8: TAB, LF, VT, FF, CR, SP, NBSP, U+1680, U+2000..U+200A,
    U+2028, U+2029, U+202F, U+205F, U+3000 and U+FEFF. *)
Definition white_space : list string :=
  map bytes
    [ [9]; [10]; [11]; [12]; [13]; [32]; [194; 160]; [225; 154; 128];
      [226; 128; 128]; [226; 128; 129]; [226; 128; 130]; [226; 128; 131];
      [226; 128; 132]; [226; 128; 133]; [226; 128; 134]; [226; 128; 135];
      [226; 128; 136]; [226; 128; 137]; [226; 128; 138]; [226; 128; 168];
      [226; 128; 169]; [226; 128; 175]; [226; 129; 159]; [227; 128; 128];
      [239; 187; 191] ]%nat.

(** [s] without its prefix [p], when [p] is a prefix of [s]. *)
Fixpoint strip_prefix (p s : string) : option string :=
  match p, s with
  | EmptyString, _ => Some s
  | String a p', String b s' =>
      if Ascii.eqb a b then strip_prefix p' s' else None
  | String _ _, EmptyString => None
  end.

(** The first result that is not [None]. *)
Fixpoint first_some {A : Type} (l : list (option A)) : option A :=
  match l with
  | [] => None
  | Some x :: _ => Some x
  | None :: rest => first_some rest
  end.

(** Removal of leading white space, one code point at a time. *)
Fixpoint strip_leading (ws : list string) (fuel : nat) (s : string) : string :=
  match fuel with
  | O => s
  | S fuel' =>
      match first_some (map (fun p => strip_prefix p s) ws) with
      | Some s' => strip_leading ws fuel' s'
      | None => s
      end
  end.

(** The string read backwards. *)
Definition string_rev (s : string) : string :=
  string_of_list_ascii (rev (list_ascii_of_string s)).

(** [String.prototype.trimStart] and [String.prototype.trimEnd]. *)
Definition trimStart (s : string) : string :=
  strip_leading white_space (String.length s) s.

Definition trimEnd (s : string) : string :=
  string_rev
    (strip_leading (map string_rev white_space) (String.length s)
       (string_rev s)).

(** [String.prototype.trim]. *)
Definition trim (s : string) : string := trimEnd (trimStart s).

(** ** The world: database, clock and id generator *)

Record Env := {
  Date_now : nat -> Z;          (* the n-th reading of the clock *)
  nanoid : nat -> string;       (* the n-th generated id *)
  foreign_keys : bool;          (* PRAGMA foreign_keys *)
  LIKE : string -> string -> bool;    (* text LIKE pattern *)
  LOWER : string -> string;           (* SQL LOWER() *)
  toLowerCase : string -> string      (* String.prototype.toLowerCase *)
}.

(** The state a request runs in. *)
Record World := {
  db : DB;
  clock : nat;   (* calls of Date.now() so far *)
  ids : nat      (* calls of nanoid() so far *)
}.

(** The constraint violations the statements of the server can raise. *)
Inductive SqliteError :=
| SQLITE_CONSTRAINT_PRIMARYKEY
| SQLITE_CONSTRAINT_FOREIGNKEY.

(** A value or an exception. *)
Inductive outcome (A : Type) :=
| Ok (a : A)
| Throw (e : SqliteError).
Arguments Ok {A} a.
Arguments Throw {A} e.

(** A computation reads and writes the world and may throw; the world
    survives a throw (the clock and the id generator do not roll back). *)
Definition M (A : Type) : Type := World -> World * outcome A.

(** Return and sequencing; an exception skips the rest. *)
Definition ret {A : Type} (a : A) : M A := fun w => (w, Ok a).

Definition bind {A B : Type} (m : M A) (k : A -> M B) : M B :=
  fun w =>
    match m w with
    | (w', Ok a) => k a w'
    | (w', Throw e) => (w', Throw e)
    end.

Declare Scope js_scope.
Delimit Scope js_scope with js.
Notation "x <- m ;; k" := (bind m (fun x => k))
  (at level 61, m at next level, right associativity) : js_scope.
Notation "m ;; k" := (bind m (fun _ => k))
  (at level 61, right associativity) : js_scope.
Local Open Scope js_scope.

(** The world with another database. *)
Definition set_db (d : DB) (w : World) : World :=
  {| db := d; clock := clock w; ids := ids w |}.

(** [stmt.run(...)]: the statement either replaces the database or throws
    and leaves it as it was. *)
Definition run (stmt : DB -> outcome DB) : M unit :=
  fun w =>
    match stmt (db w) with
    | Ok d => (set_db d w, Ok tt)
    | Throw e => (w, Throw e)
    end.

(** [stmt.get(...)] and [stmt.all(...)]. *)
Definition query {A : Type} (q : DB -> A) : M A := fun w => (w, Ok (q (db w))).

(** [db.transaction(f)()]: commit when [f] returns, roll back when it
    throws. *)
Definition transaction {A : Type} (f : M A) : M A :=
  fun w =>
    match f w with
    | (w', Ok a) => (w', Ok a)
    | (w', Throw e) => (set_db (db w) w', Throw e)
    end.

(** [list.forEach((x, idx) => f(x, idx))]. *)
Fixpoint forEach_from {A : Type} (idx : Z) (f : A -> Z -> M unit)
    (l : list A) : M unit :=
  match l with
  | [] => ret tt
  | x :: rest => f x idx ;; forEach_from (idx + 1) f rest
  end.

(** [list.forEach(f)], indices from 0. *)
Definition forEach {A : Type} (f : A -> Z -> M unit) (l : list A) : M unit :=
  forEach_from 0 f l.

(** ** Request bodies *)

(** Body of [POST /api/exercises]. *)
Record ExerciseBody := {
  p_name : option string;
  p_image : option string;
  p_bodyPart : option string;
  p_primaryMuscles : option string;
  p_secondaryMuscles : option string;
  p_equipment : option string
}.

(** Body of [PUT /api/routines/:id]:
    [{ name?, exercises?: [{ id, sets?: [{ id, reps, peso }] }] }]. *)
Record SetBody := {
  s_id : option string;
  s_reps : option Z;
  s_peso : option Q
}.

Record ExBody := {
  ex_id : option string;
  ex_sets : option (list SetBody)
}.

Record RoutineBody := {
  body_name : option string;
  body_exercises : option (list ExBody)
}.

(** Body of [POST /api/workouts]. *)
Record StBody := {
  st_reps : option Z;
  st_peso : option Q;
  st_done : bool
}.

Record ItBody := {
  it_exerciseId : option string;
  it_name : option string;
  it_bodyPart : option string;
  it_image : option string;
  it_sets : option (list StBody)
}.

Record WorkoutBody := {
  s_routineId : option string;
  s_startedAt : option Z;
  s_finishedAt : option Z;
  s_durationSec : option Z;
  s_items : option (list ItBody)
}.

(** [x || []]. *)
Definition or_nil {A : Type} (x : option (list A)) : list A :=
  match x with Some l => l | None => [] end.

(** ** Responses *)

Record SetView := {
  set_id : string;
  set_reps : option Z;
  set_peso : option Q
}.

(** The [exercise] object of a routine exercise (the catalogue columns
    without [isCustom]). *)
Record ExerciseView := {
  x_id : string;
  x_name : string;
  x_image : option string;
  x_bodyPart : option string;
  x_primaryMuscles : option string;
  x_secondaryMuscles : option string;
  x_equipment : option string
}.

(** An element of [exercises] in the full routine. *)
Record RoutineExerciseView := {
  rex_id : string;
  rex_order_index : option Z;
  rex_exercise : ExerciseView;
  rex_sets : list SetView
}.

(** The object [loadRoutineFull] returns. *)
Record RoutineFull := {
  full_id : string;
  full_name : string;
  full_createdAt : option Z;
  full_updatedAt : option Z;
  full_exercises : list RoutineExerciseView
}.

(** An entry of [GET /api/routines]: the row and one [{ sets: [] }] per
    exercise of the routine. *)
Record RoutineSummary := {
  sum_row : Routine;
  sum_exercises : list (list SetView)
}.

(** A row of [GET /api/marks]. *)
Record MarkRow := {
  m_exercise_id : option string;
  m_name : option string;
  m_bodyPart : option string;
  m_image : option string;
  pr_weight : option Q;
  reps_at_pr : option Z
}.

(** What a handler sends back. *)
Inductive Response :=
| json_ok                                     (* { ok:true } *)
| json_error (status : Z) (error : string)    (* res.status(n).json({ error }) *)
| json_groups (rows : list string)
| json_exercises (rows : list Exercise)
| json_exercise (ex : Exercise)
| json_routines (rows : list RoutineSummary)
| json_routine (r : option RoutineFull)       (* [None] is JSON null *)
| json_id (id : string)                       (* { id } *)
| json_marks (rows : list MarkRow)
| status_500 (e : SqliteError).               (* uncaught exception *)

(** ** Statements *)

Definition has_key {R : Type} (key : R -> string) (k : string)
    (t : list R) : bool :=
  existsb (fun r => String.eqb (key r) k) t.

(** The row after [SET updatedAt=?], after [SET name=?, updatedAt=?] and
    after [SET reps=?, peso=?]. *)
Definition touched (ts : Z) (r : Routine) : Routine :=
  {| r_id := r_id r; r_name := r_name r; r_createdAt := r_createdAt r;
     r_updatedAt := Some ts |}.

Definition renamed (name : string) (ts : Z) (r : Routine) : Routine :=
  {| r_id := r_id r; r_name := name; r_createdAt := r_createdAt r;
     r_updatedAt := Some ts |}.

Definition edited (reps : option Z) (peso : option Q) (s : RoutineSet)
    : RoutineSet :=
  {| rs_id := rs_id s; rs_routine_exercise_id := rs_routine_exercise_id s;
     rs_reps := reps; rs_peso := peso |}.

(** [UPDATE t SET ... WHERE cond]. *)
Definition UPDATE {R : Type} (cond : R -> bool) (set : R -> R)
    (t : list R) : list R :=
  map (fun r => if cond r then set r else r) t.

(** [DELETE FROM t WHERE cond]. *)
Definition DELETE {R : Type} (cond : R -> bool) (t : list R) : list R :=
  filter (fun r => negb (cond r)) t.

Section Statements.
Variable env : Env.

(** A child key is acceptable when enforcement is off or the parent row
    exists. *)
Definition fk_ok (parent_exists : bool) : bool :=
  negb (foreign_keys env) || parent_exists.

(** [INSERT INTO exercises(...) VALUES(...)]. *)
Definition insert_exercise (row : Exercise) (d : DB) : outcome DB :=
  if has_key e_id (e_id row) (exercises d)
  then Throw SQLITE_CONSTRAINT_PRIMARYKEY
  else Ok (with_exercises (exercises d ++ [row]) d).

(** [INSERT INTO routines(id,name,createdAt,updatedAt) VALUES(?,?,?,?)]. *)
Definition insert_routine (row : Routine) (d : DB) : outcome DB :=
  if has_key r_id (r_id row) (routines d)
  then Throw SQLITE_CONSTRAINT_PRIMARYKEY
  else Ok (with_routines (routines d ++ [row]) d).

(** [UPDATE routines SET name=?, updatedAt=? WHERE id=?]. *)
Definition update_routine_name (name : string) (ts : Z) (id : string)
    (d : DB) : outcome DB :=
  Ok (with_routines
        (UPDATE (fun r => String.eqb (r_id r) id) (renamed name ts)
           (routines d)) d).

(** [UPDATE routines SET updatedAt=? WHERE id=?]. *)
Definition update_routine_updatedAt (ts : Z) (id : string)
    (d : DB) : outcome DB :=
  Ok (with_routines
        (UPDATE (fun r => String.eqb (r_id r) id) (touched ts)
           (routines d)) d).

(** [UPDATE routine_sets SET reps=?, peso=? WHERE id=?]. *)
Definition update_routine_set (reps : option Z) (peso : option Q)
    (id : string) (d : DB) : outcome DB :=
  Ok (with_routine_sets
        (UPDATE (fun s => String.eqb (rs_id s) id) (edited reps peso)
           (routine_sets d)) d).

(** [DELETE FROM routine_sets WHERE routine_exercise_id=?]. *)
Definition delete_sets_of (rexId : string) (d : DB) : outcome DB :=
  Ok (with_routine_sets
        (DELETE (fun s => String.eqb (rs_routine_exercise_id s) rexId)
           (routine_sets d)) d).

(** [DELETE FROM routine_exercises WHERE id=? AND routine_id=?].
    With enforcement on, the statement fails when it removes the last
    parent row of a set that still references it. *)
Definition delete_routine_exercise (rexId id : string)
    (d : DB) : outcome DB :=
  let t' :=
    DELETE (fun re => String.eqb (re_id re) rexId
                      && String.eqb (re_routine_id re) id)
      (routine_exercises d) in
  if foreign_keys env
     && has_key re_id rexId (routine_exercises d)
     && negb (has_key re_id rexId t')
     && has_key rs_routine_exercise_id rexId (routine_sets d)
  then Throw SQLITE_CONSTRAINT_FOREIGNKEY
  else Ok (with_routine_exercises t' d).

(** [INSERT INTO routine_exercises(id,routine_id,exercise_id,order_index)
    VALUES(?,?,?,?)]. *)
Definition insert_routine_exercise (row : RoutineExercise)
    (d : DB) : outcome DB :=
  if has_key re_id (re_id row) (routine_exercises d)
  then Throw SQLITE_CONSTRAINT_PRIMARYKEY
  else if fk_ok (has_key r_id (re_routine_id row) (routines d))
          && fk_ok (has_key e_id (re_exercise_id row) (exercises d))
  then Ok (with_routine_exercises (routine_exercises d ++ [row]) d)
  else Throw SQLITE_CONSTRAINT_FOREIGNKEY.

(** [INSERT INTO routine_sets(id,routine_exercise_id,reps,peso)
    VALUES(?,?,?,?)]. *)
Definition insert_routine_set (row : RoutineSet) (d : DB) : outcome DB :=
  if has_key rs_id (rs_id row) (routine_sets d)
  then Throw SQLITE_CONSTRAINT_PRIMARYKEY
  else if fk_ok (has_key re_id (rs_routine_exercise_id row)
                   (routine_exercises d))
  then Ok (with_routine_sets (routine_sets d ++ [row]) d)
  else Throw SQLITE_CONSTRAINT_FOREIGNKEY.

(** [DELETE FROM routine_sets WHERE id=? AND routine_exercise_id=?]. *)
Definition delete_routine_set (setId rexId : string)
    (d : DB) : outcome DB :=
  Ok (with_routine_sets
        (DELETE (fun s => String.eqb (rs_id s) setId
                          && String.eqb (rs_routine_exercise_id s) rexId)
           (routine_sets d)) d).

(** [INSERT INTO workouts(id,routine_id,startedAt,finishedAt,durationSec)
    VALUES(?,?,?,?,?)]; [routine_id] carries no FOREIGN KEY clause. *)
Definition insert_workout (row : Workout) (d : DB) : outcome DB :=
  if has_key w_id (w_id row) (workouts d)
  then Throw SQLITE_CONSTRAINT_PRIMARYKEY
  else Ok (with_workouts (workouts d ++ [row]) d).

(** [INSERT INTO workout_items(id,workout_id,exercise_id,name,bodyPart,
    image,order_index) VALUES(?,?,?,?,?,?,?)]. *)
Definition insert_workout_item (row : WorkoutItem) (d : DB) : outcome DB :=
  if has_key wi_id (wi_id row) (workout_items d)
  then Throw SQLITE_CONSTRAINT_PRIMARYKEY
  else if fk_ok (has_key w_id (wi_workout_id row) (workouts d))
  then Ok (with_workout_items (workout_items d ++ [row]) d)
  else Throw SQLITE_CONSTRAINT_FOREIGNKEY.

(** [INSERT INTO workout_sets(id,workout_item_id,reps,peso,done)
    VALUES(?,?,?,?,?)]. *)
Definition insert_workout_set (row : WorkoutSet) (d : DB) : outcome DB :=
  if has_key ws_id (ws_id row) (workout_sets d)
  then Throw SQLITE_CONSTRAINT_PRIMARYKEY
  else if fk_ok (has_key wi_id (ws_workout_item_id row) (workout_items d))
  then Ok (with_workout_sets (workout_sets d ++ [row]) d)
  else Throw SQLITE_CONSTRAINT_FOREIGNKEY.

(** [Date.now()] and [nanoid(8)]. *)
Definition now : M Z :=
  fun w =>
    ({| db := db w; clock := S (clock w); ids := ids w |},
     Ok (Date_now env (clock w))).

Definition nanoid8 : M string :=
  fun w =>
    ({| db := db w; clock := clock w; ids := S (ids w) |},
     Ok (nanoid env (ids w))).
End Statements.

(** ** Queries *)

Definition view_set (s : RoutineSet) : SetView :=
  {| set_id := rs_id s; set_reps := rs_reps s; set_peso := rs_peso s |}.

(** The catalogue columns copied into the full routine. *)
Definition view_exercise (e : Exercise) : ExerciseView :=
  {| x_id := e_id e; x_name := e_name e; x_image := e_image e;
     x_bodyPart := e_bodyPart e; x_primaryMuscles := e_primaryMuscles e;
     x_secondaryMuscles := e_secondaryMuscles e;
     x_equipment := e_equipment e |}.

(** [SELECT * FROM routine_sets WHERE routine_exercise_id = ?
    ORDER BY rowid ASC]. *)
Definition setsByRex (rexId : string) (d : DB) : list RoutineSet :=
  filter (fun s => String.eqb (rs_routine_exercise_id s) rexId)
    (routine_sets d).

(** [SELECT re.id as rex_id, re.order_index, e.* FROM routine_exercises re
    JOIN exercises e ON e.id = re.exercise_id WHERE re.routine_id = ?
    ORDER BY re.order_index ASC, re.id ASC]. *)
Definition exs (id : string) (d : DB) : list (RoutineExercise * Exercise) :=
  order_by
    (lex [ ASC (fun row => re_order_index (fst row)) (cmp_null Z.compare);
           ASC (fun row => re_id (fst row)) String.compare ])
    (flat_map
       (fun re =>
          map (fun e => (re, e))
            (filter (fun e => String.eqb (e_id e) (re_exercise_id re))
               (exercises d)))
       (filter (fun re => String.eqb (re_routine_id re) id)
          (routine_exercises d))).

(** [loadRoutineFull(id)]: [None] is the JavaScript [null]. *)
Definition loadRoutineFull (id : string) (d : DB) : option RoutineFull :=
  match find (fun r => String.eqb (r_id r) id) (routines d) with
  | None => None
  | Some r =>
      let exercises :=
        map (fun row =>
               {| rex_id := re_id (fst row);
                  rex_order_index := re_order_index (fst row);
                  rex_exercise := view_exercise (snd row);
                  rex_sets := map view_set (setsByRex (re_id (fst row)) d) |})
          (exs id d) in
      Some {| full_id := r_id r; full_name := r_name r;
              full_createdAt := r_createdAt r;
              full_updatedAt := r_updatedAt r;
              full_exercises := exercises |}
  end.

(** [SELECT COALESCE(MAX(order_index),0)+1 AS o FROM routine_exercises
    WHERE routine_id=?]. *)
Definition next_order (id : string) (d : DB) : option Z :=
  sql_succ
    (COALESCE
       [ MAX (map re_order_index
                (filter (fun re => String.eqb (re_routine_id re) id)
                   (routine_exercises d)));
         Some 0 ]).

(** [FROM workout_sets ws JOIN workout_items wi
    ON wi.id = ws.workout_item_id]. *)
Definition joined (d : DB) : list (WorkoutItem * WorkoutSet) :=
  flat_map
    (fun ws =>
       map (fun wi => (wi, ws))
         (filter (fun wi => String.eqb (wi_id wi) (ws_workout_item_id ws))
            (workout_items d)))
    (workout_sets d).

(** [ORDER BY (ws.peso IS NULL) ASC, ws.peso DESC,
    (ws.reps IS NULL) ASC, ws.reps DESC]. *)
Definition pr_order : WorkoutItem * WorkoutSet ->
                      WorkoutItem * WorkoutSet -> comparison :=
  lex [ ASC (fun j => IS_NULL (ws_peso (snd j))) Z.compare;
        DESC (fun j => ws_peso (snd j)) (cmp_null Qcompare);
        ASC (fun j => IS_NULL (ws_reps (snd j))) Z.compare;
        DESC (fun j => ws_reps (snd j)) (cmp_null Z.compare) ].

(** The row belongs to the partition of [k]. *)
Definition same_exercise (k : option string)
    (j : WorkoutItem * WorkoutSet) : bool :=
  option_eqb String.eqb (wi_exercise_id (fst j)) k.

(** [ROW_NUMBER()] over one partition, already ordered. *)
Definition ROW_NUMBER {A : Type} (l : list A) : list (A * Z) :=
  combine l (map Z.of_nat (seq 1 (List.length l))).

(** The CTE [ranked]: [ROW_NUMBER() OVER (PARTITION BY wi.exercise_id
    ORDER BY ...) AS rn]. *)
Definition ranked (d : DB) : list (WorkoutItem * WorkoutSet * Z) :=
  flat_map
    (fun k => ROW_NUMBER (order_by pr_order (filter (same_exercise k) (joined d))))
    (distinct (option_eqb String.eqb)
       (map (fun j => wi_exercise_id (fst j)) (joined d))).

(** The SELECT list of the outer query. *)
Definition mark_of (r : WorkoutItem * WorkoutSet * Z) : MarkRow :=
  let wi := fst (fst r) in
  let ws := snd (fst r) in
  {| m_exercise_id := wi_exercise_id wi; m_name := wi_name wi;
     m_bodyPart := wi_bodyPart wi; m_image := wi_image wi;
     pr_weight := ws_peso ws;
     reps_at_pr := COALESCE [ws_reps ws; Some 0] |}.

(** [SELECT exercise_id, name, bodyPart, image, peso AS pr_weight,
    COALESCE(reps,0) AS reps_at_pr FROM ranked WHERE rn=1
    ORDER BY name ASC]. *)
Definition marks (d : DB) : list MarkRow :=
  order_by (ASC m_name (cmp_null String.compare))
    (map mark_of (filter (fun r => Z.eqb (snd r) 1) (ranked d))).

(** [SELECT DISTINCT bodyPart AS g FROM exercises
    WHERE bodyPart IS NOT NULL AND bodyPart<>'' ORDER BY g]. *)
Definition groups (d : DB) : list string :=
  order_by String.compare
    (distinct String.eqb
       (flat_map
          (fun e => match e_bodyPart e with
                    | Some (String c s) => [String c s]
                    | _ => []
                    end)
          (exercises d))).

(** [SELECT * FROM routines ORDER BY updatedAt DESC]. *)
Definition routines_by_update (d : DB) : list Routine :=
  order_by (DESC r_updatedAt (cmp_null Z.compare)) (routines d).

(** [mapExercises[r.id] || 0], from [SELECT COUNT( * ) AS c, routine_id
    FROM routine_exercises GROUP BY routine_id]. *)
Definition mapExercises (id : string) (d : DB) : nat :=
  List.length (filter (fun re => String.eqb (re_routine_id re) id)
            (routine_exercises d)).

(** ** The handlers *)

Inductive Request :=
| GET_health
| GET_exercises_groups
| GET_exercises (q group : option string)
| POST_exercises (p : ExerciseBody)
| GET_routines
| POST_routines (name : option string)
| GET_routine (id : string)
| PUT_routine (id : string) (body : RoutineBody)
| DELETE_routine_exercise (id rexId : string)
| POST_routine_exercises (id : string) (exerciseId : option string)
| POST_routine_sets (id rexId : string) (reps : option Z) (peso : option Q)
| DELETE_routine_set (id rexId setId : string)
| POST_workouts (s : WorkoutBody)
| GET_marks.

Section Server.
Variable env : Env.

(** [app.get("/api/exercises")]: the optional filters, then
    [ORDER BY name ASC LIMIT 300]. *)
Definition search (q group : option string) (d : DB) : list Exercise :=
  let q := match q with Some v => v | None => "" end in
  let group := match group with Some v => v | None => "*" end in
  let by_group (e : Exercise) :=
    if negb (String.eqb group "") && negb (String.eqb group "*")
    then match e_bodyPart e with
         | Some b => LIKE env b ("%" ++ group ++ "%")
         | None => false
         end
    else true in
  let by_name (e : Exercise) :=
    if negb (String.eqb q "")
    then LIKE env (LOWER env (e_name e)) ("%" ++ toLowerCase env q ++ "%")
    else true in
  firstn 300
    (order_by (ASC e_name String.compare)
       (filter (fun e => by_group e && by_name e) (exercises d))).

(** [app.post("/api/exercises")]. *)
Definition post_exercises (p : ExerciseBody) : M Response :=
  match p_name p with
  | None | Some EmptyString => ret (json_error 400 "name required")
  | Some name =>
      n <- nanoid8 env ;;
      let ex :=
        {| e_id := "cus_" ++ n; e_name := trim name;
           e_image := Some (or_else (p_image p) "");
           e_bodyPart := Some (or_else (p_bodyPart p) "");
           e_primaryMuscles := Some (or_else (p_primaryMuscles p) "");
           e_secondaryMuscles := Some (or_else (p_secondaryMuscles p) "");
           e_equipment := Some (or_else (p_equipment p) "");
           e_isCustom := Some 1 |} in
      run (insert_exercise ex) ;;
      ret (json_exercise ex)
  end.

(** [app.get("/api/routines")]. *)
Definition get_routines (d : DB) : list RoutineSummary :=
  map (fun r => {| sum_row := r;
                   sum_exercises := repeat [] (mapExercises (r_id r) d) |})
    (routines_by_update d).

(** [app.post("/api/routines")]. *)
Definition post_routines (name : option string) : M Response :=
  n <- nanoid8 env ;;
  let id := "rut_" ++ n in
  ts <- now env ;;
  run (insert_routine
         {| r_id := id; r_name := or_else name "Rutina";
            r_createdAt := Some ts; r_updatedAt := Some ts |}) ;;
  r <- query (loadRoutineFull id) ;;
  ret (json_routine r).

(** [app.get("/api/routines/:id")]. *)
Definition get_routine (id : string) : M Response :=
  out <- query (loadRoutineFull id) ;;
  match out with
  | None => ret (json_error 404 "not found")
  | Some r => ret (json_routine (Some r))
  end.

(** The transaction of [app.put("/api/routines/:id")]. *)
Definition updateSets (id : string) (list : list ExBody) : M unit :=
  transaction
    (forEach
       (fun ex _ =>
          match ex_sets ex with
          | Some sets =>
              forEach
                (fun s _ =>
                   match s_id s with
                   | None | Some EmptyString => ret tt
                   | Some sid =>
                       run (update_routine_set (s_reps s) (s_peso s) sid)
                   end)
                sets
          | None => ret tt
          end)
       list ;;
     ts <- now env ;;
     run (update_routine_updatedAt ts id)).

(** [app.put("/api/routines/:id")]. *)
Definition put_routine (id : string) (body : RoutineBody) : M Response :=
  match body_name body with
  | None | Some EmptyString => ret tt
  | Some name =>
      ts <- now env ;;
      run (update_routine_name name ts id)
  end ;;
  match body_exercises body with
  | Some list => updateSets id list
  | None => ret tt
  end ;;
  r <- query (loadRoutineFull id) ;;
  ret (json_routine r).

(** [app.delete("/api/routines/:id/exercises/:rexId")]. *)
Definition delete_routine_exercise_h (id rexId : string) : M Response :=
  transaction
    (run (delete_sets_of rexId) ;;
     run (delete_routine_exercise env rexId id) ;;
     ts <- now env ;;
     run (update_routine_updatedAt ts id)) ;;
  ret json_ok.

(** [app.post("/api/routines/:id/exercises")]. *)
Definition post_routine_exercises (id : string)
    (exerciseId : option string) : M Response :=
  match exerciseId with
  | None | Some EmptyString => ret (json_error 400 "exerciseId required")
  | Some exerciseId =>
      n <- nanoid8 env ;;
      let rexId := "rex_" ++ n in
      order <- query (next_order id) ;;
      transaction
        (run (insert_routine_exercise env
                {| re_id := rexId; re_routine_id := id;
                   re_exercise_id := exerciseId;
                   re_order_index := order |}) ;;
         ts <- now env ;;
         run (update_routine_updatedAt ts id)) ;;
      r <- query (loadRoutineFull id) ;;
      ret (json_routine r)
  end.

(** [app.post("/api/routines/:id/exercises/:rexId/sets")]. *)
Definition post_routine_sets (id rexId : string) (reps : option Z)
    (peso : option Q) : M Response :=
  n <- nanoid8 env ;;
  let setId := "set_" ++ n in
  run (insert_routine_set env
         {| rs_id := setId; rs_routine_exercise_id := rexId;
            rs_reps := reps; rs_peso := peso |}) ;;
  ts <- now env ;;
  run (update_routine_updatedAt ts id) ;;
  ret (json_id setId).

(** [app.delete("/api/routines/:id/exercises/:rexId/sets/:setId")]. *)
Definition delete_routine_set_h (id rexId setId : string) : M Response :=
  run (delete_routine_set setId rexId) ;;
  ts <- now env ;;
  run (update_routine_updatedAt ts id) ;;
  ret json_ok.

(** The inner loop of [app.post("/api/workouts")]: the sets of one
    item. *)
Definition insert_sets (wi : string) (sets : list StBody) : M unit :=
  forEach
    (fun st _ =>
       n <- nanoid8 env ;;
       run (insert_workout_set env
              {| ws_id := "ws_" ++ n; ws_workout_item_id := wi;
                 ws_reps := st_reps st; ws_peso := st_peso st;
                 ws_done := Some (if st_done st then 1 else 0) |}))
    sets.

(** The outer loop: one item and its sets. *)
Definition insert_item (id : string) (it : ItBody) (idx : Z) : M unit :=
  n <- nanoid8 env ;;
  let wi := "wi_" ++ n in
  run (insert_workout_item env
         {| wi_id := wi; wi_workout_id := id;
            wi_exercise_id := it_exerciseId it; wi_name := it_name it;
            wi_bodyPart := it_bodyPart it; wi_image := it_image it;
            wi_order_index := Some idx |}) ;;
  insert_sets wi (or_nil (it_sets it)).

(** [app.post("/api/workouts")]. *)
Definition post_workouts (s : WorkoutBody) : M Response :=
  n <- nanoid8 env ;;
  let id := "wo_" ++ n in
  transaction
    (run (insert_workout
            {| w_id := id; w_routine_id := s_routineId s;
               w_startedAt := s_startedAt s;
               w_finishedAt := s_finishedAt s;
               w_durationSec := s_durationSec s |}) ;;
     forEach (insert_item id) (or_nil (s_items s))) ;;
  ret (json_id id).

(** The routing table. *)
Definition route (req : Request) : M Response :=
  match req with
  | GET_health => ret json_ok
  | GET_exercises_groups => rows <- query groups ;; ret (json_groups rows)
  | GET_exercises q group =>
      rows <- query (search q group) ;; ret (json_exercises rows)
  | POST_exercises p => post_exercises p
  | GET_routines => rows <- query get_routines ;; ret (json_routines rows)
  | POST_routines name => post_routines name
  | GET_routine id => get_routine id
  | PUT_routine id body => put_routine id body
  | DELETE_routine_exercise id rexId => delete_routine_exercise_h id rexId
  | POST_routine_exercises id exerciseId =>
      post_routine_exercises id exerciseId
  | POST_routine_sets id rexId reps peso =>
      post_routine_sets id rexId reps peso
  | DELETE_routine_set id rexId setId => delete_routine_set_h id rexId setId
  | POST_workouts s => post_workouts s
  | GET_marks => rows <- query marks ;; ret (json_marks rows)
  end.

(** One request: Express answers an uncaught exception with status 500. *)
Definition handle (req : Request) (w : World) : World * Response :=
  match route req w with
  | (w', Ok res) => (w', res)
  | (w', Throw e) => (w', status_500 e)
  end.

(** A sequence of requests, served one after the other. *)
Fixpoint serve (reqs : list Request) (w : World) : World :=
  match reqs with
  | [] => w
  | req :: rest => serve rest (fst (handle req w))
  end.

(** Start-up seeding: [if(count===0)] load the bundled rows in one
    transaction. *)
Definition seed_exercises (seed : list Exercise) : M unit :=
  count <- query (fun d => List.length (exercises d)) ;;
  match count with
  | O => transaction (forEach (fun r _ => run (insert_exercise r)) seed)
  | S _ => ret tt
  end.
End Server.

(** The world when the process starts on a new database file. *)
Definition boot : World := {| db := empty_db; clock := 0; ids := 0 |}.

(** The partition of an exercise, ranked. *)
Definition ranking (k : option string) (d : DB)
    : list (WorkoutItem * WorkoutSet) :=
  order_by pr_order (filter (same_exercise k) (joined d)).

(** ** The ranking, in the words of the specification *)

(** [x] sorts strictly before [y] in descending order with NULLs last. *)
Definition desc_nulls_last {A : Type} (lt : A -> A -> Prop)
    (x y : option A) : Prop :=
  match x, y with
  | Some a, Some b => lt b a
  | Some _, None => True
  | None, _ => False
  end.

(** [x] and [y] tie: both NULL, or equal values. *)
Definition tie {A : Type} (eq : A -> A -> Prop) (x y : option A) : Prop :=
  match x, y with
  | Some a, Some b => eq a b
  | None, None => True
  | _, _ => False
  end.

(** Weight descending with nulls last, then reps descending with nulls last
    as tie-break: [s] is ranked no lower than [t]. *)
Definition ranks_no_lower (s t : WorkoutSet) : Prop :=
  desc_nulls_last Qlt (ws_peso s) (ws_peso t) \/
  (tie Qeq (ws_peso s) (ws_peso t) /\
   (desc_nulls_last Z.lt (ws_reps s) (ws_reps t) \/
    tie eq (ws_reps s) (ws_reps t))).

(** A recorded set [ws], owned by the item [wi], is a set of exercise [E]. *)
Definition recorded (d : DB) (E : option string) (wi : WorkoutItem)
    (ws : WorkoutSet) : Prop :=
  In ws (workout_sets d) /\ In wi (workout_items d) /\
  wi_id wi = ws_workout_item_id ws /\ wi_exercise_id wi = E.

(** [top] is a recorded set of [E] that no recorded set of [E] outranks. *)
Definition top_ranked (d : DB) (E : option string) (top : WorkoutSet) : Prop :=
  (exists wi, recorded d E wi top) /\
  forall wi' ws', recorded d E wi' ws' -> ranks_no_lower top ws'.



(** ** Routine timestamps *)

(** The [updatedAt] column of the routine [id] in a routines table; NULL
    also when no such routine exists. *)
Definition stamp (id : string) (t : list Routine) : option Z :=
  match find (fun r => String.eqb (r_id r) id) t with
  | Some r => r_updatedAt r
  | None => None
  end.

(** The [updatedAt] of the routine [id] in the database. *)
Definition updatedAt (id : string) (d : DB) : option Z :=
  stamp id (routines d).

(** A request that changes the routine [R] through its own id: a PUT with
    a name or an exercises array, or the addition or removal of an
    exercise or of a set. *)
Definition mutates (R : string) (req : Request) : bool :=
  match req with
  | PUT_routine id body =>
      String.eqb id R
      && (truthy (body_name body)
          || match body_exercises body with Some _ => true | None => false end)
  | DELETE_routine_exercise id _ => String.eqb id R
  | POST_routine_exercises id exerciseId => String.eqb id R
  | POST_routine_sets id _ _ _ => String.eqb id R
  | DELETE_routine_set id _ _ => String.eqb id R
  | _ => false
  end.

(** The request was rejected (4xx) or aborted by an exception (500). *)
Definition failed (res : Response) : bool :=
  match res with
  | json_error _ _ | status_500 _ => true
  | _ => false
  end.

(** Every routine carries, as [updatedAt], a reading the clock gave
    earlier. *)
Definition stamped (env : Env) (w : World) : Prop :=
  forall R, has_key r_id R (routines (db w)) = true ->
    exists k, (k < clock w)%nat /\
              updatedAt R (db w) = Some (Date_now env k).

(** The clock never gives the same or an earlier reading again. *)
Definition strictly_increasing (env : Env) : Prop :=
  forall m n, (m < n)%nat -> Date_now env m < Date_now env n.

(** The clock never gives an earlier reading again; the same reading may
    come several times, as it does within one millisecond. *)
Definition non_decreasing (env : Env) : Prop :=
  forall m n, (m <= n)%nat -> Date_now env m <= Date_now env n.

(** The clock has moved on: the reading a request arriving at [w] takes
    first is later than the reading taken last before it. *)
Definition clock_moved_on (env : Env) (w : World) : Prop :=
  Date_now env (pred (clock w)) < Date_now env (clock w).

(** One write to the routines table, stamped with the reading [c]. *)
Inductive routines_write (env : Env) (c : nat)
    : list Routine -> list Routine -> Prop :=
| write_touch id t :
    routines_write env c t
      (UPDATE (fun r => String.eqb (r_id r) id)
         (touched (Date_now env c)) t)
| write_rename id name t :
    routines_write env c t
      (UPDATE (fun r => String.eqb (r_id r) id)
         (renamed name (Date_now env c)) t)
| write_insert row t :
    has_key r_id (r_id row) t = false ->
    r_updatedAt row = Some (Date_now env c) ->
    routines_write env c t (t ++ [row]).

(** The [updatedAt] claim to the letter, first half: after the request the
    stamp of [R] is strictly greater than before. *)
Definition stamp_rises (env : Env) (R : string) (req : Request)
    (w : World) : Prop :=
  exists t t',
    updatedAt R (db w) = Some t /\
    updatedAt R (db (fst (handle env req w))) = Some t' /\ t < t'.

(** Second half: when the request changes the exercises or sets beneath
    [R], the stamp of [R] is afterwards at least every reading the clock
    gave while the request was served. *)
Definition stamp_covers (env : Env) (R : string) (req : Request)
    (w : World) : Prop :=
  let w' := fst (handle env req w) in
  option_map full_exercises (loadRoutineFull R (db w')) <>
  option_map full_exercises (loadRoutineFull R (db w)) ->
  exists t',
    updatedAt R (db w') = Some t' /\
    forall k, (clock w <= k < clock w')%nat -> Date_now env k <= t'.

(** ** Editing sets by identity *)

(** The set entries of a PUT body, in the order the handler visits them. *)
Definition entries (l : list ExBody) : list SetBody :=
  flat_map (fun ex => or_nil (ex_sets ex)) l.

(** The entry names the row: its [id] is present, not empty, and equal to
    the row's id. *)
Definition addresses (e : SetBody) (s : RoutineSet) : bool :=
  match s_id e with
  | Some (String c i) => String.eqb (rs_id s) (String c i)
  | _ => false
  end.

(** Updating by identity: a row takes the values of the last entry that
    names it and stays as it is when no entry does. *)
Definition final_edit (es : list SetBody) (s : RoutineSet) : RoutineSet :=
  match find (fun e => addresses e s) (rev es) with
  | Some e => edited (s_reps e) (s_peso e) s
  | None => s
  end.

(** One entry of the body applied to one row. *)
Definition apply_entry (s : RoutineSet) (e : SetBody) : RoutineSet :=
  if addresses e s then edited (s_reps e) (s_peso e) s else s.

(** One entry of the body applied to the table. *)
Definition step_entry (d : DB) (e : SetBody) : DB :=
  with_routine_sets (map (fun s => apply_entry s e) (routine_sets d)) d.

(** A body with an [exercises] array and no [name]. *)
Definition sets_body (l : list ExBody) : RoutineBody :=
  {| body_name := None; body_exercises := Some l |}.

(** A body with a [name] and no [exercises] array. *)
Definition name_body (name : option string) : RoutineBody :=
  {| body_name := name; body_exercises := None |}.

(** The last entry of the body that names the row, if there is one. *)
Definition last_entry (es : list SetBody) (s : RoutineSet) : option SetBody :=
  find (fun e => addresses e s) (rev es).

(** Updating by identity, column by column: [s'] is the row [s] after the
    entries [es]. It keeps the id and the link of [s]; its reps and weight
    are those of the last entry that names [s], and those of [s] when no
    entry does. *)
Definition updated_by_identity (es : list SetBody) (s s' : RoutineSet)
    : Prop :=
  rs_id s' = rs_id s /\
  rs_routine_exercise_id s' = rs_routine_exercise_id s /\
  match last_entry es s with
  | Some e => rs_reps s' = s_reps e /\ rs_peso s' = s_peso e
  | None => rs_reps s' = rs_reps s /\ rs_peso s' = rs_peso s
  end.

(** A row of the routines table before and after a PUT to [id] whose last
    reading of the clock is [k]: every row keeps its id and creation time;
    the row of [id] takes the name of the body, when that is not blank, and
    the reading as [updatedAt]; the other rows stay as they are. *)
Definition row_after_put (env : Env) (id : string) (name : option string)
    (k : nat) (r r' : Routine) : Prop :=
  r_id r' = r_id r /\ r_createdAt r' = r_createdAt r /\
  if String.eqb (r_id r) id
  then r_name r' = or_else name (r_name r) /\
       r_updatedAt r' = Some (Date_now env k)
  else r_name r' = r_name r /\ r_updatedAt r' = r_updatedAt r.

(** The claim to the letter: one call touches [updatedAt] once. Every
    reading the handler takes from the clock is written to [updatedAt] by
    one UPDATE, so the readings count the touches: the call takes one
    reading and leaves it as the [updatedAt] of the routine. *)
Definition touched_once (env : Env) (id : string) (body : RoutineBody)
    (w : World) : Prop :=
  let w' := fst (handle env (PUT_routine id body) w) in
  clock w' = S (clock w) /\
  updatedAt id (db w') = Some (Date_now env (clock w)).

(** ** Snapshots *)

(** The recorded history and the routine side of the database. *)
Definition history (d : DB)
    : list Workout * list WorkoutItem * list WorkoutSet :=
  (workouts d, workout_items d, workout_sets d).

(** The catalogue and the routine tables. *)
Definition routine_side (d : DB)
    : list Exercise * list Routine * list RoutineExercise * list RoutineSet :=
  (exercises d, routines d, routine_exercises d, routine_sets d).

(** The row [row] is the snapshot of the payload item [it] at position
    [idx] of the session [wid]. *)
Definition item_snapshot (wid : string) (idx : Z) (it : ItBody)
    (row : WorkoutItem) : Prop :=
  wi_workout_id row = wid /\ wi_exercise_id row = it_exerciseId it /\
  wi_name row = it_name it /\ wi_bodyPart row = it_bodyPart it /\
  wi_image row = it_image it /\ wi_order_index row = Some idx.

(** The row [row] is the payload set [st], owned by the item [owner]. *)
Definition set_snapshot (owner : string) (st : StBody)
    (row : WorkoutSet) : Prop :=
  ws_workout_item_id row = owner /\ ws_reps row = st_reps st /\
  ws_peso row = st_peso st /\
  ws_done row = Some (if st_done st then 1 else 0).

(** The item rows and the set rows are the snapshot of the payload items:
    one row per item, in the given order, at positions [idx], [idx+1], ...;
    then, item after item, one row per set in the given order, owned by its
    item's row. *)
Fixpoint snapshot (wid : string) (idx : Z) (its : list ItBody)
    (rows : list WorkoutItem) (sets : list WorkoutSet) : Prop :=
  match its, rows with
  | [], [] => sets = []
  | it :: its', row :: rows' =>
      item_snapshot wid idx it row /\
      exists mine rest,
        sets = (mine ++ rest)%list /\
        Forall2 (set_snapshot (wi_id row)) (or_nil (it_sets it)) mine /\
        snapshot wid (idx + 1) its' rows' rest
  | _, _ => False
  end.

(** The number of ids generated for the items of a session payload: one per
    item and one per set. *)
Definition item_ids (its : list ItBody) : nat :=
  fold_right (fun it n => (S (List.length (or_nil (it_sets it))) + n)%nat)
    O its.

(** The number of ids [POST /api/workouts] generates for a payload. *)
Definition ids_needed (s : WorkoutBody) : nat :=
  S (item_ids (or_nil (s_items s))).

(** The next [n] generated ids are pairwise different. *)
Definition distinct_ids (env : Env) (from n : nat) : Prop :=
  forall j k, (from <= j < k)%nat -> (k < from + n)%nat ->
    nanoid env j <> nanoid env k.

(** The next [n] generated ids are pairwise different and none of them is
    the id of a stored workout, item or set. *)
Definition fresh_ids (env : Env) (w : World) (n : nat) : Prop :=
  distinct_ids env (ids w) n /\
  forall k, (ids w <= k < ids w + n)%nat ->
    has_key w_id ("wo_" ++ nanoid env k) (workouts (db w)) = false /\
    has_key wi_id ("wi_" ++ nanoid env k) (workout_items (db w)) = false /\
    has_key ws_id ("ws_" ++ nanoid env k) (workout_sets (db w)) = false.

(** ** Sample environments and payloads *)

Definition two_digits (n : nat) : string :=
  bytes [48 + n / 10; 48 + n mod 10]%nat.

(** A clock that advances by one millisecond at every reading. *)
Definition ticking (fk : bool) : Env :=
  {| Date_now := fun n => 1000 + Z.of_nat n; nanoid := two_digits;
     foreign_keys := fk; LIKE := fun _ _ => true; LOWER := fun s => s;
     toLowerCase := fun s => s |}.

(** A clock read several times within the same millisecond. *)
Definition frozen (fk : bool) : Env :=
  {| Date_now := fun _ => 1000; nanoid := two_digits;
     foreign_keys := fk; LIKE := fun _ _ => true; LOWER := fun s => s;
     toLowerCase := fun s => s |}.

(** Payload builders for the examples. *)
Definition a_set (reps : option Z) (peso : option Q) (done : bool) : StBody :=
  {| st_reps := reps; st_peso := peso; st_done := done |}.

Definition an_item (exerciseId name : string) (sets : list StBody) : ItBody :=
  {| it_exerciseId := Some exerciseId; it_name := Some name;
     it_bodyPart := Some "Chest"; it_image := Some "";
     it_sets := Some sets |}.

Definition a_session (routineId : string) (items : list ItBody)
    : WorkoutBody :=
  {| s_routineId := Some routineId; s_startedAt := Some 10;
     s_finishedAt := Some 20; s_durationSec := Some 10;
     s_items := Some items |}.

(** The body of a create-exercise request with a name and a body part. *)
Definition an_exercise (name : string) : ExerciseBody :=
  {| p_name := Some name; p_image := None; p_bodyPart := Some "Legs";
     p_primaryMuscles := None; p_secondaryMuscles := None;
     p_equipment := None |}.

(** Two sessions: (E, weight 100, reps 5) and (E, weight 100, reps 8). *)
Definition two_sessions : DB :=
  db (serve (ticking true)
        [ POST_workouts
            (a_session "R1"
               [an_item "E" "Press" [a_set (Some 5) (Some 100%Q) true]]);
          POST_workouts
            (a_session "R1"
               [an_item "E" "Press" [a_set (Some 8) (Some 100%Q) true]]) ]
        boot).

(** One session whose only set has a weight and no reps. *)
Definition reps_left_blank : DB :=
  db (serve (ticking true)
        [ POST_workouts
            (a_session "R1"
               [an_item "E" "Press" [a_set None (Some 100%Q) true]]) ]
        boot).

(** One session whose sets all lack a weight. *)
Definition weights_left_blank : DB :=
  db (serve (ticking true)
        [ POST_workouts
            (a_session "R1"
               [an_item "E" "Press"
                  [a_set (Some 5) None true; a_set None None false]]) ]
        boot).

(** Two routines, A and B; B has one exercise with two planned sets. *)
Definition two_routines (env : Env) : World :=
  serve env
    [ POST_exercises (an_exercise "Squat");
      POST_routines (Some "A");
      POST_routines (Some "B");
      POST_routine_exercises "rut_02" (Some "cus_00");
      POST_routine_sets "rut_02" "rex_03" (Some 5) (Some 60%Q);
      POST_routine_sets "rut_02" "rex_03" (Some 5) (Some 70%Q) ]
    boot.

(** The link of routine B in [two_routines]. *)
Definition link_of_B : RoutineExercise :=
  {| re_id := "rex_03"; re_routine_id := "rut_02";
     re_exercise_id := "cus_00"; re_order_index := Some 1 |}.

(** A routine whose exercises sit at positions 1 and 3: three were added
    and the second one was removed. *)
Definition positions_1_3 : World :=
  serve (ticking true)
    [ POST_exercises (an_exercise "Squat");
      POST_routines (Some "A");
      POST_routine_exercises "rut_01" (Some "cus_00");
      POST_routine_exercises "rut_01" (Some "cus_00");
      POST_routine_exercises "rut_01" (Some "cus_00");
      DELETE_routine_exercise "rut_01" "rex_03" ]
    boot.

(** A PUT body for routine B of [two_routines]: one entry for an existing
    set, one for an unknown id and one without id. *)
Definition mixed_entries : list ExBody :=
  [ {| ex_id := Some "rex_03";
       ex_sets :=
         Some [ {| s_id := Some "set_04"; s_reps := Some 8;
                   s_peso := Some 65%Q |};
                {| s_id := Some "set_99"; s_reps := Some 1;
                   s_peso := Some 1%Q |};
                {| s_id := None; s_reps := Some 2; s_peso := None |} ] |} ].

(** The same entries in a body that also renames the routine. *)
Definition rename_and_edit : RoutineBody :=
  {| body_name := Some "Pull day"; body_exercises := Some mixed_entries |}.

(** Entries that name no stored set. *)
Definition stray_entries : list ExBody :=
  [ {| ex_id := Some "rex_03";
       ex_sets :=
         Some [ {| s_id := Some "set_99"; s_reps := Some 1;
                   s_peso := Some 1%Q |};
                {| s_id := Some ""; s_reps := Some 3; s_peso := None |};
                {| s_id := None; s_reps := Some 2; s_peso := None |} ] |};
    {| ex_id := None; ex_sets := None |} ].

(** The session of the specification: two items, each with a completed and
    an open set, recorded for routine B of [two_routines]. *)
Definition four_sets : WorkoutBody :=
  a_session "rut_02"
    [ an_item "cus_00" "Squat"
        [a_set (Some 5) (Some 60%Q) true; a_set (Some 5) (Some 70%Q) false];
      an_item "cus_09" "Press"
        [a_set (Some 8) (Some 40%Q) true; a_set (Some 6) None false] ].

(** Edits of the source routine after the session was recorded. *)
Definition later_edits : list Request :=
  [ PUT_routine "rut_02"
      {| body_name := Some "Renamed";
         body_exercises := Some mixed_entries |};
    POST_routine_sets "rut_02" "rex_03" None None;
    DELETE_routine_set "rut_02" "rex_03" "set_04";
    DELETE_routine_exercise "rut_02" "rex_03";
    POST_routine_exercises "rut_02" (Some "cus_00");
    POST_exercises (an_exercise "Squat") ].

(** A routine with one exercise, created within one millisecond. *)
Definition same_millisecond : World :=
  serve (frozen true)
    [ POST_exercises (an_exercise "Squat");
      POST_routines (Some "A");
      POST_routine_exercises "rut_01" (Some "cus_00") ]
    boot.

(** A sequence of edits of routine A of [two_routines]. *)
Definition edits_of_A : list Request :=
  [ PUT_routine "rut_01" (name_body (Some "Push day"));
    POST_routine_exercises "rut_01" (Some "cus_00");
    POST_routine_sets "rut_01" "rex_06" (Some 10) None;
    PUT_routine "rut_02" (name_body (Some "Pull day"));
    DELETE_routine_set "rut_01" "rex_06" "set_07" ].

(** ** Well-behaved comparators *)

(** What an ORDER BY term has to satisfy for the sorted output to be
    ordered: swapping the arguments flips the verdict, [Lt] chains, and rows
    that tie compare alike against any third row. *)
Record weak_order {A : Type} (cmp : A -> A -> comparison) : Prop := {
  wo_flip : forall a b, cmp b a = CompOpp (cmp a b);
  wo_lt_trans : forall a b c, cmp a b = Lt -> cmp b c = Lt -> cmp a c = Lt;
  wo_eq_l : forall a b c, cmp a b = Eq -> cmp a c = cmp b c
}.

(** ** Integrity of the tables *)

(** The PRIMARY KEY clauses of the schema: no two rows of a table share
    their [id]. *)
Definition primary_keys (d : DB) : Prop :=
  NoDup (map e_id (exercises d)) /\
  NoDup (map r_id (routines d)) /\
  NoDup (map re_id (routine_exercises d)) /\
  NoDup (map rs_id (routine_sets d)) /\
  NoDup (map w_id (workouts d)) /\
  NoDup (map wi_id (workout_items d)) /\
  NoDup (map ws_id (workout_sets d)).

(** The FOREIGN KEY clauses of the schema: every child row names a parent
    row that exists. *)
Definition referential_integrity (d : DB) : Prop :=
  (forall re, In re (routine_exercises d) ->
     has_key r_id (re_routine_id re) (routines d) = true /\
     has_key e_id (re_exercise_id re) (exercises d) = true) /\
  (forall s, In s (routine_sets d) ->
     has_key re_id (rs_routine_exercise_id s) (routine_exercises d) = true) /\
  (forall wi, In wi (workout_items d) ->
     has_key w_id (wi_workout_id wi) (workouts d) = true) /\
  (forall ws, In ws (workout_sets d) ->
     has_key wi_id (ws_workout_item_id ws) (workout_items d) = true).

(** The statements the server prepares and runs. *)
Inductive statement (env : Env) : (DB -> outcome DB) -> Prop :=
| stmt_insert_exercise row : statement env (insert_exercise row)
| stmt_insert_routine row : statement env (insert_routine row)
| stmt_update_routine_name name ts id :
    statement env (update_routine_name name ts id)
| stmt_update_routine_updatedAt ts id :
    statement env (update_routine_updatedAt ts id)
| stmt_update_routine_set reps peso id :
    statement env (update_routine_set reps peso id)
| stmt_delete_sets_of rexId : statement env (delete_sets_of rexId)
| stmt_delete_routine_exercise rexId id :
    statement env (delete_routine_exercise env rexId id)
| stmt_insert_routine_exercise row :
    statement env (insert_routine_exercise env row)
| stmt_insert_routine_set row : statement env (insert_routine_set env row)
| stmt_delete_routine_set setId rexId :
    statement env (delete_routine_set setId rexId)
| stmt_insert_workout row : statement env (insert_workout row)
| stmt_insert_workout_item row : statement env (insert_workout_item env row)
| stmt_insert_workout_set row : statement env (insert_workout_set env row).

(** A property of the database that every successful statement keeps. *)
Definition kept_by_statements (env : Env) (P : DB -> Prop) : Prop :=
  forall stmt d d', statement env stmt -> P d -> stmt d = Ok d' -> P d'.

(** A computation that leaves the database in [P] when it starts in [P],
    whether it returns or throws. *)
Definition keeps {A : Type} (P : DB -> Prop) (m : M A) : Prop :=
  forall w, P (db w) -> P (db (fst (m w))).

(** The columns of a routine that no statement assigns after the INSERT. *)
Definition birth (r : Routine) : string * option Z := (r_id r, r_createdAt r).

(** ** More sample worlds *)

(** A generator that always hands out the same id: every second INSERT
    collides. *)
Definition stuck (fk : bool) : Env :=
  {| Date_now := fun n => 1000 + Z.of_nat n; nanoid := fun _ => "same";
     foreign_keys := fk; LIKE := fun _ _ => true; LOWER := fun s => s;
     toLowerCase := fun s => s |}.

(** The catalogue and the routines of [d0] are still there in [d]: the
    exercises table of [d] is that of [d0] followed by further rows, and so
    is the routines table as far as [id] and [createdAt] go. *)
Definition persists (d0 d : DB) : Prop :=
  (exists l, exercises d = (exercises d0 ++ l)%list) /\
  (exists l, map birth (routines d) = (map birth (routines d0) ++ l)%list).

(** ** The full routine, as a reader sees it *)

(** The element of [exercises] that [loadRoutineFull] builds from a link
    and the catalogue row of its exercise. *)
Definition view_link (d : DB) (re : RoutineExercise) (e : Exercise)
    : RoutineExerciseView :=
  {| rex_id := re_id re; rex_order_index := re_order_index re;
     rex_exercise := view_exercise e;
     rex_sets := map view_set (setsByRex (re_id re) d) |}.

(** [a] may come before [b] in the full routine: by position, a NULL
    position first, and by link id among equal positions. *)
Definition before (a b : RoutineExerciseView) : Prop :=
  match rex_order_index a, rex_order_index b with
  | None, Some _ => True
  | Some _, None => False
  | None, None => String.leb (rex_id a) (rex_id b) = true
  | Some x, Some y =>
      x < y \/ (x = y /\ String.leb (rex_id a) (rex_id b) = true)
  end.

(** ** The list of routines *)

(** [x] may come before [y] under [ORDER BY updatedAt DESC]: larger stamps
    first, NULL last. *)
Definition newer_first (x y : option Z) : Prop :=
  match x, y with
  | _, None => True
  | None, Some _ => False
  | Some a, Some b => b <= a
  end.

(** The client's [RoutineCard]: [totalSets] is
    [(r.exercises||[]).reduce((acc,e)=>acc+e.sets.length,0)], and the
    badge shows [r.exercises.length || 0]. *)
Definition totalSets (r : RoutineSummary) : nat :=
  fold_left (fun acc e => (acc + List.length e)%nat) (sum_exercises r) O.

Definition badge (r : RoutineSummary) : nat := List.length (sum_exercises r).

(** A row of the bundled [seed_exercises.json]. *)
Definition a_seed_row (id name bodyPart : string) : Exercise :=
  {| e_id := id; e_name := name; e_image := Some "";
     e_bodyPart := Some bodyPart; e_primaryMuscles := Some "";
     e_secondaryMuscles := Some ""; e_equipment := Some "";
     e_isCustom := Some 0 |}.

Definition a_seed : list Exercise :=
  [ a_seed_row "0001" "Squat" "Legs"; a_seed_row "0002" "Bench press" "Chest";
    a_seed_row "0003" "Lunge" "Legs" ].

(** ** Personal records over time *)

(** The weight [x] is at least the weight [y]; a missing weight is below
    every weight. *)
Definition weight_no_lower (x y : option Q) : Prop :=
  match y with
  | None => True
  | Some b => match x with Some a => (b <= a)%Q | None => False end
  end.

(** Every joined row of [d0] is a joined row of [d]. *)
Definition keeps_history (d0 d : DB) : Prop :=
  forall j, In j (joined d0) -> In j (joined d).

(** A recorded set with its [done] flag blanked out. *)
Definition forget_done (s : WorkoutSet) : WorkoutSet :=
  {| ws_id := ws_id s; ws_workout_item_id := ws_workout_item_id s;
     ws_reps := ws_reps s; ws_peso := ws_peso s; ws_done := None |}.

(** The session of [reps_left_blank] with its set left open. *)
Definition never_ticked : DB :=
  db (serve (ticking true)
        [ POST_workouts
            (a_session "R1"
               [an_item "E" "Press" [a_set None (Some 100%Q) false]]) ]
        boot).

(** ** The client: [escapeHtml] *)

(** The characters the regular expression cannot spell in a Rocq
    character literal: the double quote and the apostrophe. *)
Definition quot : ascii := ascii_of_nat 34.
Definition apos : ascii := ascii_of_nat 39.

(** The replacement table of [escapeHtml]. *)
Definition entity (c : ascii) : option string :=
  if Ascii.eqb c "&" then Some "&amp;"
  else if Ascii.eqb c "<" then Some "&lt;"
  else if Ascii.eqb c ">" then Some "&gt;"
  else if Ascii.eqb c quot then Some "&quot;"
  else if Ascii.eqb c apos then Some "&#39;"
  else None.

(** [str.replace(re, m => table[m])], where the global regular expression
    [re] matches the ampersand, the angle brackets, the double quote and
    the apostrophe: every occurrence of one of the five characters is
    replaced, every other character is kept. *)
Fixpoint replace_all (s : string) : string :=
  match s with
  | EmptyString => EmptyString
  | String c rest =>
      match entity c with
      | Some e => e ++ replace_all rest
      | None => String c (replace_all rest)
      end
  end.

(** [escapeHtml(str="")]: [None] is a missing argument. *)
Definition escapeHtml (str : option string) : string :=
  replace_all (match str with Some s => s | None => "" end).

(** ** The client: a workout session *)

(** [STATE.workoutSession]. *)
Record SessSet := {
  ss_id : string;
  ss_reps : option Z;
  ss_peso : option Q;
  ss_done : bool
}.

Record SessItem := {
  si_exerciseId : string;
  si_name : string;
  si_image : option string;
  si_bodyPart : option string;
  si_sets : list SessSet
}.

Record Session := {
  sess_routineId : string;
  sess_startedAt : Z;
  sess_finishedAt : option Z;
  sess_durationSec : Z;
  sess_currentIndex : Z;
  sess_items : list SessItem
}.

(** [startWorkout]: [r] is the answer of [GET /api/routines/:id], [now]
    the reading of the client's clock; [None] is the branch that opens the
    editor instead of starting a session. *)
Definition startWorkout (r : option RoutineFull) (now : Z) : option Session :=
  match r with
  | None => None
  | Some r =>
      match full_exercises r with
      | [] => None
      | _ :: _ =>
          Some
            {| sess_routineId := full_id r; sess_startedAt := now;
               sess_finishedAt := None; sess_durationSec := 0;
               sess_currentIndex := 0;
               sess_items :=
                 map (fun x =>
                        {| si_exerciseId := x_id (rex_exercise x);
                           si_name := x_name (rex_exercise x);
                           si_image := x_image (rex_exercise x);
                           si_bodyPart := x_bodyPart (rex_exercise x);
                           si_sets :=
                             map (fun s =>
                                    {| ss_id := set_id s;
                                       ss_reps := set_reps s;
                                       ss_peso := set_peso s;
                                       ss_done := false |})
                               (rex_sets x) |})
                   (full_exercises r) |}
      end
  end.

(** [completedSetsCount] and [maxSetsCount]. *)
Definition completedSetsCount (sess : Session) : nat :=
  fold_left (fun acc it => (acc + List.length (filter ss_done (si_sets it)))%nat)
    (sess_items sess) O.

Definition maxSetsCount (sess : Session) : nat :=
  match fold_left (fun acc it => (acc + List.length (si_sets it))%nat)
          (sess_items sess) O with
  | O => 1%nat
  | n => n
  end.

(** The element at position [n] replaced by its image under [f]. *)
Fixpoint at_index {A : Type} (n : nat) (f : A -> A) (l : list A) : list A :=
  match l, n with
  | [], _ => []
  | x :: rest, O => f x :: rest
  | x :: rest, S n' => x :: at_index n' f rest
  end.

(** What the user can do in the workout view: the two arrows, the tick of
    the [j]-th set of the exercise on screen, its two inputs (the value
    already read as a number, [None] for an empty field) and the
    stopwatch, which fires with a reading of the clock.  The listeners are
    looked up by set id; the sets of an item have different ids, so each
    set has controls of its own and is addressed here by its position. *)
Inductive Click :=
| wo_prev
| wo_next
| toggle (j : nat)
| input_reps (j : nat) (value : option Z)
| input_peso (j : nat) (value : option Q)
| stopwatch (now : Z).

Definition with_index (i : Z) (s : Session) : Session :=
  {| sess_routineId := sess_routineId s; sess_startedAt := sess_startedAt s;
     sess_finishedAt := sess_finishedAt s;
     sess_durationSec := sess_durationSec s; sess_currentIndex := i;
     sess_items := sess_items s |}.

(** A change of the [j]-th set of the item on screen. *)
Definition on_set (j : nat) (f : SessSet -> SessSet) (s : Session) : Session :=
  {| sess_routineId := sess_routineId s; sess_startedAt := sess_startedAt s;
     sess_finishedAt := sess_finishedAt s;
     sess_durationSec := sess_durationSec s;
     sess_currentIndex := sess_currentIndex s;
     sess_items :=
       if sess_currentIndex s <? 0 then sess_items s
       else
         at_index (Z.to_nat (sess_currentIndex s))
           (fun it =>
              {| si_exerciseId := si_exerciseId it; si_name := si_name it;
                 si_image := si_image it; si_bodyPart := si_bodyPart it;
                 si_sets := at_index j f (si_sets it) |})
           (sess_items s) |}.

(** The listeners of [renderWorkout] and the timer of [startStopwatch]. *)
Definition click (c : Click) (s : Session) : Session :=
  match c with
  | wo_prev => with_index (Z.max 0 (sess_currentIndex s - 1)) s
  | wo_next =>
      with_index
        (Z.min (Z.of_nat (List.length (sess_items s)) - 1)
           (sess_currentIndex s + 1)) s
  | toggle j =>
      on_set j
        (fun x => {| ss_id := ss_id x; ss_reps := ss_reps x;
                     ss_peso := ss_peso x; ss_done := negb (ss_done x) |}) s
  | input_reps j v =>
      on_set j
        (fun x => {| ss_id := ss_id x; ss_reps := v;
                     ss_peso := ss_peso x; ss_done := ss_done x |}) s
  | input_peso j v =>
      on_set j
        (fun x => {| ss_id := ss_id x; ss_reps := ss_reps x;
                     ss_peso := v; ss_done := ss_done x |}) s
  | stopwatch now =>
      {| sess_routineId := sess_routineId s;
         sess_startedAt := sess_startedAt s;
         sess_finishedAt := sess_finishedAt s;
         sess_durationSec := (now - sess_startedAt s) / 1000;
         sess_currentIndex := sess_currentIndex s;
         sess_items := sess_items s |}
  end.

(** The session after a sequence of clicks. *)
Definition clicks (cs : list Click) (s : Session) : Session :=
  fold_left (fun s c => click c s) cs s.

(** [STATE.workoutSession.finishedAt = Date.now()]. *)
Definition finish (now : Z) (s : Session) : Session :=
  {| sess_routineId := sess_routineId s; sess_startedAt := sess_startedAt s;
     sess_finishedAt := Some now; sess_durationSec := sess_durationSec s;
     sess_currentIndex := sess_currentIndex s; sess_items := sess_items s |}.

(** What the server reads in [JSON.stringify(STATE.workoutSession)]. *)
Definition payload (s : Session) : WorkoutBody :=
  {| s_routineId := Some (sess_routineId s);
     s_startedAt := Some (sess_startedAt s);
     s_finishedAt := sess_finishedAt s;
     s_durationSec := Some (sess_durationSec s);
     s_items :=
       Some (map (fun it =>
                    {| it_exerciseId := Some (si_exerciseId it);
                       it_name := Some (si_name it);
                       it_bodyPart := si_bodyPart it;
                       it_image := si_image it;
                       it_sets :=
                         Some (map (fun x =>
                                      {| st_reps := ss_reps x;
                                         st_peso := ss_peso x;
                                         st_done := ss_done x |})
                                 (si_sets it)) |})
               (sess_items s)) |}.

(** [sess.items[sess.currentIndex]] is an item. *)
Definition on_screen (s : Session) : Prop :=
  0 <= sess_currentIndex s < Z.of_nat (List.length (sess_items s)).

(** The number of sets of the session. *)
Definition all_sets (s : Session) : list SessSet :=
  flat_map si_sets (sess_items s).

(** The columns of a session item that identify its exercise. *)
Definition item_identity (it : SessItem)
    : string * string * option string * option string :=
  (si_exerciseId it, si_name it, si_image it, si_bodyPart it).

(** A session started from routine B of [two_routines]. *)
Definition a_started_session : option Session :=
  startWorkout (loadRoutineFull "rut_02" (db (two_routines (ticking true))))
    5000.

(** What the user does in the session of the examples: tick the first set,
    type 12 reps into the second, and let the stopwatch run. *)
Definition some_clicks : list Click :=
  [toggle 0; wo_next; input_reps 1 (Some 12); stopwatch 65000].

(** ** The client: the editor of a routine *)

(** A set row of the editor: its [data-set] attribute and the text in its
    two inputs. *)
Record Row := {
  row_set : string;
  inp_reps : string;
  inp_peso : string
}.

(** An exercise card of the editor: its [data-rex] attribute and its set
    rows, in document order. *)
Record Card := {
  card_rex : string;
  card_rows : list Row
}.

(** [EditExerciseCard]: the template writes the ids into the attributes and
    renders both inputs of every set with an empty value, whatever the
    stored reps and weight are.  (The ids are taken to come back unchanged
    from [getAttribute], as the generated ids do.) *)
Definition EditExerciseCard (x : RoutineExerciseView) : Card :=
  {| card_rex := rex_id x;
     card_rows :=
       map (fun s => {| row_set := set_id s; inp_reps := ""; inp_peso := "" |})
         (rex_sets x) |}.

(** The cards [renderEditRoutine] puts on the page. *)
Definition renderEditRoutine (r : RoutineFull) : list Card :=
  map EditExerciseCard (full_exercises r).

Section Editor.
(** [parseInt(text, 10)] and [parseFloat(text)]; [None] is NaN, which JSON
    writes as null. *)
Variable parseInt : string -> option Z.
Variable parseFloat : string -> option Q.

(** [collectRoutineFromDOM]: the payload of the Save button. *)
Definition collectRoutineFromDOM (cards : list Card) : RoutineBody :=
  {| body_name := None;
     body_exercises :=
       Some
         (map (fun card =>
                 {| ex_id := Some (card_rex card);
                    ex_sets :=
                      Some
                        (map (fun row =>
                                {| s_id := Some (row_set row);
                                   s_reps :=
                                     if String.eqb (inp_reps row) ""
                                     then None else parseInt (inp_reps row);
                                   s_peso :=
                                     if String.eqb (inp_peso row) ""
                                     then None
                                     else parseFloat (inp_peso row) |})
                           (card_rows card)) |})
            cards) |}.

(** The request the Save button sends for the routine on screen. *)
Definition save_routine (r : RoutineFull) (cards : list Card) : Request :=
  PUT_routine (full_id r) (collectRoutineFromDOM cards).
End Editor.

(** The set id [i] is shown in the editor of [r]. *)
Definition shown (r : RoutineFull) (i : string) : bool :=
  existsb (fun x => existsb (fun v => String.eqb (set_id v) i) (rex_sets x))
    (full_exercises r).

(** ** The client: forms *)

(** The Save button of [openCreateRoutine]: [value] is the text of the
    name input; [None] is the branch that sends nothing. *)
Definition openCreateRoutine (value : string) : option Request :=
  match trim value with
  | EmptyString => None
  | name => Some (POST_routines (Some name))
  end.

(** The button of the rename dialog of [renderEditRoutine]. *)
Definition rename_click (r : RoutineFull) (value : string) : option Request :=
  match trim value with
  | EmptyString => None
  | nv => Some (PUT_routine (full_id r) (name_body (Some nv)))
  end.

(** The six inputs of [openCreateExerciseForm]. *)
Record ExerciseForm := {
  ex_name : string;
  ex_img : string;
  ex_body : string;
  ex_primary : string;
  ex_secondary : string;
  ex_eq : string
}.

(** Its Save button: the payload carries the inputs as typed. *)
Definition openCreateExerciseForm (f : ExerciseForm) : option Request :=
  match trim (ex_name f) with
  | EmptyString => None
  | _ =>
      Some (POST_exercises
              {| p_name := Some (ex_name f); p_image := Some (ex_img f);
                 p_bodyPart := Some (ex_body f);
                 p_primaryMuscles := Some (ex_primary f);
                 p_secondaryMuscles := Some (ex_secondary f);
                 p_equipment := Some (ex_eq f) |})
  end.

(** A request that only reads. *)
Definition reads (req : Request) : bool :=
  match req with
  | GET_health | GET_exercises_groups | GET_exercises _ _ | GET_routines
  | GET_routine _ | GET_marks => true
  | _ => false
  end.

(** A request whose handler runs an INSERT: the five POST requests. *)
Definition inserts (req : Request) : bool :=
  match req with
  | POST_exercises _ | POST_routines _ | POST_routine_exercises _ _
  | POST_routine_sets _ _ _ _ | POST_workouts _ => true
  | _ => false
  end.

(** A request whose handler runs UPDATE and DELETE statements only. *)
Definition only_updates (req : Request) : bool :=
  match req with
  | PUT_routine _ _ | DELETE_routine_exercise _ _
  | DELETE_routine_set _ _ _ => true
  | _ => false
  end.

(** ** The client: the stopwatch *)

(** [String(n)] for an integer. *)
Definition String_of_Z (z : Z) : string := NilZero.string_of_int (Z.to_int z).

(** [s.padStart(n, c)] for a pad of one character. *)
Definition padStart (n : nat) (c : ascii) (s : string) : string :=
  string_of_list_ascii (repeat c (n - String.length s)) ++ s.

(** [fmtDuration(sec)]: [Math.floor(x/y)] is [x / y] and [x % y] is
    [Z.rem x y]. *)
Definition fmtDuration (sec : Z) : string :=
  let h := sec / 3600 in
  let m := Z.rem sec 3600 / 60 in
  let s := Z.rem sec 60 in
  (if 0 <? h then padStart 2 "0" (String_of_Z h) ++ ":" else "")
  ++ padStart 2 "0" (String_of_Z m) ++ ":" ++ padStart 2 "0" (String_of_Z s).

(** ** Adding an exercise, as the specification words it *)

(** What the specification promises whenever [exerciseId] is present: the
    routine gains one link to the exercise, placed after its largest
    position (at 1 when it has none), its [updatedAt] becomes the reading of
    the clock, and the answer is the reloaded routine, which carries that
    timestamp and lists the new link when its exercise is in the
    catalogue. *)
Definition appended_at_the_end (env : Env) (id ex : string) (w : World) :
    Prop :=
  let w' := fst (handle env (POST_routine_exercises id (Some ex)) w) in
  exists o,
    routine_exercises (db w') =
      (routine_exercises (db w) ++
       [ {| re_id := "rex_" ++ nanoid env (ids w); re_routine_id := id;
            re_exercise_id := ex; re_order_index := Some o |} ])%list /\
    (forall re k, In re (routine_exercises (db w)) ->
       re_routine_id re = id -> re_order_index re = Some k -> k < o) /\
    ((exists re, In re (routine_exercises (db w)) /\
                 re_routine_id re = id /\
                 re_order_index re = Some (o - 1)) \/
     ((forall re, In re (routine_exercises (db w)) ->
         re_routine_id re = id -> re_order_index re = None) /\ o = 1)) /\
    updatedAt id (db w') = Some (Date_now env (clock w)) /\
    exists r,
      snd (handle env (POST_routine_exercises id (Some ex)) w) =
        json_routine (Some r) /\
      loadRoutineFull id (db w') = Some r /\
      full_id r = id /\
      full_updatedAt r = Some (Date_now env (clock w)) /\
      forall e, In e (exercises (db w)) -> e_id e = ex ->
        exists v,
          In v (full_exercises r) /\
          rex_id v = "rex_" ++ nanoid env (ids w) /\
          rex_order_index v = Some o /\
          rex_exercise v = view_exercise e.

(** * Properties *)

(** ** Comparators *)

Lemma wo_eq_r {A : Type} (cmp : A -> A -> comparison) :
  weak_order cmp ->
  forall a b c, cmp b c = Eq -> cmp a b = cmp a c.
Proof.
  intros W a b c H.
  rewrite (wo_flip cmp W b a), (wo_flip cmp W c a).
  f_equal. apply (wo_eq_l cmp W). exact H.
Qed.

Lemma weak_order_Z : weak_order Z.compare.
Proof.
  split; intros.
  - apply Z.compare_antisym.
  - rewrite Z.compare_lt_iff in *. lia.
  - apply Z.compare_eq in H. now subst.
Qed.

Lemma weak_order_Q : weak_order Qcompare.
Proof.
  split; intros.
  - symmetry. apply Qcompare_antisym.
  - rewrite <- Qlt_alt in *. eapply Qlt_trans; eassumption.
  - rewrite <- Qeq_alt in H. apply Qcompare_comp; [exact H | reflexivity].
Qed.

Lemma weak_order_null {A : Type} (cmp : A -> A -> comparison) :
  weak_order cmp -> weak_order (cmp_null cmp).
Proof.
  intros W. split.
  - intros [a|] [b|]; simpl; auto. apply (wo_flip cmp W).
  - intros [a|] [b|] [c|]; simpl; try congruence. apply (wo_lt_trans cmp W).
  - intros [a|] [b|] [c|]; simpl; try congruence. apply (wo_eq_l cmp W).
Qed.

Lemma weak_order_ASC {A K : Type} (key : A -> K) cmp :
  weak_order cmp -> weak_order (ASC key cmp).
Proof.
  intros W. unfold ASC. split; intros.
  - apply (wo_flip cmp W).
  - eapply (wo_lt_trans cmp W); eassumption.
  - now apply (wo_eq_l cmp W).
Qed.

Lemma weak_order_DESC {A K : Type} (key : A -> K) cmp :
  weak_order cmp -> weak_order (DESC key cmp).
Proof.
  intros W. unfold DESC. split; intros.
  - apply (wo_flip cmp W).
  - eapply (wo_lt_trans cmp W); eassumption.
  - symmetry. now apply (wo_eq_r cmp W).
Qed.

Lemma weak_order_lex {A : Type} (terms : list (A -> A -> comparison)) :
  Forall weak_order terms -> weak_order (lex terms).
Proof.
  induction 1 as [|t rest Wt _ [IHf IHt IHe]].
  - split; simpl; congruence.
  - split; simpl.
    + intros a b. rewrite (wo_flip t Wt a b).
      destruct (t a b); simpl; auto.
    + intros a b c.
      destruct (t a b) eqn:Eab; try discriminate;
        destruct (t b c) eqn:Ebc; try discriminate; intros H1 H2.
      * rewrite (wo_eq_l t Wt a b c Eab), Ebc. eauto.
      * now rewrite (wo_eq_l t Wt a b c Eab), Ebc.
      * now rewrite <- (wo_eq_r t Wt a b c Ebc), Eab.
      * now rewrite (wo_lt_trans t Wt a b c Eab Ebc).
    + intros a b c.
      destruct (t a b) eqn:Eab; try discriminate. intros H.
      rewrite (wo_eq_l t Wt a b c Eab).
      destruct (t b c); auto.
Qed.

Lemma cmp_leb_total {A : Type} (cmp : A -> A -> comparison) :
  (forall a b, cmp b a = CompOpp (cmp a b)) ->
  forall a b, cmp_leb cmp a b = false -> cmp_leb cmp b a = true.
Proof.
  intros F a b. unfold cmp_leb. rewrite (F a b).
  destruct (cmp a b); simpl; congruence.
Qed.

Lemma cmp_leb_trans {A : Type} (cmp : A -> A -> comparison) :
  weak_order cmp ->
  forall a b c,
    cmp_leb cmp a b = true -> cmp_leb cmp b c = true ->
    cmp_leb cmp a c = true.
Proof.
  intros W a b c. unfold cmp_leb.
  destruct (cmp a b) eqn:Eab; try discriminate;
    destruct (cmp b c) eqn:Ebc; try discriminate; intros _ _.
  - now rewrite (wo_eq_l cmp W a b c Eab), Ebc.
  - now rewrite (wo_eq_l cmp W a b c Eab), Ebc.
  - now rewrite <- (wo_eq_r cmp W a b c Ebc), Eab.
  - now rewrite (wo_lt_trans cmp W a b c Eab Ebc).
Qed.

(** ** ORDER BY *)

Section OrderByFacts.
Context {A : Type} (cmp : A -> A -> comparison).

Lemma insert_row_perm x l : Permutation (x :: l) (insert_row cmp x l).
Proof.
  induction l as [|y l IH]; simpl; auto.
  destruct (cmp_leb cmp x y); auto.
  rewrite perm_swap. now constructor.
Qed.

Lemma order_by_perm l : Permutation l (order_by cmp l).
Proof.
  induction l as [|x l IH]; simpl; auto.
  rewrite <- insert_row_perm. now constructor.
Qed.

Lemma order_by_In x l : In x (order_by cmp l) <-> In x l.
Proof.
  split; apply Permutation_in;
    [symmetry|]; apply order_by_perm.
Qed.

Let le (a b : A) : Prop := cmp_leb cmp a b = true.

Hypothesis flip : forall a b, cmp b a = CompOpp (cmp a b).

Lemma insert_row_sorted x l : Sorted le l -> Sorted le (insert_row cmp x l).
Proof.
  induction 1 as [|y l Hs IH Hd]; simpl.
  - repeat constructor.
  - destruct (cmp_leb cmp x y) eqn:E.
    + repeat constructor; auto.
    + constructor; auto.
      apply (cmp_leb_total cmp flip) in E.
      destruct l as [|z l]; simpl.
      * now constructor.
      * destruct (cmp_leb cmp x z); constructor; auto.
        now inversion Hd.
Qed.

Lemma order_by_sorted l : Sorted le (order_by cmp l).
Proof.
  induction l; simpl; [constructor | now apply insert_row_sorted].
Qed.

End OrderByFacts.

(** The first row of the sorted output ranks no lower than any row. *)
Lemma order_by_first {A : Type} (cmp : A -> A -> comparison) x l :
  weak_order cmp ->
  hd_error (order_by cmp l) = Some x ->
  forall y, In y l -> cmp_leb cmp x y = true.
Proof.
  intros W Hx y Hy.
  assert (S : StronglySorted (fun a b => cmp_leb cmp a b = true)
                (order_by cmp l)).
  { apply Sorted_StronglySorted.
    - intros a b c. apply (cmp_leb_trans cmp W).
    - apply order_by_sorted. apply (wo_flip cmp W). }
  apply (order_by_In cmp) in Hy.
  destruct (order_by cmp l) as [|z rest]; [discriminate|].
  injection Hx as Hx. subst z.
  apply StronglySorted_inv in S. destruct S as [_ F].
  destruct Hy as [<-|Hy].
  - unfold cmp_leb.
    assert (E : cmp x x = Eq).
    { pose proof (wo_flip cmp W x x) as F'.
      destruct (cmp x x); simpl in F'; congruence. }
    now rewrite E.
  - rewrite Forall_forall in F. now apply F.
Qed.

(** ** DISTINCT, ROW_NUMBER and the join *)

Lemma option_eqb_eq (x y : option string) :
  option_eqb String.eqb x y = true <-> x = y.
Proof.
  destruct x as [a|], y as [b|]; simpl; try (split; congruence).
  rewrite String.eqb_eq. split; congruence.
Qed.

Lemma distinct_In {A : Type} (eqb : A -> A -> bool) :
  (forall a b, eqb a b = true <-> a = b) ->
  forall x l, In x (distinct eqb l) <-> In x l.
Proof.
  intros E x l. induction l as [|y l IH]; simpl; [tauto|].
  rewrite filter_In, IH. split.
  - intros [H|[H _]]; auto.
  - intros [H|H]; auto.
    destruct (eqb y x) eqn:Eyx.
    + left. now apply E.
    + auto.
Qed.

Lemma distinct_NoDup {A : Type} (eqb : A -> A -> bool) :
  (forall a b, eqb a b = true <-> a = b) ->
  forall l, NoDup (distinct eqb l).
Proof.
  intros E l. induction l as [|y l IH]; simpl; constructor.
  - rewrite filter_In. intros [_ H].
    assert (R : eqb y y = true) by now apply E.
    now rewrite R in H.
  - now apply NoDup_filter.
Qed.

Lemma ROW_NUMBER_from {A : Type} (l : list A) (s : nat) x n :
  In (x, n) (combine l (map Z.of_nat (seq s (List.length l)))) ->
  Z.of_nat s <= n.
Proof.
  intros H. apply in_combine_r in H. apply in_map_iff in H.
  destruct H as [k [<- H]]. apply in_seq in H. lia.
Qed.

(** [WHERE rn=1] keeps the first row of the partition and nothing else. *)
Lemma ROW_NUMBER_first {A : Type} (l : list A) x :
  In (x, 1) (ROW_NUMBER l) <-> hd_error l = Some x.
Proof.
  unfold ROW_NUMBER. destruct l as [|y l]; simpl.
  - split; [tauto | discriminate].
  - split.
    + intros [H|H]; [congruence|].
      apply ROW_NUMBER_from in H. lia.
    + intros H. left. congruence.
Qed.

Lemma in_joined (d : DB) wi ws :
  In (wi, ws) (joined d) <->
  In ws (workout_sets d) /\ In wi (workout_items d) /\
  wi_id wi = ws_workout_item_id ws.
Proof.
  unfold joined. rewrite in_flat_map. split.
  - intros [s [Hs H]]. apply in_map_iff in H.
    destruct H as [i [E H]]. apply filter_In in H. destruct H as [Hi H].
    apply String.eqb_eq in H. inversion E; subst. auto.
  - intros [Hs [Hi E]]. exists ws. split; auto.
    apply in_map_iff. exists wi. split; auto.
    apply filter_In. split; auto. now apply String.eqb_eq.
Qed.

(** ** The personal-records query, row by row *)

Lemma weak_order_pr_order : weak_order pr_order.
Proof.
  apply weak_order_lex.
  repeat constructor;
    first [ apply weak_order_ASC | apply weak_order_DESC ];
    try apply weak_order_null;
    first [ apply weak_order_Z | apply weak_order_Q ].
Qed.

Lemma in_ranking k d j :
  In j (ranking k d) <-> In j (joined d) /\ wi_exercise_id (fst j) = k.
Proof.
  unfold ranking. rewrite order_by_In, filter_In.
  unfold same_exercise. now rewrite option_eqb_eq.
Qed.

(** A row is in the output exactly when it is built from the first row of
    the ranking of its exercise. *)
Lemma in_marks (d : DB) (m : MarkRow) :
  In m (marks d) <->
  exists j, hd_error (ranking (m_exercise_id m) d) = Some j /\
            m = mark_of (j, 1).
Proof.
  unfold marks. rewrite order_by_In, in_map_iff. split.
  - intros [[j n] [<- H]]. apply filter_In in H. destruct H as [H E].
    simpl in E. apply Z.eqb_eq in E. subst n.
    unfold ranked in H. apply in_flat_map in H. destruct H as [k [_ H]].
    apply ROW_NUMBER_first in H. exists j. split; auto.
    assert (K : In j (ranking k d)).
    { fold (ranking k d) in H.
      destruct (ranking k d); simpl in H; [discriminate|].
      injection H as ->. now left. }
    apply in_ranking in K. destruct K as [_ <-]. exact H.
  - intros [j [H ->]]. exists (j, 1). split; auto.
    apply filter_In. split; auto.
    assert (K : In j (ranking (wi_exercise_id (fst j)) d)).
    { simpl in H. destruct (ranking (wi_exercise_id (fst j)) d);
        simpl in H; [discriminate|].
      injection H as ->. now left. }
    apply in_ranking in K. destruct K as [K _].
    unfold ranked. apply in_flat_map. exists (wi_exercise_id (fst j)). split.
    + apply distinct_In; [apply option_eqb_eq|].
      apply in_map_iff. now exists j.
    + apply ROW_NUMBER_first. exact H.
Qed.

(** An exercise has a ranking with a first row as soon as one joined row
    mentions it. *)
Lemma ranking_first k d j :
  In j (joined d) -> wi_exercise_id (fst j) = k ->
  exists top, hd_error (ranking k d) = Some top.
Proof.
  intros Hj Hk.
  assert (K : In j (ranking k d)) by now apply in_ranking.
  destruct (ranking k d) as [|top rest]; [destruct K|].
  now exists top.
Qed.


(** The ORDER BY clause of the query is that ranking. *)
Lemma pr_order_ranks (j j' : WorkoutItem * WorkoutSet) :
  cmp_leb pr_order j j' = true <-> ranks_no_lower (snd j) (snd j').
Proof.
  destruct j as [wi [i o r p dn]], j' as [wi' [i' o' r' p' dn']].
  unfold ranks_no_lower, cmp_leb, pr_order, lex, ASC, DESC; simpl.
  destruct p as [p|], p' as [p'|]; simpl;
    try (split; [intros _; now left | reflexivity]);
    try (split; [discriminate | intros [[]|[[] _]]]).
  - destruct (Qcompare_spec p' p) as [E|E|E].
    + destruct r as [r|], r' as [r'|]; simpl.
      * destruct (Z.compare_spec r' r) as [F|F|F].
        -- split; auto. intros _. right. split; [now symmetry|auto].
        -- split; auto. intros _. right. split; [now symmetry|auto].
        -- split; [discriminate|].
           intros [H|[_ [H|H]]]; [lra | lia | lia].
      * split; auto. intros _. right. split; [now symmetry|simpl; auto].
      * split; [discriminate|]. intros [H|[_ [[]|[]]]]. lra.
      * split; auto. intros _. right. split; [now symmetry|simpl; auto].
    + split; auto.
    + split; [discriminate|]. intros [H|[H _]]; lra.
  - destruct r as [r|], r' as [r'|]; simpl.
    + destruct (Z.compare_spec r' r) as [F|F|F].
      * split; auto.
      * split; auto.
      * split; [discriminate|]. intros [[]|[_ [H|H]]]; lia.
    + split; auto.
    + split; [discriminate|]. intros [[]|[_ [[]|[]]]].
    + split; auto.
Qed.

(** ** One output row per exercise *)

Lemma filter_none {A : Type} (f : A -> bool) (l : list A) :
  (forall x, In x l -> f x = false) -> filter f l = [].
Proof.
  induction l as [|y l IH]; simpl; intros H; auto.
  rewrite (H y) by auto. apply IH. auto.
Qed.

Lemma filter_flat_map {A B : Type} (f : B -> bool) (g : A -> list B) l :
  filter f (flat_map g l) = flat_map (fun x => filter f (g x)) l.
Proof.
  induction l as [|y l IH]; simpl; auto.
  now rewrite filter_app, IH.
Qed.




(** Every output row is built from a set of its exercise that ranks no lower
    than any other set of that exercise. *)
Lemma marks_winner (d : DB) (m : MarkRow) :
  In m (marks d) ->
  exists wi top,
    In (wi, top) (joined d) /\
    wi_exercise_id wi = m_exercise_id m /\
    (forall wi' ws', In (wi', ws') (joined d) ->
       wi_exercise_id wi' = m_exercise_id m -> ranks_no_lower top ws') /\
    m = mark_of (wi, top, 1).
Proof.
  intros H. apply in_marks in H. destruct H as [[wi top] [H E]].
  exists wi, top.
  assert (T : In (wi, top) (ranking (m_exercise_id m) d)).
  { destruct (ranking (m_exercise_id m) d); simpl in H; [discriminate|].
    injection H as ->. now left. }
  apply in_ranking in T. destruct T as [T1 T2].
  repeat split; auto.
  intros wi' ws' Hj Hk.
  apply (pr_order_ranks (wi, top) (wi', ws')).
  apply (order_by_first pr_order (wi, top)
           (filter (same_exercise (m_exercise_id m)) (joined d))).
  - apply weak_order_pr_order.
  - exact H.
  - apply filter_In. split; auto.
    unfold same_exercise. simpl. now apply option_eqb_eq.
Qed.

(** An exercise mentioned by a joined row has an output row. *)
Lemma marks_present (d : DB) wi ws :
  In (wi, ws) (joined d) ->
  exists m, In m (marks d) /\ m_exercise_id m = wi_exercise_id wi.
Proof.
  intros Hj.
  destruct (ranking_first (wi_exercise_id wi) d (wi, ws) Hj eq_refl)
    as [top Htop].
  assert (T : In top (ranking (wi_exercise_id wi) d)).
  { destruct (ranking (wi_exercise_id wi) d); simpl in Htop; [discriminate|].
    injection Htop as ->. now left. }
  apply in_ranking in T. destruct T as [_ T].
  exists (mark_of (top, 1)). split; [|exact T].
  apply in_marks. exists top. simpl. rewrite T. auto.
Qed.

Lemma recorded_joined (d : DB) E wi ws :
  recorded d E wi ws <-> In (wi, ws) (joined d) /\ wi_exercise_id wi = E.
Proof. unfold recorded. rewrite in_joined. tauto. Qed.

Lemma Sorted_weaken {A : Type} (R R' : A -> A -> Prop) (l : list A) :
  (forall a b, R a b -> R' a b) -> Sorted R l -> Sorted R' l.
Proof.
  intros I. induction 1 as [|x l S IH H]; constructor; auto.
  destruct H; constructor; auto.
Qed.



(** The example of the specification: weight 100 with reps 5 and weight 100
    with reps 8, in two sessions, give weight 100 and reps 8. *)
Example marks_two_sessions :
  marks two_sessions =
  [ {| m_exercise_id := Some "E"; m_name := Some "Press";
       m_bodyPart := Some "Chest"; m_image := Some "";
       pr_weight := Some 100%Q; reps_at_pr := Some 8 |} ].
Proof. reflexivity. Qed.





(** C10. In every row of the personal-records output [reps_at_pr] is not
    null: the row is built from a top-ranked set of its exercise, its reps
    are that set's reps with null replaced by 0, and its [pr_weight] is that
    set's weight, null included. *)
Theorem reps_at_pr_never_null (d : DB) (m : MarkRow) :
  In m (marks d) ->
  reps_at_pr m <> None /\
  exists top,
    top_ranked d (m_exercise_id m) top /\
    (ws_reps top = None -> reps_at_pr m = Some 0) /\
    (forall r, ws_reps top = Some r -> reps_at_pr m = Some r) /\
    pr_weight m = ws_peso top /\
    (ws_peso top = None -> pr_weight m = None).
Proof.
  intros Hm.
  destruct (marks_winner d m Hm) as [twi [top [Tj [Tk [Tmax E]]]]].
  split.
  - rewrite E. simpl. destruct (ws_reps top); discriminate.
  - exists top. split; [split|].
    + exists twi. apply recorded_joined. auto.
    + intros wi' ws' R'. apply recorded_joined in R'.
      destruct R' as [J' K']. now apply (Tmax wi' ws' J').
    + rewrite E. simpl. repeat split.
      * now intros ->.
      * now intros r ->.
      * auto.
Qed.

Lemma reps_at_pr_witness :
  In {| m_exercise_id := Some "E"; m_name := Some "Press";
        m_bodyPart := Some "Chest"; m_image := Some "";
        pr_weight := None; reps_at_pr := Some 5 |}
     (marks weights_left_blank) /\
  In {| m_exercise_id := Some "E"; m_name := Some "Press";
        m_bodyPart := Some "Chest"; m_image := Some "";
        pr_weight := Some 100%Q; reps_at_pr := Some 0 |}
     (marks reps_left_blank) /\
  Some 0 <> None.
Proof.
  assert (H1 : In {| m_exercise_id := Some "E"; m_name := Some "Press";
        m_bodyPart := Some "Chest"; m_image := Some "";
        pr_weight := None; reps_at_pr := Some 5 |}
     (marks weights_left_blank)) by (vm_compute; tauto).
  assert (H2 : In {| m_exercise_id := Some "E"; m_name := Some "Press";
        m_bodyPart := Some "Chest"; m_image := Some "";
        pr_weight := Some 100%Q; reps_at_pr := Some 0 |}
     (marks reps_left_blank)) by (vm_compute; tauto).
  split; [exact H1|]. split; [exact H2|].
  exact (proj1 (reps_at_pr_never_null _ _ H2)).
Defined.

(** ** Tables *)

Lemma has_key_spec {R : Type} (key : R -> string) k (t : list R) :
  has_key key k t = true <-> exists r, In r t /\ key r = k.
Proof.
  unfold has_key. rewrite existsb_exists.
  split; intros [r [H E]]; exists r; split; auto;
    now apply String.eqb_eq.
Qed.

Lemma has_key_app {R : Type} (key : R -> string) k (t u : list R) :
  has_key key k (t ++ u) = has_key key k t || has_key key k u.
Proof. apply existsb_app. Qed.

Lemma In_DELETE {R : Type} (cond : R -> bool) t r :
  In r (DELETE cond t) <-> In r t /\ cond r = false.
Proof.
  unfold DELETE. rewrite filter_In, negb_true_iff. tauto.
Qed.

Lemma has_key_DELETE {R : Type} (key : R -> string) k (t : list R) :
  has_key key k (DELETE (fun r => String.eqb (key r) k) t) = false.
Proof.
  apply not_true_is_false. rewrite has_key_spec.
  intros [r [H E]]. apply In_DELETE in H. destruct H as [_ H].
  apply String.eqb_neq in H. contradiction.
Qed.

Lemma has_key_UPDATE {R : Type} (key : R -> string) k cond set t :
  (forall r : R, key (set r) = key r) ->
  has_key key k (UPDATE cond set t) = has_key key k t.
Proof.
  intros K. unfold has_key, UPDATE. induction t as [|r t IH]; simpl; auto.
  rewrite IH. destruct (cond r); now rewrite ?K.
Qed.

Lemma find_UPDATE (id k : string) (set : Routine -> Routine) t :
  (forall r, r_id (set r) = r_id r) ->
  find (fun r => String.eqb (r_id r) id)
    (UPDATE (fun r => String.eqb (r_id r) k) set t) =
  option_map (fun r => if String.eqb (r_id r) k then set r else r)
    (find (fun r => String.eqb (r_id r) id) t).
Proof.
  intros K. induction t as [|r t IH]; simpl; auto.
  destruct (String.eqb (r_id r) k) eqn:Ek; rewrite ?K;
    destruct (String.eqb (r_id r) id); simpl; rewrite ?Ek; auto.
Qed.

Lemma find_append {R : Type} (f : R -> bool) (t u : list R) :
  find f (t ++ u) =
  match find f t with Some r => Some r | None => find f u end.
Proof.
  induction t as [|r t IH]; simpl; auto. now destruct (f r).
Qed.

Lemma find_has_key id (t : list Routine) :
  has_key r_id id t = true ->
  exists r, find (fun r => String.eqb (r_id r) id) t = Some r /\ r_id r = id.
Proof.
  induction t as [|r t IH]; simpl; [discriminate|].
  destruct (String.eqb (r_id r) id) eqn:E; simpl; auto.
  intros _. exists r. split; auto. now apply String.eqb_eq.
Qed.

(** What a touch of routine [k] does to the [updatedAt] of routine [id]. *)
Lemma updatedAt_touch id k ts (d : DB) :
  updatedAt id
    (with_routines
       (UPDATE (fun r => String.eqb (r_id r) k) (touched ts) (routines d)) d) =
  if String.eqb id k
  then (if has_key r_id id (routines d) then Some ts else None)
  else updatedAt id d.
Proof.
  unfold updatedAt, stamp. simpl. rewrite find_UPDATE by reflexivity.
  destruct (has_key r_id id (routines d)) eqn:H.
  - destruct (find_has_key id _ H) as [r [-> E]]. simpl. subst id.
    rewrite String.eqb_sym. destruct (String.eqb k (r_id r)); auto.
  - destruct (find _ (routines d)) as [r|] eqn:F; simpl.
    + apply find_some in F. destruct F as [F1 F2].
      apply String.eqb_eq in F2.
      assert (has_key r_id id (routines d) = true).
      { apply has_key_spec. now exists r. }
      congruence.
    + now destruct (String.eqb id k).
Qed.

(** ** Removing an exercise from a routine *)

Lemma delete_routine_exercise_after_sets env rexId id (d : DB) :
  delete_routine_exercise env rexId id
    (with_routine_sets
       (DELETE (fun s => String.eqb (rs_routine_exercise_id s) rexId)
          (routine_sets d)) d) =
  Ok (with_routine_exercises
        (DELETE (fun re => String.eqb (re_id re) rexId
                           && String.eqb (re_routine_id re) id)
           (routine_exercises d))
        (with_routine_sets
           (DELETE (fun s => String.eqb (rs_routine_exercise_id s) rexId)
              (routine_sets d)) d)).
Proof.
  unfold delete_routine_exercise. simpl.
  rewrite (has_key_DELETE rs_routine_exercise_id).
  now rewrite !andb_false_r.
Qed.

Lemma delete_routine_exercise_h_run env id rexId (w : World) :
  delete_routine_exercise_h env id rexId w =
  ({| db :=
        with_routines
          (UPDATE (fun r => String.eqb (r_id r) id)
             (touched (Date_now env (clock w))) (routines (db w)))
          (with_routine_exercises
             (DELETE (fun re => String.eqb (re_id re) rexId
                                && String.eqb (re_routine_id re) id)
                (routine_exercises (db w)))
             (with_routine_sets
                (DELETE
                   (fun s => String.eqb (rs_routine_exercise_id s) rexId)
                   (routine_sets (db w))) (db w)));
      clock := S (clock w); ids := ids w |},
   Ok json_ok).
Proof.
  unfold delete_routine_exercise_h, transaction, bind, run, now, ret,
    delete_sets_of, set_db. simpl.
  rewrite delete_routine_exercise_after_sets. reflexivity.
Qed.

(** C4. [DELETE /api/routines/R/exercises/X] runs three statements in this
    order, none of which fails: it deletes every routine set owned by [X],
    then the link [X] of [R], then stamps [R] with the clock. Afterwards no
    set owned by [X] is left, other sets are untouched, no link [X] is left
    when [X] was a link of [R], and [R] carries the new timestamp whether or
    not a link [X] existed. *)
Theorem remove_exercise_cascades env (w : World) (R X : string) :
  exists d1 d2 d3,
    delete_sets_of X (db w) = Ok d1 /\
    delete_routine_exercise env X R d1 = Ok d2 /\
    update_routine_updatedAt (Date_now env (clock w)) R d2 = Ok d3 /\
    handle env (DELETE_routine_exercise R X) w =
      ({| db := d3; clock := S (clock w); ids := ids w |}, json_ok) /\
    setsByRex X d3 = [] /\
    (forall s, In s (routine_sets d3) <->
               In s (routine_sets (db w)) /\ rs_routine_exercise_id s <> X) /\
    (forall re, In re (routine_exercises d3) <->
                In re (routine_exercises (db w)) /\
                ~ (re_id re = X /\ re_routine_id re = R)) /\
    ((forall re, In re (routine_exercises (db w)) -> re_id re = X ->
        re_routine_id re = R) ->
     has_key re_id X (routine_exercises d3) = false) /\
    updatedAt R d3 =
      (if has_key r_id R (routines (db w))
       then Some (Date_now env (clock w)) else None) /\
    exercises d3 = exercises (db w).
Proof.
  eexists; eexists; eexists.
  split; [reflexivity|].
  split; [apply delete_routine_exercise_after_sets|].
  split; [reflexivity|].
  split.
  { unfold handle, route. now rewrite delete_routine_exercise_h_run. }
  simpl. split; [|split; [|split; [|split; [|split]]]]; auto.
  - unfold setsByRex. simpl. apply filter_none. intros s H.
    apply In_DELETE in H. tauto.
  - intros s. rewrite In_DELETE, String.eqb_neq. tauto.
  - intros re. rewrite In_DELETE, andb_false_iff, !String.eqb_neq.
    destruct (string_dec (re_id re) X); tauto.
  - intros Own. apply not_true_is_false. rewrite has_key_spec.
    intros [re [H E]]. apply In_DELETE in H. destruct H as [H N].
    apply andb_false_iff in N. rewrite !String.eqb_neq in N.
    specialize (Own re H E). tauto.
  - match goal with
    | |- updatedAt R (with_routines _ ?d) = _ =>
        rewrite (updatedAt_touch R R _ d)
    end.
    now rewrite String.eqb_refl.
Qed.

Lemma remove_exercise_witness :
  let w := two_routines (ticking true) in
  let w' := fst (handle (ticking true)
                   (DELETE_routine_exercise "rut_02" "rex_03") w) in
  (forall re, In re (routine_exercises (db w)) -> re_id re = "rex_03" ->
     re_routine_id re = "rut_02") /\
  List.length (setsByRex "rex_03" (db w)) = 2%nat /\
  setsByRex "rex_03" (db w') = [] /\
  has_key re_id "rex_03" (routine_exercises (db w')) = false /\
  updatedAt "rut_02" (db w') = Some 1005.
Proof.
  intros w w'.
  assert (Own : forall re, In re (routine_exercises (db w)) ->
                  re_id re = "rex_03" -> re_routine_id re = "rut_02").
  { assert (T : routine_exercises (db w) = [link_of_B])
      by (vm_compute; reflexivity).
    rewrite T. intros re [<-|[]] _. reflexivity. }
  destruct (remove_exercise_cascades (ticking true) w "rut_02" "rex_03")
    as [d1 [d2 [d3 [_ [_ [_ [H [S [_ [_ [L [U _]]]]]]]]]]]].
  assert (E : db w' = d3) by (unfold w'; now rewrite H).
  rewrite E.
  split; [exact Own|]. split; [reflexivity|]. split; [exact S|].
  split; [exact (L Own) | exact U].
Defined.

(** C9. When the link [X] belongs to routine [R2] and the request names a
    different routine [R1], [DELETE /api/routines/R1/exercises/X] deletes
    every set of [X] (the deletion is keyed by the link id alone) and keeps
    the link [X] itself (its deletion also asks for [routine_id = R1]); [R1]
    gets the new timestamp and [R2] keeps its old one. *)
Theorem cross_routine_removal env (w : World) (R1 R2 X : string)
    (link : RoutineExercise) :
  In link (routine_exercises (db w)) ->
  re_id link = X -> re_routine_id link = R2 -> R2 <> R1 ->
  let w' := fst (handle env (DELETE_routine_exercise R1 X) w) in
  snd (handle env (DELETE_routine_exercise R1 X) w) = json_ok /\
  setsByRex X (db w') = [] /\
  (forall s, In s (routine_sets (db w')) <->
             In s (routine_sets (db w)) /\ rs_routine_exercise_id s <> X) /\
  In link (routine_exercises (db w')) /\
  updatedAt R1 (db w') =
    (if has_key r_id R1 (routines (db w))
     then Some (Date_now env (clock w)) else None) /\
  updatedAt R2 (db w') = updatedAt R2 (db w).
Proof.
  intros Hl HX HR Hne.
  unfold handle, route. rewrite delete_routine_exercise_h_run. simpl.
  split; [reflexivity|]. split; [|split; [|split; [|split]]].
  - unfold setsByRex. simpl. apply filter_none. intros s H.
    apply In_DELETE in H. tauto.
  - intros s. rewrite In_DELETE, String.eqb_neq. tauto.
  - apply In_DELETE. split; auto.
    apply andb_false_iff. right. apply String.eqb_neq. congruence.
  - match goal with
    | |- updatedAt R1 (with_routines _ ?d) = _ =>
        rewrite (updatedAt_touch R1 R1 _ d)
    end.
    now rewrite String.eqb_refl.
  - match goal with
    | |- updatedAt R2 (with_routines _ ?d) = _ =>
        rewrite (updatedAt_touch R2 R1 _ d)
    end.
    apply String.eqb_neq in Hne. now rewrite Hne.
Qed.

Lemma cross_routine_removal_witness :
  let w := two_routines (ticking true) in
  let w' := fst (handle (ticking true)
                   (DELETE_routine_exercise "rut_01" "rex_03") w) in
  (In link_of_B (routine_exercises (db w)) /\ "rut_02" <> "rut_01") /\
  setsByRex "rex_03" (db w) <> [] /\
  setsByRex "rex_03" (db w') = [] /\
  In link_of_B (routine_exercises (db w')) /\
  updatedAt "rut_01" (db w) = Some 1000 /\
  updatedAt "rut_01" (db w') = Some 1005 /\
  updatedAt "rut_02" (db w') = updatedAt "rut_02" (db w).
Proof.
  intros w w'.
  assert (Hl : In link_of_B (routine_exercises (db w))) by (now left).
  assert (Hne : "rut_02" <> "rut_01") by discriminate.
  destruct (cross_routine_removal (ticking true) w "rut_01" "rut_02"
              "rex_03" link_of_B Hl eq_refl eq_refl Hne)
    as [_ [H1 [_ [H2 [H3 H4]]]]].
  split; [split; [exact Hl | exact Hne]|].
  split; [discriminate|].
  split; [exact H1|]. split; [exact H2|].
  split; [reflexivity|]. split; [exact H3 | exact H4].
Defined.

(** ** Adding an exercise to a routine *)

Lemma MAX_spec (xs : list (option Z)) :
  match MAX xs with
  | None => forall x, In x xs -> x = None
  | Some m => In (Some m) xs /\ forall k, In (Some k) xs -> k <= m
  end.
Proof.
  induction xs as [|[x|] xs IH]; simpl.
  - tauto.
  - destruct (MAX xs) as [m|].
    + destruct IH as [I B]. split.
      * destruct (Z.max_spec x m) as [[_ ->]|[_ ->]]; auto.
      * intros k [E|H]; [injection E as ->; lia|].
        specialize (B k H). lia.
    + split; auto. intros k [E|H]; [injection E as ->; lia|].
      apply IH in H. discriminate.
  - destruct (MAX xs) as [m|].
    + destruct IH as [I B]. split; auto.
      intros k [E|H]; [discriminate | auto].
    + intros x [<-|H]; auto.
Qed.

(** [next_order] is the largest position in use plus one, and 1 when no row
    of the routine has a position. *)
Lemma next_order_spec (id : string) (d : DB) :
  exists o,
    next_order id d = Some o /\
    (forall re k, In re (routine_exercises d) -> re_routine_id re = id ->
       re_order_index re = Some k -> k < o) /\
    ((exists re, In re (routine_exercises d) /\ re_routine_id re = id /\
                 re_order_index re = Some (o - 1)) \/
     ((forall re, In re (routine_exercises d) -> re_routine_id re = id ->
         re_order_index re = None) /\ o = 1)).
Proof.
  unfold next_order.
  set (rows := filter _ (routine_exercises d)).
  assert (R : forall re, In re rows <->
                         In re (routine_exercises d) /\ re_routine_id re = id).
  { intros re. unfold rows. rewrite filter_In, String.eqb_eq. tauto. }
  pose proof (MAX_spec (map re_order_index rows)) as M.
  destruct (MAX (map re_order_index rows)) as [m|]; simpl.
  - destruct M as [I B]. exists (m + 1). split; auto. split.
    + intros re k H1 H2 H3.
      assert (k <= m); [|lia]. apply B. rewrite <- H3.
      apply in_map. apply R. auto.
    + left. apply in_map_iff in I. destruct I as [re [E H]].
      apply R in H. exists re. replace (m + 1 - 1) with m by lia. tauto.
  - exists 1. split; auto. split.
    + intros re k H1 H2 H3.
      assert (N : re_order_index re = None); [|congruence].
      apply M. apply in_map. apply R. auto.
    + right. split; auto. intros re H1 H2.
      apply M. apply in_map. apply R. auto.
Qed.

Lemma loadRoutineFull_exists (id : string) (d : DB) :
  has_key r_id id (routines d) = true -> loadRoutineFull id d <> None.
Proof.
  intros H. unfold loadRoutineFull.
  destruct (find_has_key id _ H) as [r [-> _]]. discriminate.
Qed.

Lemma loadRoutineFull_header (id : string) (d : DB) (r : RoutineFull) :
  loadRoutineFull id d = Some r ->
  full_id r = id /\ full_updatedAt r = updatedAt id d.
Proof.
  unfold loadRoutineFull, updatedAt, stamp.
  destruct (find _ (routines d)) as [r0|] eqn:F; [|discriminate].
  intros H. injection H as <-. simpl.
  apply find_some in F. destruct F as [_ F]. apply String.eqb_eq in F.
  auto.
Qed.

(** The full routine lists every link of the routine whose exercise is in
    the catalogue. *)
Lemma loadRoutineFull_lists (id : string) (d : DB) (r : RoutineFull)
    (re : RoutineExercise) (e : Exercise) :
  loadRoutineFull id d = Some r ->
  In re (routine_exercises d) -> re_routine_id re = id ->
  In e (exercises d) -> e_id e = re_exercise_id re ->
  exists v,
    In v (full_exercises r) /\ rex_id v = re_id re /\
    rex_order_index v = re_order_index re /\
    rex_exercise v = view_exercise e /\
    rex_sets v = map view_set (setsByRex (re_id re) d).
Proof.
  unfold loadRoutineFull.
  destruct (find _ (routines d)) as [r0|]; [|discriminate].
  intros H Hre Hid He Hex. injection H as <-. simpl.
  eexists. split.
  - apply in_map_iff. exists (re, e). split; [reflexivity|].
    unfold exs. apply order_by_In. apply in_flat_map. exists re. split.
    + apply filter_In. split; auto. now apply String.eqb_eq.
    + apply in_map_iff. exists e. split; auto.
      apply filter_In. split; auto. now apply String.eqb_eq.
  - simpl. auto.
Qed.

(** C2 (as amended). [POST /api/routines/:id/exercises] answers 400 and
    changes nothing when [exerciseId] is missing. Otherwise it draws an id
    and, for an existing routine, does one of three things. When the id is free and the
    exercise is in the catalogue, or foreign keys are not enforced, it
    appends a link whose position is the largest position of the routine
    plus one, or 1 when the routine has none, stamps the routine with the
    clock and answers with the reloaded routine, which carries the new
    timestamp and lists the new link when its exercise is in the catalogue.
    When foreign keys are enforced and the exercise is not in the
    catalogue, it answers 500: no link is stored and the routine is not
    stamped. When the drawn id is taken it answers 500 likewise. *)
Theorem add_exercise_to_routine env (w : World) (id : string) :
  (forall exerciseId, truthy exerciseId = false ->
     handle env (POST_routine_exercises id exerciseId) w =
     (w, json_error 400 "exerciseId required")) /\
  (forall ex, ex <> "" ->
     has_key r_id id (routines (db w)) = true ->
     has_key re_id ("rex_" ++ nanoid env (ids w))
       (routine_exercises (db w)) = false ->
     (foreign_keys env = true ->
      has_key e_id ex (exercises (db w)) = true) ->
     appended_at_the_end env id ex w) /\
  (forall ex, ex <> "" ->
     has_key re_id ("rex_" ++ nanoid env (ids w))
       (routine_exercises (db w)) = false ->
     foreign_keys env = true ->
     has_key e_id ex (exercises (db w)) = false ->
     handle env (POST_routine_exercises id (Some ex)) w =
     ({| db := db w; clock := clock w; ids := S (ids w) |},
      status_500 SQLITE_CONSTRAINT_FOREIGNKEY)) /\
  (forall ex, ex <> "" ->
     has_key re_id ("rex_" ++ nanoid env (ids w))
       (routine_exercises (db w)) = true ->
     handle env (POST_routine_exercises id (Some ex)) w =
     ({| db := db w; clock := clock w; ids := S (ids w) |},
      status_500 SQLITE_CONSTRAINT_PRIMARYKEY)).
Proof.
  split; [|split; [|split]].
  - intros [[|c s]|] H; try discriminate; reflexivity.
  - intros ex Hex Hr Hfresh Hfk. unfold appended_at_the_end. cbv zeta.
    destruct (next_order_spec id (db w)) as [o [Ho [Hub Hmax]]].
    exists o.
    unfold handle, route, post_routine_exercises.
    destruct ex as [|c s]; [congruence|].
    unfold transaction, bind, run, query, now, nanoid8, ret, set_db,
      insert_routine_exercise, fk_ok. simpl in Hfresh |- *.
    rewrite Hfresh, Hr, Ho. simpl.
    assert (F : negb (foreign_keys env)
                || has_key e_id (String c s) (exercises (db w)) = true).
    { destruct (foreign_keys env); simpl; auto. }
    rewrite F, orb_true_r. simpl.
    split; [reflexivity|]. split; [exact Hub|]. split; [exact Hmax|].
    match goal with
    | |- updatedAt id (with_routines _ ?d) = _ /\ _ =>
        rewrite (updatedAt_touch id id _ d)
    end.
    rewrite String.eqb_refl. simpl. rewrite Hr.
    split; [reflexivity|].
    match goal with
    | |- exists r, json_routine (loadRoutineFull id ?d') = _ /\ _ =>
        set (d1 := d');
        assert (L : loadRoutineFull id d1 <> None)
          by (apply loadRoutineFull_exists; simpl;
              now rewrite has_key_UPDATE);
        assert (U : updatedAt id d1 = Some (Date_now env (clock w)))
          by (unfold d1;
              match goal with
              | |- updatedAt id (with_routines _ ?d) = _ =>
                  rewrite (updatedAt_touch id id _ d)
              end;
              rewrite String.eqb_refl; simpl; now rewrite Hr)
    end.
    destruct (loadRoutineFull id d1) as [r|] eqn:E; [|congruence].
    exists r. split; [reflexivity|]. split; [reflexivity|].
    destruct (loadRoutineFull_header id d1 r E) as [H1 H2].
    split; [exact H1|]. split; [congruence|].
    intros e He Hx.
    destruct (loadRoutineFull_lists id d1 r
                {| re_id := String "r" (String "e" (String "x"
                              (String "_" (nanoid env (ids w)))));
                   re_routine_id := id; re_exercise_id := String c s;
                   re_order_index := Some o |} e E)
      as [v [V1 [V2 [V3 [V4 _]]]]]; simpl; auto.
    + apply in_or_app. right. now left.
    + exists v. auto.
  - intros ex Hex Hfresh Hfk Hmiss.
    destruct ex as [|c s]; [congruence|].
    unfold handle, route, post_routine_exercises.
    unfold transaction, bind, run, query, now, nanoid8, ret, set_db,
      insert_routine_exercise, fk_ok. simpl in Hfresh |- *.
    rewrite Hfresh, Hfk, Hmiss. simpl. rewrite andb_false_r. reflexivity.
  - intros ex Hex Htaken.
    destruct ex as [|c s]; [congruence|].
    unfold handle, route, post_routine_exercises.
    unfold transaction, bind, run, query, now, nanoid8, ret, set_db,
      insert_routine_exercise, fk_ok. simpl in Htaken |- *.
    rewrite Htaken. reflexivity.
Qed.

(** C2, counterexample to the claim as it is worded. The promise does not
    hold for every present [exerciseId]: with foreign keys enforced, an
    existing routine and an exercise that is not in the catalogue, the
    answer is 500 and nothing is appended. *)
Lemma unknown_exercise_not_appended :
  truthy (Some "cus_77") = true /\
  has_key r_id "rut_01" (routines (db (two_routines (ticking true)))) = true /\
  has_key e_id "cus_77" (exercises (db (two_routines (ticking true)))) =
    false /\
  handle (ticking true) (POST_routine_exercises "rut_01" (Some "cus_77"))
    (two_routines (ticking true)) =
  ({| db := db (two_routines (ticking true));
      clock := clock (two_routines (ticking true));
      ids := S (ids (two_routines (ticking true))) |},
   status_500 SQLITE_CONSTRAINT_FOREIGNKEY) /\
  ~ appended_at_the_end (ticking true) "rut_01" "cus_77"
      (two_routines (ticking true)).
Proof.
  split; [reflexivity|]. split; [vm_compute; reflexivity|].
  split; [vm_compute; reflexivity|]. split; [vm_compute; reflexivity|].
  unfold appended_at_the_end. cbv zeta.
  assert (E : handle (ticking true)
                (POST_routine_exercises "rut_01" (Some "cus_77"))
                (two_routines (ticking true)) =
              ({| db := db (two_routines (ticking true));
                  clock := clock (two_routines (ticking true));
                  ids := S (ids (two_routines (ticking true))) |},
               status_500 SQLITE_CONSTRAINT_FOREIGNKEY))
    by (vm_compute; reflexivity).
  rewrite E. intros [o [H _]].
  apply (f_equal (@List.length _)) in H.
  rewrite length_app in H. simpl in H. lia.
Qed.

Example positions_before :
  map re_order_index (routine_exercises (db positions_1_3)) =
  [Some 1; Some 3].
Proof. reflexivity. Qed.

(** On an empty routine the first exercise gets position 1. *)
Example first_position :
  map re_order_index
    (routine_exercises
       (db (serve (ticking true)
              [ POST_exercises (an_exercise "Squat");
                POST_routines (Some "A");
                POST_routine_exercises "rut_01" (Some "cus_00") ]
              boot))) =
  [Some 1].
Proof. reflexivity. Qed.

(** With positions 1 and 3 in use the next exercise gets position 4. *)
Example next_position :
  map re_order_index
    (routine_exercises
       (db (fst (handle (ticking true)
                   (POST_routine_exercises "rut_01" (Some "cus_00"))
                   positions_1_3)))) =
  [Some 1; Some 3; Some 4].
Proof. reflexivity. Qed.

Lemma add_exercise_witness :
  let w := positions_1_3 in
  let w' := fst (handle (ticking true)
                   (POST_routine_exercises "rut_01" (Some "cus_00")) w) in
  ("cus_00" <> "" /\
   has_key r_id "rut_01" (routines (db w)) = true /\
   has_key re_id ("rex_" ++ nanoid (ticking true) (ids w))
     (routine_exercises (db w)) = false /\
   has_key e_id "cus_00" (exercises (db w)) = true) /\
  map re_order_index (routine_exercises (db w)) = [Some 1; Some 3] /\
  map re_order_index (routine_exercises (db w')) =
    [Some 1; Some 3; Some 4] /\
  updatedAt "rut_01" (db w') = Some 1005 /\
  handle (ticking true) (POST_routine_exercises "rut_01" (Some "cus_77"))
    (two_routines (ticking true)) =
  ({| db := db (two_routines (ticking true));
      clock := clock (two_routines (ticking true));
      ids := S (ids (two_routines (ticking true))) |},
   status_500 SQLITE_CONSTRAINT_FOREIGNKEY) /\
  snd (handle (stuck true)
         (POST_routine_exercises "rut_same" (Some "cus_same"))
         (serve (stuck true)
            [ POST_exercises (an_exercise "Squat");
              POST_routines (Some "A");
              POST_routine_exercises "rut_same" (Some "cus_same") ]
            boot)) =
  status_500 SQLITE_CONSTRAINT_PRIMARYKEY.
Proof.
  intros w w'.
  assert (H1 : "cus_00" <> "") by discriminate.
  assert (H2 : has_key r_id "rut_01" (routines (db w)) = true)
    by reflexivity.
  assert (H3 : has_key re_id ("rex_" ++ nanoid (ticking true) (ids w))
                 (routine_exercises (db w)) = false) by reflexivity.
  assert (H4 : has_key e_id "cus_00" (exercises (db w)) = true)
    by reflexivity.
  split; [tauto|].
  destruct (proj1 (proj2 (add_exercise_to_routine (ticking true) w "rut_01"))
              "cus_00" H1 H2 H3 (fun _ => H4))
    as [o [Hrow [Hub [Hmax [Hts _]]]]].
  fold w' in Hrow, Hts.
  assert (T : routine_exercises (db w) =
              [ {| re_id := "rex_02"; re_routine_id := "rut_01";
                   re_exercise_id := "cus_00"; re_order_index := Some 1 |};
                {| re_id := "rex_04"; re_routine_id := "rut_01";
                   re_exercise_id := "cus_00"; re_order_index := Some 3 |} ])
    by (vm_compute; reflexivity).
  assert (I3 : In {| re_id := "rex_04"; re_routine_id := "rut_01";
                     re_exercise_id := "cus_00";
                     re_order_index := Some 3 |}
                  (routine_exercises (db w))).
  { rewrite T. right. left. reflexivity. }
  assert (o = 4).
  { assert (3 < o) by (apply (Hub _ 3 I3); reflexivity).
    destruct Hmax as [[re [Hin [_ Hk]]]|[Hnone _]].
    - rewrite T in Hin.
      destruct Hin as [<-|[<-|[]]]; simpl in Hk; injection Hk; lia.
    - assert (N : @None Z = Some 3); [|discriminate N].
      symmetry. apply (Hnone _ I3). reflexivity. }
  subst o. rewrite T in Hrow. rewrite Hrow, T.
  split; [reflexivity|]. split; [reflexivity|]. split; [exact Hts|].
  split.
  - apply (proj1 (proj2 (proj2
             (add_exercise_to_routine (ticking true)
                (two_routines (ticking true)) "rut_01"))) "cus_77").
    + discriminate.
    + vm_compute. reflexivity.
    + reflexivity.
    + vm_compute. reflexivity.
  - rewrite (proj2 (proj2 (proj2
               (add_exercise_to_routine (stuck true)
                  (serve (stuck true)
                     [ POST_exercises (an_exercise "Squat");
                       POST_routines (Some "A");
                       POST_routine_exercises "rut_same" (Some "cus_same") ]
                     boot) "rut_same"))) "cus_same").
    + reflexivity.
    + discriminate.
    + vm_compute. reflexivity.
Defined.

(** ** Creating an exercise *)

(** What [POST /api/exercises] does for every body: 400 exactly when [name]
    is missing or the empty string; otherwise, the generated id being free,
    it stores and returns the exercise with the trimmed name, empty strings
    for the omitted fields and the custom flag. *)
Lemma create_exercise_spec env (w : World) (p : ExerciseBody) :
  (truthy (p_name p) = false ->
   handle env (POST_exercises p) w = (w, json_error 400 "name required")) /\
  (forall name, p_name p = Some name -> name <> "" ->
   has_key e_id ("cus_" ++ nanoid env (ids w)) (exercises (db w)) = false ->
   let ex :=
     {| e_id := "cus_" ++ nanoid env (ids w); e_name := trim name;
        e_image := Some (or_else (p_image p) "");
        e_bodyPart := Some (or_else (p_bodyPart p) "");
        e_primaryMuscles := Some (or_else (p_primaryMuscles p) "");
        e_secondaryMuscles := Some (or_else (p_secondaryMuscles p) "");
        e_equipment := Some (or_else (p_equipment p) "");
        e_isCustom := Some 1 |} in
   handle env (POST_exercises p) w =
   ({| db := with_exercises (exercises (db w) ++ [ex]) (db w);
       clock := clock w; ids := S (ids w) |},
    json_exercise ex)).
Proof.
  split.
  - unfold handle, route, post_exercises.
    destruct (p_name p) as [[|c s]|]; try discriminate; reflexivity.
  - intros name Hn Hne Hfresh ex.
    unfold handle, route, post_exercises. rewrite Hn.
    destruct name as [|c s]; [congruence|].
    unfold bind, run, nanoid8, ret, insert_exercise, set_db.
    simpl in Hfresh |- *. rewrite Hfresh. reflexivity.
Qed.

(** C7, at the failing input. A name made of three spaces is not rejected:
    the check runs before the trim, so the exercise is stored and returned
    with the empty name. *)
Theorem blank_name_is_accepted env :
  trim "   " = "" /\
  handle env
    (POST_exercises
       {| p_name := Some "   "; p_image := None; p_bodyPart := None;
          p_primaryMuscles := None; p_secondaryMuscles := None;
          p_equipment := None |})
    boot =
  ({| db :=
        with_exercises
          [ {| e_id := "cus_" ++ nanoid env 0; e_name := "";
               e_image := Some ""; e_bodyPart := Some "";
               e_primaryMuscles := Some ""; e_secondaryMuscles := Some "";
               e_equipment := Some ""; e_isCustom := Some 1 |} ]
          empty_db;
      clock := 0; ids := 1 |},
   json_exercise
     {| e_id := "cus_" ++ nanoid env 0; e_name := "";
        e_image := Some ""; e_bodyPart := Some "";
        e_primaryMuscles := Some ""; e_secondaryMuscles := Some "";
        e_equipment := Some ""; e_isCustom := Some 1 |}).
Proof. split; reflexivity. Qed.

(** ** Editing the sets of a routine *)

Lemma DB_ext (d d' : DB) :
  exercises d = exercises d' -> routines d = routines d' ->
  routine_exercises d = routine_exercises d' ->
  routine_sets d = routine_sets d' -> workouts d = workouts d' ->
  workout_items d = workout_items d' -> workout_sets d = workout_sets d' ->
  d = d'.
Proof. destruct d, d'; simpl; intros; subst; reflexivity. Qed.

Lemma World_ext (w w' : World) :
  db w = db w' -> clock w = clock w' -> ids w = ids w' -> w = w'.
Proof. destruct w, w'; simpl; intros; subst; reflexivity. Qed.

Lemma apply_entry_id s e : rs_id (apply_entry s e) = rs_id s.
Proof. unfold apply_entry. now destruct (addresses e s). Qed.

Lemma addresses_apply_entry e s e' :
  addresses e (apply_entry s e') = addresses e s.
Proof. unfold addresses. now rewrite apply_entry_id. Qed.

Lemma edited_apply_entry reps peso s e :
  edited reps peso (apply_entry s e) = edited reps peso s.
Proof. unfold apply_entry. now destruct (addresses e s). Qed.

(** Applying the entries one after the other is updating by identity. *)
Lemma fold_apply_entry (es : list SetBody) (s : RoutineSet) :
  fold_left apply_entry es s = final_edit es s.
Proof.
  induction es as [|e es IH] using rev_ind; [reflexivity|].
  rewrite fold_left_app. simpl. unfold final_edit.
  rewrite rev_app_distr. simpl. rewrite IH.
  unfold apply_entry at 1.
  assert (A : addresses e (final_edit es s) = addresses e s).
  { rewrite <- IH. clear IH. revert s.
    induction es as [|e' es IH]; simpl; auto.
    intros s. now rewrite IH, addresses_apply_entry. }
  rewrite A. destruct (addresses e s); [|reflexivity].
  rewrite <- IH. clear. revert s.
  induction es as [|e' es IH]; simpl; auto.
  intros s. now rewrite IH, edited_apply_entry.
Qed.

Lemma step_entry_fold (es : list SetBody) (d : DB) :
  fold_left step_entry es d =
  with_routine_sets (map (final_edit es) (routine_sets d)) d.
Proof.
  rewrite (map_ext _ _ (fun s => eq_sym (fold_apply_entry es s))).
  revert d. induction es as [|e es IH]; intros d; simpl.
  - apply DB_ext; simpl; auto. now rewrite map_id.
  - rewrite IH. apply DB_ext; simpl; auto. now rewrite map_map.
Qed.

(** The body of the inner [forEach] is one [step_entry]. *)
Lemma update_entry_run (e : SetBody) (w : World) :
  match s_id e with
  | None | Some EmptyString => ret tt
  | Some sid => run (update_routine_set (s_reps e) (s_peso e) sid)
  end w = (set_db (step_entry (db w) e) w, Ok tt).
Proof.
  unfold step_entry, apply_entry, addresses.
  destruct (s_id e) as [[|c i]|]; unfold ret, run, set_db; simpl;
    f_equal; apply World_ext; simpl; auto; apply DB_ext; simpl; auto;
    now rewrite map_id.
Qed.

Lemma update_entries_run (sets : list SetBody) (i : Z) (w : World) :
  forEach_from i
    (fun s _ =>
       match s_id s with
       | None | Some EmptyString => ret tt
       | Some sid => run (update_routine_set (s_reps s) (s_peso s) sid)
       end) sets w =
  (set_db (fold_left step_entry sets (db w)) w, Ok tt).
Proof.
  revert i w. induction sets as [|e sets IH]; intros i w; simpl.
  - unfold ret. f_equal. now apply World_ext.
  - unfold bind. rewrite update_entry_run, IH. reflexivity.
Qed.

Lemma update_exercises_run (l : list ExBody) (i : Z) (w : World) :
  forEach_from i
    (fun ex _ =>
       match ex_sets ex with
       | Some sets =>
           forEach
             (fun s _ =>
                match s_id s with
                | None | Some EmptyString => ret tt
                | Some sid =>
                    run (update_routine_set (s_reps s) (s_peso s) sid)
                end) sets
       | None => ret tt
       end) l w =
  (set_db (fold_left step_entry (entries l) (db w)) w, Ok tt).
Proof.
  revert i w. induction l as [|ex l IH]; intros i w; simpl.
  - unfold ret. f_equal. now apply World_ext.
  - unfold bind. rewrite fold_left_app.
    destruct (ex_sets ex) as [sets|]; simpl.
    + unfold forEach. rewrite update_entries_run, IH. reflexivity.
    + unfold ret. rewrite IH. reflexivity.
Qed.

Lemma updateSets_run env (id : string) (l : list ExBody) (w : World) :
  updateSets env id l w =
  ({| db :=
        with_routines
          (UPDATE (fun r => String.eqb (r_id r) id)
             (touched (Date_now env (clock w))) (routines (db w)))
          (with_routine_sets
             (map (final_edit (entries l)) (routine_sets (db w))) (db w));
      clock := S (clock w); ids := ids w |},
   Ok tt).
Proof.
  unfold updateSets, transaction, forEach, bind.
  rewrite update_exercises_run, step_entry_fold.
  reflexivity.
Qed.

Lemma final_edit_untouched (es : list SetBody) (s : RoutineSet) :
  (forall e, In e es -> addresses e s = false) -> final_edit es s = s.
Proof.
  intros H. unfold final_edit.
  destruct (find _ (rev es)) as [e|] eqn:F; auto.
  apply find_some in F. destruct F as [F1 F2].
  apply in_rev in F1. rewrite (H e F1) in F2. discriminate.
Qed.

Lemma stamp_absent (R : string) (t : list Routine) :
  has_key r_id R t = false -> stamp R t = None.
Proof.
  intros H. unfold stamp.
  destruct (find _ t) as [r|] eqn:F; auto.
  apply find_some in F. destruct F as [F1 F2]. apply String.eqb_eq in F2.
  assert (has_key r_id R t = true) by (apply has_key_spec; now exists r).
  congruence.
Qed.

Lemma stamp_UPDATE (R id : string) (set : Routine -> Routine) ts t :
  (forall r, r_id (set r) = r_id r) ->
  (forall r, r_updatedAt (set r) = Some ts) ->
  stamp R (UPDATE (fun r => String.eqb (r_id r) id) set t) =
  if String.eqb R id && has_key r_id R t then Some ts else stamp R t.
Proof.
  intros K U. unfold stamp. rewrite find_UPDATE by exact K.
  destruct (has_key r_id R t) eqn:H.
  - destruct (find_has_key R _ H) as [r [-> E]]. simpl. subst R.
    rewrite andb_true_r. destruct (String.eqb (r_id r) id); auto.
  - rewrite andb_false_r.
    pose proof (stamp_absent R t H) as N. unfold stamp in N.
    destruct (find _ t) as [r|] eqn:F; simpl; auto.
    apply find_some in F. destruct F as [F1 F2]. apply String.eqb_eq in F2.
    assert (has_key r_id R t = true) by (apply has_key_spec; now exists r).
    congruence.
Qed.

Lemma stamp_touch (id : string) (ts : Z) (t : list Routine) :
  stamp id (UPDATE (fun r => String.eqb (r_id r) id) (touched ts) t) =
  if has_key r_id id t then Some ts else None.
Proof.
  rewrite (stamp_UPDATE id id (touched ts) ts) by reflexivity.
  rewrite String.eqb_refl. simpl.
  destruct (has_key r_id id t) eqn:K; [reflexivity|].
  apply stamp_absent. exact K.
Qed.

Lemma put_routine_run env (id : string) (body : RoutineBody) (v : World) :
  handle env (PUT_routine id body) v =
  let v1 :=
    match body_name body with
    | None | Some EmptyString => v
    | Some n =>
        {| db := with_routines
                   (UPDATE (fun r => String.eqb (r_id r) id)
                      (renamed n (Date_now env (clock v)))
                      (routines (db v))) (db v);
           clock := S (clock v); ids := ids v |}
    end in
  let v2 :=
    match body_exercises body with
    | Some l => fst (updateSets env id l v1)
    | None => v1
    end in
  (v2, json_routine (loadRoutineFull id (db v2))).
Proof.
  unfold handle, route, put_routine. simpl.
  destruct (body_name body) as [[|c s]|], (body_exercises body) as [l|];
    unfold bind, ret, now, run, query, update_routine_name, set_db; simpl;
    rewrite ?updateSets_run; reflexivity.
Qed.

Lemma final_edit_updated (es : list SetBody) (s : RoutineSet) :
  updated_by_identity es s (final_edit es s).
Proof.
  unfold updated_by_identity, final_edit, last_entry.
  destruct (find _ (rev es)); simpl; auto.
Qed.

Lemma Forall2_map_r {A B : Type} (P : A -> B -> Prop) (f : A -> B)
    (l : list A) :
  (forall x, In x l -> P x (f x)) -> Forall2 P l (map f l).
Proof.
  induction l as [|x l IH]; intros H; simpl; constructor.
  - apply H. now left.
  - apply IH. intros y Hy. apply H. now right.
Qed.

(** C6 (as amended). [PUT /api/routines/:id] with an [exercises] array never
    fails, with or without a name in the body. Every stored set keeps its
    id and its link; a set named by an entry takes the reps and the weight
    of the last such entry, and entries with a missing, empty or unknown id
    change nothing. Whatever the entries are, the transaction of the sets
    reads the clock once and leaves that reading as the [updatedAt] of the
    routine: without a name that is the only reading of the call; with a
    name the rename has read the clock once before, so the call reads it
    twice and [updatedAt] is the second reading. No other routine is
    stamped and no other table changes. The call is the rename followed by
    the update of the sets. *)
Theorem update_sets_by_identity env (w : World) (id : string)
    (name : option string) (l : list ExBody) :
  let body := {| body_name := name; body_exercises := Some l |} in
  let w' := fst (handle env (PUT_routine id body) w) in
  let k := if truthy name then S (clock w) else clock w in
  snd (handle env (PUT_routine id body) w) =
    json_routine (loadRoutineFull id (db w')) /\
  Forall2 (updated_by_identity (entries l))
    (routine_sets (db w)) (routine_sets (db w')) /\
  ((forall e s, In e (entries l) -> In s (routine_sets (db w)) ->
      addresses e s = false) ->
   routine_sets (db w') = routine_sets (db w)) /\
  Forall2 (row_after_put env id name k) (routines (db w)) (routines (db w')) /\
  clock w' = S k /\
  updatedAt id (db w') =
    (if has_key r_id id (routines (db w))
     then Some (Date_now env k) else None) /\
  (forall R, R <> id -> updatedAt R (db w') = updatedAt R (db w)) /\
  (exercises (db w') = exercises (db w) /\
   routine_exercises (db w') = routine_exercises (db w) /\
   history (db w') = history (db w) /\ ids w' = ids w) /\
  handle env (PUT_routine id body) w =
    handle env (PUT_routine id (sets_body l))
      (fst (handle env (PUT_routine id (name_body name)) w)).
Proof.
  cbv zeta. rewrite !put_routine_run. cbv zeta.
  cbn [body_name body_exercises name_body sets_body fst snd].
  rewrite !updateSets_run. cbn [fst snd].
  split; [reflexivity|]. split.
  { destruct name as [[|c n]|]; cbn [db routine_sets with_routines
      with_routine_sets]; simpl;
      apply Forall2_map_r; intros; apply final_edit_updated. }
  split.
  { intros H.
    assert (M : map (final_edit (entries l)) (routine_sets (db w)) =
                routine_sets (db w)).
    { rewrite <- (map_id (routine_sets (db w))) at 2.
      apply map_ext_in. intros s Hs. apply final_edit_untouched.
      intros e He. now apply H. }
    destruct name as [[|c n]|]; simpl; exact M. }
  split.
  { unfold row_after_put.
    destruct name as [[|c n]|]; simpl; unfold UPDATE;
      rewrite ?map_map; apply Forall2_map_r; intros r _;
      destruct (String.eqb (r_id r) id) eqn:E; simpl; rewrite ?E; simpl;
      auto. }
  split; [destruct name as [[|c n]|]; reflexivity|].
  split.
  { unfold updatedAt.
    destruct name as [[|c n]|]; simpl; rewrite stamp_touch;
      rewrite ?has_key_UPDATE by reflexivity; reflexivity. }
  split.
  { intros R HR. unfold updatedAt.
    assert (N : String.eqb R id = false) by now apply String.eqb_neq.
    destruct name as [[|c n]|]; simpl;
      rewrite (stamp_UPDATE R id (touched _) _) by reflexivity;
      rewrite N; simpl; try reflexivity.
    rewrite (stamp_UPDATE R id (renamed _ _) _) by reflexivity.
    rewrite N. reflexivity. }
  split; [destruct name as [[|c n]|]; simpl; auto|].
  destruct name as [[|c n]|]; reflexivity.
Qed.

(** C6, counterexample to the claim as it is worded. A call that renames
    the routine and edits its sets touches [updatedAt] twice: the clock is
    read twice and the second reading is left. *)
Lemma renamed_and_edited_twice :
  clock (two_routines (ticking true)) = 5%nat /\
  clock (fst (handle (ticking true) (PUT_routine "rut_02" rename_and_edit)
                (two_routines (ticking true)))) = 7%nat /\
  updatedAt "rut_02" (db (two_routines (ticking true))) = Some 1004 /\
  updatedAt "rut_02"
    (db (fst (handle (ticking true) (PUT_routine "rut_02" rename_and_edit)
                (two_routines (ticking true))))) = Some 1006 /\
  ~ touched_once (ticking true) "rut_02" rename_and_edit
      (two_routines (ticking true)).
Proof.
  split; [vm_compute; reflexivity|]. split; [vm_compute; reflexivity|].
  split; [vm_compute; reflexivity|]. split; [vm_compute; reflexivity|].
  intros [C _]. vm_compute in C. discriminate.
Qed.

Lemma update_sets_witness :
  (forall e s, In e (entries stray_entries) ->
     In s (routine_sets (db (two_routines (ticking true)))) ->
     addresses e s = false) /\
  routine_sets
    (db (fst (handle (ticking true)
                (PUT_routine "rut_02" (sets_body stray_entries))
                (two_routines (ticking true))))) =
  routine_sets (db (two_routines (ticking true))) /\
  Forall2 (updated_by_identity (entries mixed_entries))
    [ {| rs_id := "set_04"; rs_routine_exercise_id := "rex_03";
         rs_reps := Some 5; rs_peso := Some 60%Q |};
      {| rs_id := "set_05"; rs_routine_exercise_id := "rex_03";
         rs_reps := Some 5; rs_peso := Some 70%Q |} ]
    [ {| rs_id := "set_04"; rs_routine_exercise_id := "rex_03";
         rs_reps := Some 8; rs_peso := Some 65%Q |};
      {| rs_id := "set_05"; rs_routine_exercise_id := "rex_03";
         rs_reps := Some 5; rs_peso := Some 70%Q |} ] /\
  updatedAt "rut_02"
    (db (fst (handle (ticking true)
                (PUT_routine "rut_02" (sets_body mixed_entries))
                (two_routines (ticking true))))) = Some 1005 /\
  clock (fst (handle (ticking true)
                (PUT_routine "rut_02" (sets_body mixed_entries))
                (two_routines (ticking true)))) = 6%nat.
Proof.
  assert (T : routine_sets (db (two_routines (ticking true))) =
              [ {| rs_id := "set_04"; rs_routine_exercise_id := "rex_03";
                   rs_reps := Some 5; rs_peso := Some 60%Q |};
                {| rs_id := "set_05"; rs_routine_exercise_id := "rex_03";
                   rs_reps := Some 5; rs_peso := Some 70%Q |} ])
    by (vm_compute; reflexivity).
  assert (H : forall e s, In e (entries stray_entries) ->
     In s (routine_sets (db (two_routines (ticking true)))) ->
     addresses e s = false).
  { intros e s He Hs. rewrite T in Hs. simpl in He.
    destruct Hs as [<-|[<-|[]]];
      destruct He as [<-|[<-|[<-|[]]]]; reflexivity. }
  split; [exact H|]. split.
  { exact (proj1 (proj2 (proj2
             (update_sets_by_identity (ticking true)
                (two_routines (ticking true)) "rut_02" None stray_entries)))
             H). }
  pose proof (update_sets_by_identity (ticking true)
                (two_routines (ticking true)) "rut_02" None mixed_entries)
    as P.
  cbv zeta in P. destruct P as [_ [F [_ [_ [C [U _]]]]]].
  assert (T' : routine_sets
                 (db (fst (handle (ticking true)
                             (PUT_routine "rut_02"
                                {| body_name := None;
                                   body_exercises := Some mixed_entries |})
                             (two_routines (ticking true))))) =
               [ {| rs_id := "set_04"; rs_routine_exercise_id := "rex_03";
                    rs_reps := Some 8; rs_peso := Some 65%Q |};
                 {| rs_id := "set_05"; rs_routine_exercise_id := "rex_03";
                    rs_reps := Some 5; rs_peso := Some 70%Q |} ])
    by (vm_compute; reflexivity).
  rewrite T, T' in F.
  split; [exact F|].
  split; [exact U | exact C].
Defined.

(** An entry for a stored set is applied; the unknown and the missing id
    next to it are skipped without an error. *)
Example update_sets_mixed :
  let w' := fst (handle (ticking true)
                   (PUT_routine "rut_02" (sets_body mixed_entries))
                   (two_routines (ticking true))) in
  routine_sets (db w') =
  [ {| rs_id := "set_04"; rs_routine_exercise_id := "rex_03";
       rs_reps := Some 8; rs_peso := Some 65%Q |};
    {| rs_id := "set_05"; rs_routine_exercise_id := "rex_03";
       rs_reps := Some 5; rs_peso := Some 70%Q |} ] /\
  updatedAt "rut_02" (db w') = Some 1005.
Proof. split; reflexivity. Qed.

(** ** Recording a workout *)

Lemma insert_sets_run env (wi : string) (sets : list StBody) :
  forall (i : Z) (w w' : World),
    forEach_from i
      (fun st _ =>
         n <- nanoid8 env ;;
         run (insert_workout_set env
                {| ws_id := "ws_" ++ n; ws_workout_item_id := wi;
                   ws_reps := st_reps st; ws_peso := st_peso st;
                   ws_done := Some (if st_done st then 1 else 0) |}))
      sets w = (w', Ok tt) ->
    exists rows,
      workout_sets (db w') = (workout_sets (db w) ++ rows)%list /\
      Forall2 (set_snapshot wi) sets rows /\
      workout_items (db w') = workout_items (db w) /\
      workouts (db w') = workouts (db w) /\
      routine_side (db w') = routine_side (db w) /\
      clock w' = clock w.
Proof.
  induction sets as [|st sets IH]; intros i w w' H; simpl in H.
  - injection H as <-. exists []. rewrite app_nil_r. repeat split; auto.
  - unfold bind at 1 in H. unfold bind at 1 in H.
    unfold nanoid8 at 1 in H. unfold run at 1 in H. simpl in H.
    unfold insert_workout_set in H. simpl in H.
    destruct (has_key ws_id _ _); [discriminate|].
    destruct (fk_ok env _); [|discriminate].
    apply IH in H. simpl in H.
    destruct H as [rows [H1 [H2 [H3 [H4 [H5 H6]]]]]].
    eexists (_ :: rows). rewrite H1, <- app_assoc. simpl.
    split; [reflexivity|]. split; [|auto].
    constructor; auto. repeat split.
Qed.

Lemma insert_items_run env (wid : string) (its : list ItBody) :
  forall (idx : Z) (w w' : World),
    forEach_from idx (insert_item env wid) its w = (w', Ok tt) ->
    exists rows sets,
      workout_items (db w') = (workout_items (db w) ++ rows)%list /\
      workout_sets (db w') = (workout_sets (db w) ++ sets)%list /\
      snapshot wid idx its rows sets /\
      workouts (db w') = workouts (db w) /\
      routine_side (db w') = routine_side (db w) /\
      clock w' = clock w.
Proof.
  induction its as [|it its IH]; intros idx w w' H; simpl in H.
  - injection H as <-. exists [], []. rewrite !app_nil_r.
    repeat split; auto.
  - unfold bind at 1 in H. unfold insert_item at 1 in H.
    unfold bind at 1 in H. unfold nanoid8 at 1 in H.
    unfold bind at 1 in H. unfold run at 1 in H. simpl in H.
    unfold insert_workout_item in H. simpl in H.
    destruct (has_key wi_id _ _); [discriminate|].
    destruct (fk_ok env _); [|discriminate].
    unfold insert_sets, forEach in H.
    destruct (forEach_from 0 _ _ _) as [w1 [[]|e]] eqn:E1; [|discriminate].
    apply insert_sets_run in E1. simpl in E1.
    destruct E1 as [mine [S1 [S2 [S3 [S4 [S5 S6]]]]]].
    apply IH in H.
    destruct H as [rows [rest [H1 [H2 [H3 [H4 [H5 H6]]]]]]].
    eexists (_ :: rows), (mine ++ rest)%list.
    rewrite H1, H2, S1, S3, <- !app_assoc. simpl.
    split; [reflexivity|]. split; [reflexivity|]. split.
    + split; [repeat split|]. exists mine, rest. auto.
    + rewrite H4, H5, H6, S4, S5, S6. auto.
Qed.

(** The personal records depend on the item and set tables only. *)
Lemma marks_ext (d d' : DB) :
  workout_items d = workout_items d' -> workout_sets d = workout_sets d' ->
  marks d = marks d'.
Proof.
  intros Hi Hs. unfold marks, ranked, joined. now rewrite Hi, Hs.
Qed.

Lemma seed_rows_run (seed : list Exercise) :
  forall (i : Z) (w w' : World) (o : outcome unit),
    forEach_from i (fun r _ => run (insert_exercise r)) seed w = (w', o) ->
    history (db w') = history (db w).
Proof.
  induction seed as [|r seed IH]; intros i w w' o H; simpl in H.
  - unfold ret in H. now injection H as <- _.
  - unfold bind, run, insert_exercise in H.
    destruct (has_key e_id (e_id r) (exercises (db w))).
    + now injection H as <- _.
    + apply IH in H. exact H.
Qed.

Lemma seed_exercises_history (seed : list Exercise) (w : World) :
  history (db (fst (seed_exercises seed w))) = history (db w).
Proof.
  unfold seed_exercises, bind, query, transaction, forEach. simpl.
  destruct (List.length (exercises (db w))); [|reflexivity].
  destruct (forEach_from 0 _ seed w) as [w' [[]|e]] eqn:E; simpl.
  - now apply seed_rows_run in E.
  - reflexivity.
Qed.

(** Every handler but [POST /api/workouts] leaves the three workout tables
    as they are. *)
Lemma handle_history env (req : Request) (w : World) :
  match req with POST_workouts _ => False | _ => True end ->
  history (db (fst (handle env req w))) = history (db w).
Proof.
  destruct req; intros H; try contradiction; clear H;
    try reflexivity.
  - (* POST /api/exercises *)
    unfold handle, route, post_exercises.
    destruct (p_name p) as [[|c s]|]; try reflexivity.
    unfold bind, nanoid8, run, insert_exercise, ret. simpl.
    destruct (has_key e_id _ _); reflexivity.
  - (* POST /api/routines *)
    unfold handle, route, post_routines, bind, nanoid8, now, run,
      insert_routine, query, ret. simpl.
    destruct (has_key r_id _ _); reflexivity.
  - (* GET /api/routines/:id *)
    unfold handle, route, get_routine, bind, query, ret. simpl.
    destruct (loadRoutineFull id (db w)); reflexivity.
  - (* PUT /api/routines/:id *)
    rewrite put_routine_run. simpl.
    destruct (body_name body) as [[|c s]|],
      (body_exercises body) as [l|];
      rewrite ?updateSets_run; reflexivity.
  - (* DELETE /api/routines/:id/exercises/:rexId *)
    unfold handle, route. rewrite delete_routine_exercise_h_run.
    reflexivity.
  - (* POST /api/routines/:id/exercises *)
    unfold handle, route, post_routine_exercises.
    destruct exerciseId as [[|c s]|]; try reflexivity.
    unfold transaction, bind, nanoid8, now, run, query, ret,
      insert_routine_exercise. simpl.
    destruct (has_key re_id _ _); [reflexivity|].
    destruct (fk_ok env _ && fk_ok env _); reflexivity.
  - (* POST /api/routines/:id/exercises/:rexId/sets *)
    unfold handle, route, post_routine_sets, bind, nanoid8, now, run,
      ret, insert_routine_set. simpl.
    destruct (has_key rs_id _ _); [reflexivity|].
    destruct (fk_ok env _); reflexivity.
Qed.

(** [POST /api/workouts] either records the whole session or nothing. *)
Lemma post_workouts_run env (s : WorkoutBody) (w : World) :
  let w' := fst (handle env (POST_workouts s) w) in
  let res := snd (handle env (POST_workouts s) w) in
  let wid := "wo_" ++ nanoid env (ids w) in
  (exists rows sets,
     res = json_id wid /\
     workouts (db w') =
       (workouts (db w) ++
        [ {| w_id := wid; w_routine_id := s_routineId s;
             w_startedAt := s_startedAt s; w_finishedAt := s_finishedAt s;
             w_durationSec := s_durationSec s |} ])%list /\
     workout_items (db w') = (workout_items (db w) ++ rows)%list /\
     workout_sets (db w') = (workout_sets (db w) ++ sets)%list /\
     snapshot wid 0 (or_nil (s_items s)) rows sets /\
     routine_side (db w') = routine_side (db w)) \/
  (exists e, res = status_500 e /\ db w' = db w).
Proof.
  unfold handle, route, post_workouts, transaction, bind, nanoid8, run,
    insert_workout, ret. simpl.
  destruct (has_key w_id _ _); simpl.
  { right. eexists. split; reflexivity. }
  unfold forEach.
  destruct (forEach_from 0 _ _ _) as [w1 [[]|e]] eqn:E; simpl.
  - left. apply insert_items_run in E. simpl in E.
    destruct E as [rows [sets [H1 [H2 [H3 [H4 [H5 _]]]]]]].
    exists rows, sets. repeat (split; [assumption || reflexivity|]).
    exact H5.
  - right. exists e. split; reflexivity.
Qed.

Lemma has_key_snoc {R : Type} (key : R -> string) k (t : list R) (r : R) :
  has_key key k (t ++ [r]) = has_key key k t || String.eqb (key r) k.
Proof. rewrite has_key_app. simpl. now rewrite orb_false_r. Qed.

Lemma fk_ok_present env : fk_ok env true = true.
Proof. unfold fk_ok. apply orb_true_r. Qed.

(** With ids that do not collide the inner loop inserts every set. *)
Lemma insert_sets_ok env (wi : string) (sets : list StBody) :
  forall (i : Z) (w : World),
    distinct_ids env (ids w) (List.length sets) ->
    (forall k, (ids w <= k < ids w + List.length sets)%nat ->
       has_key ws_id ("ws_" ++ nanoid env k) (workout_sets (db w)) = false) ->
    has_key wi_id wi (workout_items (db w)) = true ->
    exists w',
      forEach_from i
        (fun st _ =>
           n <- nanoid8 env ;;
           run (insert_workout_set env
                  {| ws_id := "ws_" ++ n; ws_workout_item_id := wi;
                     ws_reps := st_reps st; ws_peso := st_peso st;
                     ws_done := Some (if st_done st then 1 else 0) |}))
        sets w = (w', Ok tt) /\
      ids w' = (ids w + List.length sets)%nat /\
      (forall id, has_key ws_id id (workout_sets (db w')) = true ->
         has_key ws_id id (workout_sets (db w)) = true \/
         exists k, (ids w <= k < ids w')%nat /\ id = "ws_" ++ nanoid env k).
Proof.
  induction sets as [|st sets IH]; intros i w D F K; simpl.
  - exists w. unfold ret. split; [reflexivity|]. split; [lia|]. auto.
  - unfold bind at 1. unfold bind at 1. unfold nanoid8 at 1.
    unfold run at 1. unfold insert_workout_set. simpl.
    assert (F0 := F (ids w)). simpl in F0. rewrite F0 by lia.
    rewrite K, fk_ok_present. simpl.
    match goal with
    | |- exists w', forEach_from _ _ _ ?w1 = _ /\ _ =>
        destruct (IH (i + 1) w1) as [w' [E [N C]]]
    end.
    + intros j k Hj Hk. simpl in *. apply D; simpl; lia.
    + intros k Hk. simpl in *. rewrite has_key_snoc. simpl.
      assert (Fk := F k). simpl in Fk. rewrite Fk by lia. simpl.
      apply String.eqb_neq. intros E. simpl in E. try injection E as E.
      revert E. apply D; simpl; lia.
    + exact K.
    + exists w'. split; [exact E|]. simpl in N. split; [lia|].
      intros id H. apply C in H. simpl in H.
      destruct H as [H|[k [Hk ->]]].
      * rewrite has_key_snoc in H. apply orb_true_iff in H.
        destruct H as [H|H]; auto.
        right. exists (ids w). split; [lia|].
        apply String.eqb_eq in H. now rewrite <- H.
      * right. exists k. split; [lia | reflexivity].
Qed.

(** With ids that do not collide the outer loop inserts every item and its
    sets. *)
Lemma insert_items_ok env (wid : string) (its : list ItBody) :
  forall (idx : Z) (w : World),
    distinct_ids env (ids w) (item_ids its) ->
    (forall k, (ids w <= k < ids w + item_ids its)%nat ->
       has_key wi_id ("wi_" ++ nanoid env k) (workout_items (db w)) = false /\
       has_key ws_id ("ws_" ++ nanoid env k) (workout_sets (db w)) = false) ->
    has_key w_id wid (workouts (db w)) = true ->
    exists w', forEach_from idx (insert_item env wid) its w = (w', Ok tt).
Proof.
  induction its as [|it its IH]; intros idx w D F K; simpl.
  - exists w. reflexivity.
  - simpl in D, F.
    set (len := List.length (or_nil (it_sets it))) in *.
    unfold bind at 1. unfold insert_item at 1.
    unfold bind at 1. unfold nanoid8 at 1.
    unfold bind at 1. unfold run at 1. unfold insert_workout_item. simpl.
    destruct (F (ids w)) as [F0 _]; [lia|]. simpl in F0. rewrite F0.
    rewrite K, fk_ok_present. simpl.
    unfold insert_sets, forEach.
    match goal with
    | |- exists w', (let (_, _) := forEach_from _ _ _ ?w1 in _) = _ =>
        destruct (insert_sets_ok env
                    (String "w" (String "i" (String "_" (nanoid env (ids w)))))
                    (or_nil (it_sets it)) 0 w1) as [w2 [E [N C]]]
    end.
    + intros j k Hj Hk. simpl in *. fold len in Hk. apply D; lia.
    + intros k Hk. simpl in *. fold len in Hk.
      destruct (F k) as [_ Fk]; [lia|]. exact Fk.
    + simpl. rewrite has_key_snoc. simpl. rewrite String.eqb_refl.
      apply orb_true_r.
    + rewrite E. simpl in N. fold len in N.
      pose proof (insert_sets_run env _ _ _ _ _ E)
        as [rows [_ [_ [Hi [Hw _]]]]]. simpl in Hi, Hw.
      apply IH.
      * intros j k Hj Hk. apply D; lia.
      * intros k Hk. rewrite Hi, has_key_snoc. simpl.
        destruct (F k) as [Fi Fs]; [lia|]. simpl in Fi. rewrite Fi. simpl.
        split.
        -- apply String.eqb_neq. intros X. simpl in X.
           try injection X as X. revert X. apply D; lia.
        -- apply not_true_is_false. intros X. apply C in X. simpl in X.
           destruct X as [X|[j [Hj X]]].
           ++ simpl in Fs. congruence.
           ++ simpl in X. try injection X as X. revert X.
              destruct (Nat.lt_trichotomy j k) as [L|[L|L]]; try lia.
              intros X. symmetry in X. revert X. apply D; lia.
      * now rewrite Hw.
Qed.

(** [POST /api/workouts] records the session whenever the ids it generates
    do not collide. *)
Lemma post_workouts_ok env (s : WorkoutBody) (w : World) :
  fresh_ids env w (ids_needed s) ->
  snd (handle env (POST_workouts s) w) =
  json_id ("wo_" ++ nanoid env (ids w)).
Proof.
  intros [D F]. unfold ids_needed in *.
  unfold handle, route, post_workouts, transaction, bind, nanoid8, run,
    insert_workout, ret. simpl.
  destruct (F (ids w)) as [F0 _]; [lia|]. simpl in F0. rewrite F0. simpl.
  unfold forEach.
  match goal with
  | |- context [forEach_from 0 ?f ?l ?w1] =>
      destruct (insert_items_ok env
                  (String "w" (String "o" (String "_" (nanoid env (ids w)))))
                  l 0 w1) as [w2 E]
  end.
  - intros j k Hj Hk. simpl in *. apply D; lia.
  - intros k Hk. simpl in *. destruct (F k) as [_ Fk]; [lia|]. exact Fk.
  - simpl. rewrite has_key_snoc. simpl. rewrite String.eqb_refl.
    apply orb_true_r.
  - rewrite E. reflexivity.
Qed.

Lemma serve_history env (reqs : list Request) (w : World) :
  Forall (fun req => match req with POST_workouts _ => False | _ => True end)
    reqs ->
  history (db (serve env reqs w)) = history (db w).
Proof.
  intros F. revert w. induction F as [|req reqs H _ IH]; intros w; simpl.
  - reflexivity.
  - rewrite IH. now apply handle_history.
Qed.

(** C5. No request rewrites or removes a recorded row: the three workout
    tables only ever grow at the end. [POST /api/workouts] is all or nothing:
    either it appends the session row, one item row per payload item in the
    given order at positions 0, 1, 2, ..., and one set row per payload set in
    the given order under its item, and touches nothing else; or it throws
    and the database is as before; it does not throw when the ids it
    generates do not collide. Every other request, and the start-up seeding,
    leaves the three tables and the personal records unchanged. *)
Theorem workout_history_is_write_once env (req : Request) (w : World) :
  let w' := fst (handle env req w) in
  (exists nw ni ns,
     workouts (db w') = (workouts (db w) ++ nw)%list /\
     workout_items (db w') = (workout_items (db w) ++ ni)%list /\
     workout_sets (db w') = (workout_sets (db w) ++ ns)%list) /\
  match req with
  | POST_workouts s =>
      let wid := "wo_" ++ nanoid env (ids w) in
      (fresh_ids env w (ids_needed s) ->
       snd (handle env req w) = json_id wid) /\
      ((exists rows sets,
         snd (handle env req w) = json_id wid /\
         workouts (db w') =
           (workouts (db w) ++
            [ {| w_id := wid; w_routine_id := s_routineId s;
                 w_startedAt := s_startedAt s;
                 w_finishedAt := s_finishedAt s;
                 w_durationSec := s_durationSec s |} ])%list /\
         workout_items (db w') = (workout_items (db w) ++ rows)%list /\
         workout_sets (db w') = (workout_sets (db w) ++ sets)%list /\
         snapshot wid 0 (or_nil (s_items s)) rows sets /\
         routine_side (db w') = routine_side (db w)) \/
       (exists e, snd (handle env req w) = status_500 e /\ db w' = db w))
  | _ => history (db w') = history (db w) /\ marks (db w') = marks (db w)
  end /\
  (forall seed, history (db (fst (seed_exercises seed w))) = history (db w)).
Proof.
  assert (P : forall s, req = POST_workouts s ->
    let w' := fst (handle env req w) in
    let wid := "wo_" ++ nanoid env (ids w) in
    (exists rows sets,
       snd (handle env req w) = json_id wid /\
       workouts (db w') =
         (workouts (db w) ++
          [ {| w_id := wid; w_routine_id := s_routineId s;
               w_startedAt := s_startedAt s;
               w_finishedAt := s_finishedAt s;
               w_durationSec := s_durationSec s |} ])%list /\
       workout_items (db w') = (workout_items (db w) ++ rows)%list /\
       workout_sets (db w') = (workout_sets (db w) ++ sets)%list /\
       snapshot wid 0 (or_nil (s_items s)) rows sets /\
       routine_side (db w') = routine_side (db w)) \/
    (exists e, snd (handle env req w) = status_500 e /\ db w' = db w)).
  { intros s ->. apply post_workouts_run. }
  assert (Q : match req with POST_workouts _ => False | _ => True end ->
    let w' := fst (handle env req w) in
    history (db w') = history (db w) /\ marks (db w') = marks (db w)).
  { intros H. pose proof (handle_history env req w H) as E.
    split; [exact E|]. unfold history in E.
    injection E as _ Ei Es. now apply marks_ext. }
  split; [|split].
  - destruct req as [ | | | | | | | | | | | |body| ];
      try (destruct Q as [Q _]; [exact I|]; exists [], [], [];
           rewrite !app_nil_r; unfold history in Q;
           repeat split; congruence).
    destruct (P body eq_refl)
      as [[rows [sets [_ [H1 [H2 [H3 _]]]]]]|[e [_ H]]].
    + eexists _, rows, sets. eauto.
    + simpl. rewrite H. exists [], [], []. now rewrite !app_nil_r.
  - destruct req; try (apply Q; exact I).
    cbv zeta. split.
    + apply post_workouts_ok.
    + apply (P s eq_refl).
  - intros seed. apply seed_exercises_history.
Qed.

Lemma two_digits_distinct :
  distinct_ids (ticking true) 6 (ids_needed four_sets).
Proof.
  intros j k Hj Hk.
  assert (E : ids_needed four_sets = 7%nat) by reflexivity.
  rewrite E in Hk.
  assert (J : (j = 6 \/ j = 7 \/ j = 8 \/ j = 9 \/ j = 10 \/ j = 11)%nat)
    by lia.
  assert (K : (k = 7 \/ k = 8 \/ k = 9 \/ k = 10 \/ k = 11 \/ k = 12)%nat)
    by lia.
  destruct J as [->|[->|[->|[->|[->| ->]]]]];
    destruct K as [->|[->|[->|[->|[->| ->]]]]];
    try lia; vm_compute; discriminate.
Qed.

Lemma workout_recorded_witness :
  let env := ticking true in
  let w := two_routines env in
  let w' := fst (handle env (POST_workouts four_sets) w) in
  fresh_ids env w (ids_needed four_sets) /\
  snd (handle env (POST_workouts four_sets) w) = json_id "wo_06" /\
  List.length (workout_sets (db w')) = 4%nat.
Proof.
  intros env w w'.
  assert (F : fresh_ids env w (ids_needed four_sets)).
  { split; [exact two_digits_distinct|]. intros k _. now vm_compute. }
  split; [exact F|]. split; [|reflexivity].
  exact (proj1 (proj1 (proj2
    (workout_history_is_write_once env (POST_workouts four_sets) w))) F).
Defined.

(** The scenario of the specification: four sets are persisted in order, and
    later edits of the source routine change neither the recorded rows nor
    the personal records. *)
Example recorded_session_is_frozen :
  let env := ticking true in
  let w1 := fst (handle env (POST_workouts four_sets) (two_routines env)) in
  let w2 := serve env later_edits w1 in
  map (fun i => (wi_name i, wi_order_index i)) (workout_items (db w1)) =
    [(Some "Squat", Some 0); (Some "Press", Some 1)] /\
  map (fun s => (ws_workout_item_id s, ws_reps s, ws_done s))
    (workout_sets (db w1)) =
    [ ("wi_07", Some 5, Some 1); ("wi_07", Some 5, Some 0);
      ("wi_10", Some 8, Some 1); ("wi_10", Some 6, Some 0) ] /\
  routine_side (db w2) <> routine_side (db w1) /\
  history (db w2) = history (db w1) /\
  marks (db w2) = marks (db w1).
Proof.
  cbv zeta.
  split; [vm_compute; reflexivity|].
  split; [vm_compute; reflexivity|].
  split; [vm_compute; discriminate|].
  split; vm_compute; reflexivity.
Qed.

(** ** The high-water mark [updatedAt] *)

(** What one write does to the routine [R]: nothing, or it leaves [R] in the
    table with the reading of the write as its [updatedAt]. *)
Lemma routines_write_stamp env c t t' (R : string) :
  routines_write env c t t' ->
  (has_key r_id R t' = has_key r_id R t /\ stamp R t' = stamp R t) \/
  (has_key r_id R t' = true /\ stamp R t' = Some (Date_now env c)).
Proof.
  intros [id t0|id name t0|row t0 Hfresh Hts].
  - rewrite has_key_UPDATE by reflexivity.
    rewrite (stamp_UPDATE R id _ (Date_now env c)) by reflexivity.
    destruct (String.eqb R id && has_key r_id R t0) eqn:E; auto.
    apply andb_true_iff in E. right. tauto.
  - rewrite has_key_UPDATE by reflexivity.
    rewrite (stamp_UPDATE R id _ (Date_now env c)) by reflexivity.
    destruct (String.eqb R id && has_key r_id R t0) eqn:E; auto.
    apply andb_true_iff in E. right. tauto.
  - rewrite has_key_app. unfold stamp. rewrite find_append. simpl.
    destruct (String.eqb (r_id row) R) eqn:E.
    + apply String.eqb_eq in E. subst R. right.
      rewrite orb_true_r. split; auto.
      pose proof (stamp_absent _ _ Hfresh) as N. unfold stamp in N.
      destruct (find _ t0) as [r|] eqn:F.
      * apply find_some in F. destruct F as [F1 F2].
        apply String.eqb_eq in F2.
        assert (has_key r_id (r_id row) t0 = true)
          by (apply has_key_spec; now exists r).
        congruence.
      * exact Hts.
    + left. rewrite orb_false_r. split; auto.
      destruct (find _ t0); auto.
Qed.

Lemma insert_sets_clock env (wi : string) (sets : list StBody) :
  forall (i : Z) (w w' : World) (o : outcome unit),
    forEach_from i
      (fun st _ =>
         n <- nanoid8 env ;;
         run (insert_workout_set env
                {| ws_id := "ws_" ++ n; ws_workout_item_id := wi;
                   ws_reps := st_reps st; ws_peso := st_peso st;
                   ws_done := Some (if st_done st then 1 else 0) |}))
      sets w = (w', o) ->
    clock w' = clock w.
Proof.
  induction sets as [|st sets IH]; intros i w w' o H; simpl in H.
  - unfold ret in H. now injection H as <- _.
  - unfold bind at 1 in H. unfold bind at 1 in H.
    unfold nanoid8 at 1 in H. unfold run at 1 in H. simpl in H.
    unfold insert_workout_set in H. simpl in H.
    destruct (has_key ws_id _ _); [now injection H as <- _|].
    destruct (fk_ok env _); [|now injection H as <- _].
    apply IH in H. exact H.
Qed.

Lemma insert_items_clock env (wid : string) (its : list ItBody) :
  forall (idx : Z) (w w' : World) (o : outcome unit),
    forEach_from idx (insert_item env wid) its w = (w', o) ->
    clock w' = clock w.
Proof.
  induction its as [|it its IH]; intros idx w w' o H; simpl in H.
  - unfold ret in H. now injection H as <- _.
  - unfold bind at 1 in H. unfold insert_item at 1 in H.
    unfold bind at 1 in H. unfold nanoid8 at 1 in H.
    unfold bind at 1 in H. unfold run at 1 in H. simpl in H.
    unfold insert_workout_item in H. simpl in H.
    destruct (has_key wi_id _ _); [now injection H as <- _|].
    destruct (fk_ok env _); [|now injection H as <- _].
    unfold insert_sets, forEach in H.
    destruct (forEach_from 0 _ _ _) as [w1 [[]|e]] eqn:E1.
    + apply insert_sets_clock in E1. apply IH in H.
      simpl in E1. congruence.
    + apply insert_sets_clock in E1.
      injection H as <- _. exact E1.
Qed.

Lemma post_workouts_clock env (s : WorkoutBody) (w : World) :
  clock (fst (handle env (POST_workouts s) w)) = clock w.
Proof.
  unfold handle, route, post_workouts, transaction, bind, nanoid8, run,
    insert_workout, ret. simpl.
  destruct (has_key w_id _ _); simpl; auto.
  unfold forEach.
  destruct (forEach_from 0 _ _ _) as [w1 [[]|e]] eqn:E; simpl;
    apply insert_items_clock in E; exact E.
Qed.

(** What a request does to the routines table: nothing, one stamped write,
    or (a PUT with a name and an exercises array) two. *)
Lemma handle_routines env (req : Request) (w : World) :
  let w' := fst (handle env req w) in
  (routines (db w') = routines (db w) /\ (clock w <= clock w')%nat) \/
  (routines_write env (clock w) (routines (db w)) (routines (db w')) /\
   clock w' = S (clock w)) \/
  (exists t1,
     routines_write env (clock w) (routines (db w)) t1 /\
     routines_write env (S (clock w)) t1 (routines (db w')) /\
     clock w' = S (S (clock w))).
Proof.
  destruct req; try (left; split; [reflexivity | apply Nat.le_refl]).
  - (* POST /api/exercises *)
    left. unfold handle, route, post_exercises.
    destruct (p_name p) as [[|c s]|]; simpl;
      try (split; [reflexivity | apply Nat.le_refl]).
    unfold bind, nanoid8, run, insert_exercise, ret. simpl.
    destruct (has_key e_id _ _); simpl; split; auto.
  - (* POST /api/routines *)
    unfold handle, route, post_routines, bind, nanoid8, now, run,
      insert_routine, query, ret. simpl.
    destruct (has_key r_id _ _) eqn:E; simpl.
    + left. split; auto.
    + right. left. split; auto. now apply write_insert.
  - (* GET /api/routines/:id *)
    left. unfold handle, route, get_routine, bind, query, ret. simpl.
    destruct (loadRoutineFull id (db w)); split; auto.
  - (* PUT /api/routines/:id *)
    rewrite put_routine_run. simpl.
    destruct (body_name body) as [[|c s]|],
      (body_exercises body) as [l|];
      rewrite ?updateSets_run; simpl;
      try (left; split; [reflexivity | apply Nat.le_refl]);
      try (right; left; split; [constructor | reflexivity]).
    right. right. eexists. split; [apply write_rename|].
    split; [apply write_touch | reflexivity].
  - (* DELETE /api/routines/:id/exercises/:rexId *)
    unfold handle, route. rewrite delete_routine_exercise_h_run. simpl.
    right. left. split; [constructor | reflexivity].
  - (* POST /api/routines/:id/exercises *)
    unfold handle, route, post_routine_exercises.
    destruct exerciseId as [[|c s]|];
      try (left; split; [reflexivity | apply Nat.le_refl]).
    unfold transaction, bind, nanoid8, now, run, query, ret,
      insert_routine_exercise. simpl.
    destruct (has_key re_id _ _); [left; split; auto|].
    destruct (fk_ok env _ && fk_ok env _); simpl.
    + right. left. split; [constructor | reflexivity].
    + left. split; auto.
  - (* POST /api/routines/:id/exercises/:rexId/sets *)
    unfold handle, route, post_routine_sets, bind, nanoid8, now, run,
      ret, insert_routine_set. simpl.
    destruct (has_key rs_id _ _); [left; split; auto|].
    destruct (fk_ok env _); simpl.
    + right. left. split; [constructor | reflexivity].
    + left. split; auto.
  - (* DELETE /api/routines/:id/exercises/:rexId/sets/:setId *)
    right. left. split; [constructor | reflexivity].
  - (* POST /api/workouts *)
    left. split; [|rewrite post_workouts_clock; apply Nat.le_refl].
    destruct (post_workouts_run env s w)
      as [[rows [sets [_ [_ [_ [_ [_ H]]]]]]]|[e [_ H]]].
    + unfold routine_side in H. congruence.
    + now rewrite H.
Qed.

(** A request leaves the stamp of a routine alone or replaces it by a
    reading taken while the request was served. *)
Lemma handle_stamp env (req : Request) (w : World) (R : string) :
  let w' := fst (handle env req w) in
  (clock w <= clock w')%nat /\
  ((has_key r_id R (routines (db w')) = has_key r_id R (routines (db w)) /\
    updatedAt R (db w') = updatedAt R (db w)) \/
   (has_key r_id R (routines (db w')) = true /\
    exists k, (clock w <= k < clock w')%nat /\
              updatedAt R (db w') = Some (Date_now env k))).
Proof.
  unfold updatedAt.
  destruct (handle_routines env req w)
    as [[H C]|[[H C]|[t1 [H1 [H2 C]]]]]; simpl in *.
  - split; auto. left. now rewrite H.
  - split; [lia|].
    destruct (routines_write_stamp env _ _ _ R H) as [E|[E1 E2]]; auto.
    right. split; auto. exists (clock w). split; [lia | exact E2].
  - split; [lia|].
    destruct (routines_write_stamp env _ _ _ R H2) as [[A1 A2]|[A1 A2]].
    + destruct (routines_write_stamp env _ _ _ R H1) as [[B1 B2]|[B1 B2]].
      * left. split; congruence.
      * right. split; [congruence|]. exists (clock w).
        split; [lia | congruence].
    + right. split; auto. exists (S (clock w)). split; [lia | exact A2].
Qed.

(** A mutation of [R] through its own id that is neither rejected nor
    aborted stamps [R] with the last reading taken while it was served. *)
Lemma handle_touch env (req : Request) (w : World) (R : string) :
  mutates R req = true ->
  failed (snd (handle env req w)) = false ->
  has_key r_id R (routines (db w)) = true ->
  let w' := fst (handle env req w) in
  (clock w < clock w')%nat /\
  updatedAt R (db w') = Some (Date_now env (pred (clock w'))).
Proof.
  unfold updatedAt.
  destruct req; simpl; try discriminate; intros M F H.
  - (* PUT /api/routines/:id *)
    apply andb_true_iff in M. destruct M as [M1 M2].
    apply String.eqb_eq in M1. subst id.
    rewrite put_routine_run. simpl.
    destruct (body_name body) as [[|c s]|],
      (body_exercises body) as [l|]; try discriminate;
      rewrite ?updateSets_run; simpl; (split; [lia|]);
      rewrite !(stamp_UPDATE R R _ _) by reflexivity;
      rewrite ?has_key_UPDATE by reflexivity;
      now rewrite String.eqb_refl, H.
  - (* DELETE /api/routines/:id/exercises/:rexId *)
    apply String.eqb_eq in M. subst id.
    unfold handle, route. rewrite delete_routine_exercise_h_run. simpl.
    split; [lia|].
    rewrite (stamp_UPDATE R R _ _) by reflexivity.
    now rewrite String.eqb_refl, H.
  - (* POST /api/routines/:id/exercises *)
    apply String.eqb_eq in M. subst id.
    revert F. unfold handle, route, post_routine_exercises.
    destruct exerciseId as [[|c s]|]; try discriminate.
    unfold transaction, bind, nanoid8, now, run, query, ret,
      insert_routine_exercise. simpl.
    destruct (has_key re_id _ _); [discriminate|].
    destruct (fk_ok env _ && fk_ok env _); simpl; [|discriminate].
    intros _. split; [lia|].
    rewrite (stamp_UPDATE R R _ _) by reflexivity.
    now rewrite String.eqb_refl, H.
  - (* POST /api/routines/:id/exercises/:rexId/sets *)
    apply String.eqb_eq in M. subst id.
    revert F. unfold handle, route, post_routine_sets, bind, nanoid8, now,
      run, ret, insert_routine_set. simpl.
    destruct (has_key rs_id _ _); [discriminate|].
    destruct (fk_ok env _); simpl; [|discriminate].
    intros _. split; [lia|].
    rewrite (stamp_UPDATE R R _ _) by reflexivity.
    now rewrite String.eqb_refl, H.
  - (* DELETE /api/routines/:id/exercises/:rexId/sets/:setId *)
    apply String.eqb_eq in M. subst id.
    split; [lia|].
    rewrite (stamp_UPDATE R R _ _) by reflexivity.
    now rewrite String.eqb_refl, H.
Qed.

Lemma stamped_boot env : stamped env boot.
Proof. intros R H. discriminate. Qed.

Lemma stamped_handle env (req : Request) (w : World) :
  stamped env w -> stamped env (fst (handle env req w)).
Proof.
  intros S R H.
  destruct (handle_stamp env req w R) as [C [[E1 E2]|[_ [k [Hk E]]]]].
  - rewrite E1 in H. destruct (S R H) as [k [Hk E]].
    exists k. split; [lia | congruence].
  - exists k. split; [lia | exact E].
Qed.

Lemma stamped_serve env (reqs : list Request) (w : World) :
  stamped env w -> stamped env (serve env reqs w).
Proof.
  revert w. induction reqs as [|req reqs IH]; intros w S; simpl; auto.
  apply IH. now apply stamped_handle.
Qed.

Lemma strictly_increasing_non_decreasing env :
  strictly_increasing env -> non_decreasing env.
Proof.
  intros I m n H. destruct (Nat.eq_dec m n) as [->|N]; [lia|].
  assert (Date_now env m < Date_now env n) by (apply I; lia). lia.
Qed.

(** Under a clock that never goes back a served request never lowers the
    stamp of an existing routine, and the routine stays. *)
Lemma handle_monotone env (req : Request) (w : World) (R : string) (t : Z) :
  non_decreasing env -> stamped env w ->
  has_key r_id R (routines (db w)) = true ->
  updatedAt R (db w) = Some t ->
  has_key r_id R (routines (db (fst (handle env req w)))) = true /\
  exists t', updatedAt R (db (fst (handle env req w))) = Some t' /\ t <= t'.
Proof.
  intros I S H E.
  destruct (S R H) as [k0 [Hk0 E0]].
  destruct (handle_stamp env req w R) as [C [[E1 E2]|[E1 [k [Hk E2]]]]].
  - split; [congruence|]. exists t. split; [congruence | lia].
  - split; auto. exists (Date_now env k). split; auto.
    assert (Date_now env k0 <= Date_now env k) by (apply I; lia).
    rewrite E in E0. injection E0 as ->. lia.
Qed.

Lemma serve_monotone env (reqs : list Request) (w : World) (R : string)
    (t : Z) :
  non_decreasing env -> stamped env w ->
  has_key r_id R (routines (db w)) = true ->
  updatedAt R (db w) = Some t ->
  exists t', updatedAt R (db (serve env reqs w)) = Some t' /\ t <= t'.
Proof.
  intros I. revert w t.
  induction reqs as [|req reqs IH]; intros w t S H E; simpl.
  - exists t. split; [exact E | lia].
  - destruct (handle_monotone env req w R t I S H E) as [H' [t1 [E1 L1]]].
    destruct (IH _ t1 (stamped_handle env req w S) H' E1) as [t2 [E2 L2]].
    exists t2. split; [exact E2 | lia].
Qed.

Lemma serve_app env (pre post : list Request) (w : World) :
  serve env (pre ++ post) w = serve env post (serve env pre w).
Proof.
  revert w. induction pre as [|req pre IH]; intros w; simpl; auto.
Qed.

(** C3 (as amended). Let the clock never go back (equal readings are
    allowed) and start from a world whose routines carry earlier readings
    (the empty database is one). Along any sequence of requests
    [pre ++ req :: post] the [updatedAt] of an existing routine [R] never
    decreases. If [req] is a mutation sent to [R]'s own id (a PUT with a name
    or an exercises array, an exercise or a set added or removed) that was
    neither rejected nor aborted, then it read the clock, [updatedAt] equals
    the last reading of that request, at the end of the sequence it is still
    at least every reading taken up to the end of that request, and it is
    strictly greater after the request than before whenever the clock has
    moved on since the reading before the request. *)
Theorem updatedAt_high_water_mark env (w0 : World) (R : string)
    (pre post : list Request) (req : Request) :
  non_decreasing env -> stamped env w0 ->
  let w := serve env pre w0 in
  let w' := fst (handle env req w) in
  let wf := serve env (pre ++ req :: post) w0 in
  has_key r_id R (routines (db w)) = true ->
  exists t t' tf,
    updatedAt R (db w) = Some t /\
    updatedAt R (db w') = Some t' /\
    updatedAt R (db wf) = Some tf /\
    t <= t' /\ t' <= tf /\
    (mutates R req = true -> failed (snd (handle env req w)) = false ->
     (clock w < clock w')%nat /\
     t' = Date_now env (pred (clock w')) /\
     (forall k, (k < clock w')%nat -> Date_now env k <= tf) /\
     (clock_moved_on env w -> t < t')).
Proof.
  intros I S0 w w' wf H.
  assert (S : stamped env w) by now apply stamped_serve.
  destruct (S R H) as [k0 [Hk0 E0]].
  destruct (handle_monotone env req w R _ I S H E0) as [H' [t' [E' L']]].
  fold w' in H', E'.
  assert (S' : stamped env w') by now apply stamped_handle.
  destruct (serve_monotone env post w' R t' I S' H' E') as [tf [Ef Lf]].
  assert (W : wf = serve env post w').
  { unfold wf. now rewrite serve_app. }
  exists (Date_now env k0), t', tf. rewrite W.
  repeat (split; [assumption|]).
  intros M F.
  destruct (handle_touch env req w R M F H) as [C T]. fold w' in C, T.
  rewrite E' in T. injection T as T.
  split; [exact C|]. split; [exact T|]. split.
  - intros k Hk.
    assert (Date_now env k <= t'); [|lia].
    rewrite T. apply I. lia.
  - unfold clock_moved_on. intros Mv. rewrite T.
    assert (Date_now env k0 <= Date_now env (pred (clock w)))
      by (apply I; lia).
    assert (Date_now env (clock w) <= Date_now env (pred (clock w')))
      by (apply I; lia).
    lia.
Qed.

Lemma ticking_strictly_increasing fk : strictly_increasing (ticking fk).
Proof. intros m n H. unfold ticking. cbn [Date_now]. lia. Qed.

Lemma frozen_non_decreasing fk : non_decreasing (frozen fk).
Proof. intros m n H. unfold frozen. cbn [Date_now]. lia. Qed.

Lemma updatedAt_witness :
  let env := ticking true in
  let w0 := two_routines env in
  let pre := firstn 1 edits_of_A in
  let req := POST_routine_exercises "rut_01" (Some "cus_00") in
  let post := skipn 2 edits_of_A in
  let w := serve env pre w0 in
  let w' := fst (handle env req w) in
  let wf := serve env (pre ++ req :: post) w0 in
  (non_decreasing env /\ stamped env w0 /\
   has_key r_id "rut_01" (routines (db w)) = true /\
   mutates "rut_01" req = true /\
   failed (snd (handle env req w)) = false /\
   clock_moved_on env w) /\
  updatedAt "rut_01" (db w) = Some 1005 /\
  updatedAt "rut_01" (db w') = Some 1006 /\
  updatedAt "rut_01" (db wf) = Some 1009 /\
  1005 < 1006 /\
  (forall k, (k < clock w')%nat -> Date_now env k <= 1009) /\
  (non_decreasing (frozen true) /\ stamped (frozen true) boot /\
   exists t t',
     updatedAt "rut_01" (db same_millisecond) = Some t /\
     updatedAt "rut_01"
       (db (fst (handle (frozen true)
                   (POST_routine_sets "rut_01" "rex_02" (Some 5) None)
                   same_millisecond))) = Some t' /\
     t <= t').
Proof.
  intros env w0 pre req post w w' wf.
  assert (I : non_decreasing env)
    by apply strictly_increasing_non_decreasing, ticking_strictly_increasing.
  assert (S : stamped env w0).
  { unfold w0, two_routines. apply stamped_serve, stamped_boot. }
  assert (H : has_key r_id "rut_01" (routines (db w)) = true)
    by reflexivity.
  assert (M : mutates "rut_01" req = true) by reflexivity.
  assert (F : failed (snd (handle env req w)) = false) by reflexivity.
  assert (Mv : clock_moved_on env w) by (vm_compute; reflexivity).
  split; [tauto|].
  destruct (updatedAt_high_water_mark env w0 "rut_01" pre post req I S H)
    as [t [t' [tf [E1 [E2 [E3 [_ [_ Hm]]]]]]]].
  destruct (Hm M F) as [_ [_ [Hk Hlt]]].
  specialize (Hlt Mv).
  fold w in E1. fold w' in E2. fold wf in E3.
  assert (T1 : Some t = Some 1005) by (rewrite <- E1; reflexivity).
  assert (T2 : Some t' = Some 1006) by (rewrite <- E2; reflexivity).
  assert (T3 : Some tf = Some 1009) by (rewrite <- E3; reflexivity).
  injection T1 as ->. injection T2 as ->. injection T3 as ->.
  split; [reflexivity|]. split; [reflexivity|]. split; [reflexivity|].
  split; [exact Hlt|]. split; [exact Hk|].
  split; [apply frozen_non_decreasing|]. split; [apply stamped_boot|].
  destruct (updatedAt_high_water_mark (frozen true) boot "rut_01"
              [ POST_exercises (an_exercise "Squat");
                POST_routines (Some "A");
                POST_routine_exercises "rut_01" (Some "cus_00") ]
              [] (POST_routine_sets "rut_01" "rex_02" (Some 5) None)
              (frozen_non_decreasing true) (stamped_boot (frozen true))
              eq_refl)
    as [u [u' [uf [U1 [U2 [_ [U3 _]]]]]]].
  exists u, u'. split; [exact U1|]. split; [exact U2 | exact U3].
Defined.

(** C3, counterexamples to the claim as it is worded. (1) When the clock
    gives the same millisecond twice, a set is added to the routine and its
    [updatedAt] is not greater than before. (2) With a strictly increasing
    clock, removing the link of routine B through the id of routine A
    deletes the sets beneath B, and B's [updatedAt] stays below the reading
    of that change. *)
Lemma updatedAt_not_a_high_water_mark :
  (snd (handle (frozen true)
          (POST_routine_sets "rut_01" "rex_02" (Some 5) None)
          same_millisecond) = json_id "set_03" /\
   ~ stamp_rises (frozen true) "rut_01"
       (POST_routine_sets "rut_01" "rex_02" (Some 5) None)
       same_millisecond) /\
  (strictly_increasing (ticking true) /\
   ~ stamp_covers (ticking true) "rut_02"
       (DELETE_routine_exercise "rut_01" "rex_03")
       (two_routines (ticking true))).
Proof.
  split; split.
  - reflexivity.
  - intros [t [t' [E1 [E2 L]]]].
    vm_compute in E1, E2. injection E1 as <-. injection E2 as <-. lia.
  - apply ticking_strictly_increasing.
  - intros C. destruct C as [t' [E Hk]].
    + vm_compute. discriminate.
    + vm_compute in E. injection E as <-.
      assert (C5 : clock (two_routines (ticking true)) = 5%nat)
        by (vm_compute; reflexivity).
      assert (C6 : clock (fst (handle (ticking true)
                                 (DELETE_routine_exercise "rut_01" "rex_03")
                                 (two_routines (ticking true)))) = 6%nat)
        by (vm_compute; reflexivity).
      rewrite C5, C6 in Hk. specialize (Hk 5%nat).
      unfold ticking in Hk. cbn [Date_now] in Hk.
      assert (1000 + Z.of_nat 5 <= 1004); [apply Hk|]; lia.
Qed.

(** ** Invariants of the database *)

Section Keeps.
Variable env : Env.
Variable P : DB -> Prop.
Hypothesis kept : kept_by_statements env P.

Lemma keeps_ret {A : Type} (a : A) : keeps P (ret a).
Proof. intros w H. exact H. Qed.

Lemma keeps_bind {A B : Type} (m : M A) (k : A -> M B) :
  keeps P m -> (forall a, keeps P (k a)) -> keeps P (bind m k).
Proof.
  intros Hm Hk w H. unfold bind.
  specialize (Hm w H). destruct (m w) as [w1 [a|e]]; simpl in *.
  - apply Hk. exact Hm.
  - exact Hm.
Qed.

Lemma keeps_query {A : Type} (q : DB -> A) : keeps P (query q).
Proof. intros w H. exact H. Qed.

Lemma keeps_now : keeps P (now env).
Proof. intros w H. exact H. Qed.

Lemma keeps_nanoid8 : keeps P (nanoid8 env).
Proof. intros w H. exact H. Qed.

Lemma keeps_run stmt : statement env stmt -> keeps P (run stmt).
Proof.
  intros S w H. unfold run.
  destruct (stmt (db w)) as [d|e] eqn:E; simpl.
  - exact (kept stmt (db w) d S H E).
  - exact H.
Qed.

Lemma keeps_transaction {A : Type} (f : M A) :
  keeps P f -> keeps P (transaction f).
Proof.
  intros Hf w H. unfold transaction.
  specialize (Hf w H). destruct (f w) as [w1 [a|e]]; simpl in *.
  - exact Hf.
  - exact H.
Qed.

Lemma keeps_forEach_from {A : Type} (f : A -> Z -> M unit) (l : list A) :
  (forall x i, keeps P (f x i)) -> forall i, keeps P (forEach_from i f l).
Proof.
  intros Hf. induction l as [|x l IH]; intro i; simpl.
  - apply keeps_ret.
  - apply keeps_bind; [apply Hf | intros _; apply IH].
Qed.

Lemma keeps_route (req : Request) : keeps P (route env req).
Proof.
  destruct req; simpl.
  - apply keeps_ret.
  - apply keeps_bind; [apply keeps_query | intro; apply keeps_ret].
  - apply keeps_bind; [apply keeps_query | intro; apply keeps_ret].
  - unfold post_exercises. destruct (p_name p) as [[|c s]|].
    + apply keeps_ret.
    + apply keeps_bind; [apply keeps_nanoid8 | intro n].
      apply keeps_bind; [apply keeps_run; constructor | intro; apply keeps_ret].
    + apply keeps_ret.
  - apply keeps_bind; [apply keeps_query | intro; apply keeps_ret].
  - unfold post_routines.
    apply keeps_bind; [apply keeps_nanoid8 | intro n].
    apply keeps_bind; [apply keeps_now | intro ts].
    apply keeps_bind; [apply keeps_run; constructor | intros _].
    apply keeps_bind; [apply keeps_query | intro; apply keeps_ret].
  - unfold get_routine.
    apply keeps_bind; [apply keeps_query | intros [r|]; apply keeps_ret].
  - unfold put_routine.
    apply keeps_bind.
    { destruct (body_name body) as [[|c s]|]; try apply keeps_ret.
      apply keeps_bind; [apply keeps_now | intro ts].
      apply keeps_run; constructor. }
    intros _. apply keeps_bind.
    { destruct (body_exercises body) as [l|]; [|apply keeps_ret].
      unfold updateSets. apply keeps_transaction.
      apply keeps_bind.
      - apply keeps_forEach_from. intros ex _.
        destruct (ex_sets ex) as [sets|]; [|apply keeps_ret].
        apply keeps_forEach_from. intros s _.
        destruct (s_id s) as [[|c i]|]; try apply keeps_ret.
        apply keeps_run; constructor.
      - intros _. apply keeps_bind; [apply keeps_now | intro ts].
        apply keeps_run; constructor. }
    intros _. apply keeps_bind; [apply keeps_query | intro; apply keeps_ret].
  - unfold delete_routine_exercise_h.
    apply keeps_bind; [|intro; apply keeps_ret].
    apply keeps_transaction.
    apply keeps_bind; [apply keeps_run; constructor | intros _].
    apply keeps_bind; [apply keeps_run; constructor | intros _].
    apply keeps_bind; [apply keeps_now | intro ts].
    apply keeps_run; constructor.
  - unfold post_routine_exercises.
    destruct exerciseId as [[|c s]|]; try apply keeps_ret.
    apply keeps_bind; [apply keeps_nanoid8 | intro n].
    apply keeps_bind; [apply keeps_query | intro order].
    apply keeps_bind.
    { apply keeps_transaction.
      apply keeps_bind; [apply keeps_run; constructor | intros _].
      apply keeps_bind; [apply keeps_now | intro ts].
      apply keeps_run; constructor. }
    intros _. apply keeps_bind; [apply keeps_query | intro; apply keeps_ret].
  - unfold post_routine_sets.
    apply keeps_bind; [apply keeps_nanoid8 | intro n].
    apply keeps_bind; [apply keeps_run; constructor | intros _].
    apply keeps_bind; [apply keeps_now | intro ts].
    apply keeps_bind; [apply keeps_run; constructor | intros _].
    apply keeps_ret.
  - unfold delete_routine_set_h.
    apply keeps_bind; [apply keeps_run; constructor | intros _].
    apply keeps_bind; [apply keeps_now | intro ts].
    apply keeps_bind; [apply keeps_run; constructor | intros _].
    apply keeps_ret.
  - unfold post_workouts.
    apply keeps_bind; [apply keeps_nanoid8 | intro n].
    apply keeps_bind; [|intro; apply keeps_ret].
    apply keeps_transaction.
    apply keeps_bind; [apply keeps_run; constructor | intros _].
    apply keeps_forEach_from. intros it idx. unfold insert_item.
    apply keeps_bind; [apply keeps_nanoid8 | intro k].
    apply keeps_bind; [apply keeps_run; constructor | intros _].
    unfold insert_sets. apply keeps_forEach_from. intros st _.
    apply keeps_bind; [apply keeps_nanoid8 | intro j].
    apply keeps_run; constructor.
  - apply keeps_bind; [apply keeps_query | intro; apply keeps_ret].
Qed.

Lemma keeps_handle (req : Request) (w : World) :
  P (db w) -> P (db (fst (handle env req w))).
Proof.
  intro H. unfold handle. pose proof (keeps_route req w H) as K.
  destruct (route env req w) as [w1 [res|e]]; exact K.
Qed.

Lemma keeps_serve (reqs : list Request) (w : World) :
  P (db w) -> P (db (serve env reqs w)).
Proof.
  revert w. induction reqs as [|req reqs IH]; intros w H; simpl.
  - exact H.
  - apply IH. apply keeps_handle. exact H.
Qed.

Lemma keeps_seed_exercises (seed : list Exercise) : keeps P (seed_exercises seed).
Proof.
  unfold seed_exercises.
  apply keeps_bind; [apply keeps_query | intros [|n]].
  - apply keeps_transaction. apply keeps_forEach_from. intros r _.
    apply keeps_run; constructor.
  - apply keeps_ret.
Qed.

End Keeps.

(** ** Primary keys *)

Lemma NoDup_map_snoc {R : Type} (key : R -> string) (t : list R) (r : R) :
  NoDup (map key t) -> has_key key (key r) t = false ->
  NoDup (map key (t ++ [r])).
Proof.
  intros N H. rewrite map_app. simpl.
  apply NoDup_app; [exact N | constructor; [intros [] | constructor] |].
  intros k Hk [Hr|[]]. subst k.
  apply in_map_iff in Hk. destruct Hk as [x [E Hx]].
  assert (T : has_key key (key r) t = true).
  { apply has_key_spec. exists x. split; assumption. }
  congruence.
Qed.

Lemma map_key_UPDATE {R K : Type} (key : R -> K) cond set (t : list R) :
  (forall r, key (set r) = key r) -> map key (UPDATE cond set t) = map key t.
Proof.
  intro H. unfold UPDATE. rewrite map_map. apply map_ext.
  intro r. destruct (cond r); [apply H | reflexivity].
Qed.

Lemma NoDup_map_filter {R K : Type} (key : R -> K) (f : R -> bool) (t : list R) :
  NoDup (map key t) -> NoDup (map key (filter f t)).
Proof.
  induction t as [|r t IH]; simpl; intro N; [exact N|].
  inversion N as [|k l Hn N']; subst.
  destruct (f r); simpl; [constructor|]; auto.
  intro Hin. apply Hn. apply in_map_iff in Hin.
  destruct Hin as [x [E Hx]]. apply in_map_iff. exists x.
  split; [exact E|]. apply filter_In in Hx. tauto.
Qed.

Lemma primary_keys_kept env : kept_by_statements env primary_keys.
Proof.
  intros stmt d d' S (He & Hr & Hre & Hrs & Hw & Hwi & Hws) E.
  destruct S; unfold primary_keys.
  - unfold insert_exercise in E.
    destruct (has_key e_id (e_id row) (exercises d)) eqn:K; [discriminate|].
    injection E as <-. simpl. repeat split; auto using NoDup_map_snoc.
  - unfold insert_routine in E.
    destruct (has_key r_id (r_id row) (routines d)) eqn:K; [discriminate|].
    injection E as <-. simpl. repeat split; auto using NoDup_map_snoc.
  - injection E as <-. simpl. repeat split; auto.
    rewrite map_key_UPDATE; [exact Hr | reflexivity].
  - injection E as <-. simpl. repeat split; auto.
    rewrite map_key_UPDATE; [exact Hr | reflexivity].
  - injection E as <-. simpl. repeat split; auto.
    rewrite map_key_UPDATE; [exact Hrs | reflexivity].
  - injection E as <-. simpl. repeat split; auto.
    apply NoDup_map_filter. exact Hrs.
  - unfold delete_routine_exercise in E.
    match type of E with (if ?c then _ else _) = _ => destruct c end;
      [discriminate|].
    injection E as <-. simpl. repeat split; auto.
    apply NoDup_map_filter. exact Hre.
  - unfold insert_routine_exercise in E.
    destruct (has_key re_id (re_id row) (routine_exercises d)) eqn:K;
      [discriminate|].
    match type of E with (if ?c then _ else _) = _ => destruct c end;
      [|discriminate].
    injection E as <-. simpl. repeat split; auto using NoDup_map_snoc.
  - unfold insert_routine_set in E.
    destruct (has_key rs_id (rs_id row) (routine_sets d)) eqn:K;
      [discriminate|].
    match type of E with (if ?c then _ else _) = _ => destruct c end;
      [|discriminate].
    injection E as <-. simpl. repeat split; auto using NoDup_map_snoc.
  - injection E as <-. simpl. repeat split; auto.
    apply NoDup_map_filter. exact Hrs.
  - unfold insert_workout in E.
    destruct (has_key w_id (w_id row) (workouts d)) eqn:K; [discriminate|].
    injection E as <-. simpl. repeat split; auto using NoDup_map_snoc.
  - unfold insert_workout_item in E.
    destruct (has_key wi_id (wi_id row) (workout_items d)) eqn:K;
      [discriminate|].
    match type of E with (if ?c then _ else _) = _ => destruct c end;
      [|discriminate].
    injection E as <-. simpl. repeat split; auto using NoDup_map_snoc.
  - unfold insert_workout_set in E.
    destruct (has_key ws_id (ws_id row) (workout_sets d)) eqn:K;
      [discriminate|].
    match type of E with (if ?c then _ else _) = _ => destruct c end;
      [|discriminate].
    injection E as <-. simpl. repeat split; auto using NoDup_map_snoc.
Qed.

Lemma primary_keys_empty : primary_keys empty_db.
Proof. unfold primary_keys. simpl. repeat split; constructor. Qed.

(** X1. Primary keys stay unique.  When no two rows of a table share their
    id, this is still so after any sequence of requests and after the
    start-up seeding, whatever the ids the generator hands out: an INSERT
    with a taken id throws instead of adding a second row. *)
Theorem primary_keys_invariant env (w : World) :
  primary_keys (db w) ->
  (forall reqs, primary_keys (db (serve env reqs w))) /\
  (forall seed, primary_keys (db (fst (seed_exercises seed w)))).
Proof.
  intro H. split.
  - intro reqs. apply keeps_serve; [apply primary_keys_kept | exact H].
  - intro seed.
    exact (keeps_seed_exercises env primary_keys (primary_keys_kept env) seed w H).
Qed.

Lemma primary_keys_witness :
  primary_keys (db boot) /\
  primary_keys
    (db (serve (stuck false)
           [ POST_routines (Some "A"); POST_routines (Some "B");
             POST_routine_sets "rut_same" "rex_0" None None;
             POST_routine_sets "rut_same" "rex_0" None None ] boot)) /\
  List.length
    (routines
       (db (serve (stuck false)
              [ POST_routines (Some "A"); POST_routines (Some "B") ] boot))) =
  1%nat.
Proof.
  split; [exact primary_keys_empty|]. split.
  - apply (primary_keys_invariant (stuck false) boot primary_keys_empty).
  - reflexivity.
Defined.

(** ** Foreign keys *)

Lemma In_UPDATE {R : Type} (cond : R -> bool) (set : R -> R) t r :
  In r (UPDATE cond set t) -> exists r0, In r0 t /\ (r = r0 \/ r = set r0).
Proof.
  unfold UPDATE. intro H. apply in_map_iff in H. destruct H as [r0 [E H]].
  exists r0. split; [exact H|]. destruct (cond r0); auto.
Qed.

Lemma has_key_grows {R : Type} (key : R -> string) k (t u : list R) :
  has_key key k t = true -> has_key key k (t ++ u) = true.
Proof. intro H. rewrite has_key_app, H. reflexivity. Qed.

Lemma referential_integrity_kept env :
  foreign_keys env = true -> kept_by_statements env referential_integrity.
Proof.
  intros FK stmt d d' S (Hre & Hrs & Hwi & Hws) E.
  assert (F : forall b, fk_ok env b = b).
  { intro b. unfold fk_ok. rewrite FK. reflexivity. }
  assert (Hre1 : forall re, In re (routine_exercises d) ->
            has_key r_id (re_routine_id re) (routines d) = true).
  { intros re Hin. apply Hre. exact Hin. }
  assert (Hre2 : forall re, In re (routine_exercises d) ->
            has_key e_id (re_exercise_id re) (exercises d) = true).
  { intros re Hin. apply Hre. exact Hin. }
  clear Hre.
  destruct S; unfold referential_integrity;
    (split; [intros re Hin; split
            | split; [intros s Hin | split; [intros wi Hin | intros ws Hin]]]).
  (* insert_exercise *)
  1-5: unfold insert_exercise in E;
       destruct (has_key e_id (e_id row) (exercises d)); try discriminate;
       injection E as <-; simpl in *; auto using has_key_grows.
  (* insert_routine *)
  1-5: unfold insert_routine in E;
       destruct (has_key r_id (r_id row) (routines d));
       try discriminate;
       injection E as <-; simpl in *; auto using has_key_grows.
  (* update_routine_name *)
  1-5: injection E as <-; simpl in *; auto;
       rewrite has_key_UPDATE by reflexivity; auto.
  (* update_routine_updatedAt *)
  1-5: injection E as <-; simpl in *; auto;
       rewrite has_key_UPDATE by reflexivity; auto.
  (* update_routine_set *)
  1-5: injection E as <-; simpl in *; auto;
       apply In_UPDATE in Hin; destruct Hin as [s0 [H0 [->| ->]]];
       simpl; auto.
  (* delete_sets_of *)
  1-5: injection E as <-; simpl in *; auto;
       apply In_DELETE in Hin; apply Hrs; tauto.
  (* delete_routine_exercise *)
  1-5: unfold delete_routine_exercise in E; rewrite FK in E; simpl in E;
       match type of E with (if ?c then _ else _) = _ => destruct c eqn:C end;
       try discriminate; injection E as <-; simpl in *; auto.
  1: { apply In_DELETE in Hin. apply Hre1. tauto. }
  1: { apply In_DELETE in Hin. apply Hre2. tauto. }
  1: { pose proof (Hrs s Hin) as Hp.
    destruct (String.eqb (rs_routine_exercise_id s) rexId) eqn:Q.
    + apply String.eqb_eq in Q.
      assert (T : has_key rs_routine_exercise_id rexId (routine_sets d) = true).
      { apply has_key_spec. exists s. split; assumption. }
      rewrite Q in *. rewrite Hp, T in C. simpl in C.
      rewrite andb_true_r in C. apply negb_false_iff in C. exact C.
    + apply has_key_spec in Hp. destruct Hp as [re [Hr Hk]].
      apply has_key_spec. exists re. split; [|exact Hk].
      apply In_DELETE. split; [exact Hr|].
      rewrite Hk, Q. reflexivity. }
  (* insert_routine_exercise *)
  1: { unfold insert_routine_exercise in E.
    destruct (has_key re_id (re_id row) (routine_exercises d)); [discriminate|].
    rewrite !F in E.
    destruct (has_key r_id (re_routine_id row) (routines d)) eqn:K1;
      [|discriminate].
    destruct (has_key e_id (re_exercise_id row) (exercises d)) eqn:K2;
      [|discriminate].
    injection E as <-. simpl in *.
    apply in_app_iff in Hin. destruct Hin as [H|[<-|[]]]; auto. }
  1: { unfold insert_routine_exercise in E.
    destruct (has_key re_id (re_id row) (routine_exercises d)); [discriminate|].
    rewrite !F in E.
    destruct (has_key r_id (re_routine_id row) (routines d)) eqn:K1;
      [|discriminate].
    destruct (has_key e_id (re_exercise_id row) (exercises d)) eqn:K2;
      [|discriminate].
    injection E as <-. simpl in *.
    apply in_app_iff in Hin. destruct Hin as [H|[<-|[]]]; auto. }
  1: { unfold insert_routine_exercise in E.
    destruct (has_key re_id (re_id row) (routine_exercises d)); [discriminate|].
    match type of E with (if ?c then _ else _) = _ => destruct c end;
      [|discriminate].
    injection E as <-. simpl in *. auto using has_key_grows. }
  1: { unfold insert_routine_exercise in E.
    destruct (has_key re_id (re_id row) (routine_exercises d)); [discriminate|].
    match type of E with (if ?c then _ else _) = _ => destruct c end;
      [|discriminate].
    injection E as <-. simpl in *. auto. }
  1: { unfold insert_routine_exercise in E.
    destruct (has_key re_id (re_id row) (routine_exercises d)); [discriminate|].
    match type of E with (if ?c then _ else _) = _ => destruct c end;
      [|discriminate].
    injection E as <-. simpl in *. auto. }
  (* insert_routine_set *)
  1-5: unfold insert_routine_set in E;
       destruct (has_key rs_id (rs_id row) (routine_sets d));
       try discriminate;
       rewrite F in E;
       destruct (has_key re_id (rs_routine_exercise_id row)
                   (routine_exercises d)) eqn:K1;
       try discriminate;
       injection E as <-; simpl in *; auto;
       apply in_app_iff in Hin; destruct Hin as [H|[<-|[]]]; auto.
  (* delete_routine_set *)
  1-5: injection E as <-; simpl in *; auto;
       apply In_DELETE in Hin; apply Hrs; tauto.
  (* insert_workout *)
  1-5: unfold insert_workout in E;
       destruct (has_key w_id (w_id row) (workouts d));
       try discriminate;
       injection E as <-; simpl in *; auto using has_key_grows.
  (* insert_workout_item *)
  1-5: unfold insert_workout_item in E;
       destruct (has_key wi_id (wi_id row) (workout_items d));
       try discriminate;
       rewrite F in E;
       destruct (has_key w_id (wi_workout_id row) (workouts d)) eqn:K1;
       try discriminate;
       injection E as <-; simpl in *; auto using has_key_grows;
       apply in_app_iff in Hin; destruct Hin as [H|[<-|[]]]; auto.
  (* insert_workout_set *)
  1-5: unfold insert_workout_set in E;
       destruct (has_key ws_id (ws_id row) (workout_sets d));
       try discriminate;
       rewrite F in E;
       destruct (has_key wi_id (ws_workout_item_id row) (workout_items d))
         eqn:K1;
       try discriminate;
       injection E as <-; simpl in *; auto;
       apply in_app_iff in Hin; destruct Hin as [H|[<-|[]]]; auto.
Qed.

Lemma referential_integrity_empty : referential_integrity empty_db.
Proof.
  unfold referential_integrity. simpl.
  split; [|split; [|split]]; intros r H; destruct H.
Qed.

(** X2. With foreign keys enforced, no request leaves an orphan: if every
    routine exercise names an existing routine and an existing exercise,
    every planned set an existing routine exercise, every workout item an
    existing workout and every workout set an existing workout item, then
    this is still so after any sequence of requests and after the
    seeding. *)
Theorem referential_integrity_invariant env (w : World) :
  foreign_keys env = true ->
  referential_integrity (db w) ->
  (forall reqs, referential_integrity (db (serve env reqs w))) /\
  (forall seed, referential_integrity (db (fst (seed_exercises seed w)))).
Proof.
  intros FK H. split.
  - intro reqs.
    apply keeps_serve; [apply referential_integrity_kept; exact FK | exact H].
  - intro seed.
    exact (keeps_seed_exercises env referential_integrity
             (referential_integrity_kept env FK) seed w H).
Qed.

Lemma referential_integrity_witness :
  foreign_keys (ticking true) = true /\
  referential_integrity (db boot) /\
  referential_integrity (db (two_routines (ticking true))) /\
  referential_integrity
    (db (serve (ticking true)
           (DELETE_routine_exercise "rut_01" "rex_03" :: later_edits)
           (two_routines (ticking true)))).
Proof.
  split; [reflexivity|]. split; [exact referential_integrity_empty|].
  pose proof (referential_integrity_invariant (ticking true) boot eq_refl
                referential_integrity_empty) as [H _].
  split.
  - apply H.
  - unfold two_routines. rewrite <- serve_app. apply H.
Defined.

(** ** What is never deleted *)

Lemma persists_kept env (d0 : DB) : kept_by_statements env (persists d0).
Proof.
  intros stmt d d' S [[le He] [lr Hr]] E.
  assert (Same : exercises d' = exercises d -> routines d' = routines d ->
                 persists d0 d').
  { intros E1 E2. split; [exists le | exists lr]; congruence. }
  destruct S;
    try (injection E as <-; apply Same; reflexivity);
    try (unfold insert_routine_exercise, insert_routine_set, insert_workout,
           insert_workout_item, insert_workout_set, delete_routine_exercise
           in E;
         repeat match type of E with
                | (if ?c then _ else _) = _ => destruct c; try discriminate
                end;
         injection E as <-; apply Same; reflexivity).
  - unfold insert_exercise in E.
    destruct (has_key e_id (e_id row) (exercises d)); [discriminate|].
    injection E as <-. split; simpl.
    + exists (le ++ [row])%list. rewrite He, app_assoc. reflexivity.
    + exists lr. exact Hr.
  - unfold insert_routine in E.
    destruct (has_key r_id (r_id row) (routines d)); [discriminate|].
    injection E as <-. split; simpl.
    + exists le. exact He.
    + exists (lr ++ [birth row])%list.
      rewrite map_app, Hr, app_assoc. reflexivity.
  - injection E as <-. split; simpl.
    + exists le. exact He.
    + exists lr. rewrite map_key_UPDATE; [exact Hr | reflexivity].
  - injection E as <-. split; simpl.
    + exists le. exact He.
    + exists lr. rewrite map_key_UPDATE; [exact Hr | reflexivity].
Qed.

(** X3. Nothing in the catalogue or the list of routines is ever removed.
    After any sequence of requests the exercises table is the old one
    followed by the rows created since, unchanged row for row, and the
    routines table holds the old routines at their old places with their
    [id] and [createdAt] as they were, followed by the routines created
    since. *)
Theorem catalogue_and_routines_persist env (reqs : list Request) (w : World) :
  persists (db w) (db (serve env reqs w)).
Proof.
  apply keeps_serve.
  - apply persists_kept.
  - split; exists []; rewrite app_nil_r; reflexivity.
Qed.

(** ** Reading a routine *)

Lemma in_exs (id : string) (d : DB) re e :
  In (re, e) (exs id d) <->
  In re (routine_exercises d) /\ re_routine_id re = id /\
  In e (exercises d) /\ e_id e = re_exercise_id re.
Proof.
  unfold exs. rewrite order_by_In, in_flat_map. split.
  - intros [re0 [Hre H]]. apply in_map_iff in H. destruct H as [e0 [E He]].
    injection E as -> ->.
    apply filter_In in Hre. apply filter_In in He.
    destruct Hre as [Hre Hid], He as [He Hex].
    apply String.eqb_eq in Hid. apply String.eqb_eq in Hex. auto.
  - intros (Hre & Hid & He & Hex). exists re. split.
    + apply filter_In. split; [exact Hre | now apply String.eqb_eq].
    + apply in_map_iff. exists e. split; [reflexivity|].
      apply filter_In. split; [exact He | now apply String.eqb_eq].
Qed.

Lemma Sorted_map {A B : Type} (R : B -> B -> Prop) (f : A -> B) (l : list A) :
  Sorted (fun a b => R (f a) (f b)) l -> Sorted R (map f l).
Proof.
  induction 1 as [|a l S IH H]; simpl; constructor; auto.
  destruct H; simpl; constructor; auto.
Qed.

Lemma exs_sorted (id : string) (d : DB) :
  Sorted (fun a b => before (view_link d (fst a) (snd a))
                       (view_link d (fst b) (snd b)))
    (exs id d).
Proof.
  unfold exs.
  eapply Sorted_weaken; [|apply order_by_sorted].
  - intros a b. unfold cmp_leb, before, lex, ASC. simpl.
    destruct (re_order_index (fst a)) as [x|],
             (re_order_index (fst b)) as [y|]; simpl; auto.
    + destruct (Z.compare_spec x y) as [E|L|G]; [|auto|discriminate].
      intro H. right. split; [exact E|]. unfold String.leb.
      destruct (String.compare (re_id (fst a)) (re_id (fst b)));
        auto; discriminate.
    + discriminate.
    + unfold String.leb.
      destruct (String.compare (re_id (fst a)) (re_id (fst b)));
        auto; discriminate.
  - intros a b. unfold lex, ASC.
    destruct (re_order_index (fst a)) as [x|],
             (re_order_index (fst b)) as [y|]; simpl; auto.
    + rewrite (Z.compare_antisym x y).
      rewrite (String.compare_antisym (re_id (fst b)) (re_id (fst a))).
      destruct (x ?= y); simpl; auto.
      destruct (String.compare (re_id (fst a)) (re_id (fst b))); reflexivity.
    + rewrite (String.compare_antisym (re_id (fst b)) (re_id (fst a))).
      destruct (String.compare (re_id (fst a)) (re_id (fst b))); reflexivity.
Qed.

(** X4. [loadRoutineFull] and [GET /api/routines/:id].  The request never
    changes anything.  It answers 404 exactly when no routine has the id.
    Otherwise the answer carries the columns of the routine's row and lists
    one entry for each pair of a link of the routine and a catalogue row of
    the link's exercise, and nothing else (a link whose exercise is not in
    the catalogue is left out), each with the sets of the link in insertion
    order; the entries are sorted by position and, among equal positions,
    by link id. *)
Theorem get_routine_spec env (id : string) (w : World) :
  fst (handle env (GET_routine id) w) = w /\
  match snd (handle env (GET_routine id) w) with
  | json_error status msg =>
      status = 404 /\ has_key r_id id (routines (db w)) = false /\
      loadRoutineFull id (db w) = None
  | json_routine (Some r) =>
      loadRoutineFull id (db w) = Some r /\
      (exists row,
         In row (routines (db w)) /\ r_id row = id /\
         full_id r = id /\ full_name r = r_name row /\
         full_createdAt r = r_createdAt row /\
         full_updatedAt r = r_updatedAt row) /\
      (forall v, In v (full_exercises r) <->
         exists re e,
           In re (routine_exercises (db w)) /\ re_routine_id re = id /\
           In e (exercises (db w)) /\ e_id e = re_exercise_id re /\
           v = view_link (db w) re e) /\
      Sorted before (full_exercises r)
  | _ => False
  end.
Proof.
  unfold handle. simpl. unfold get_routine, bind, query. simpl.
  destruct (loadRoutineFull id (db w)) as [r|] eqn:L; simpl.
  - split; [reflexivity|]. split; [reflexivity|].
    unfold loadRoutineFull in L.
    destruct (find (fun r => String.eqb (r_id r) id) (routines (db w)))
      as [row|] eqn:F; [|discriminate].
    injection L as <-. simpl.
    apply find_some in F. destruct F as [Hin Hid].
    apply String.eqb_eq in Hid.
    split; [exists row; repeat split; assumption || reflexivity|]. split.
    + intro v. rewrite in_map_iff. split.
      * intros [[re e] [E H]]. apply in_exs in H.
        exists re, e. subst v. tauto.
      * intros (re & e & H1 & H2 & H3 & H4 & ->).
        exists (re, e). split; [reflexivity|]. apply in_exs. auto.
    + apply Sorted_map. apply (exs_sorted id (db w)).
  - split; [reflexivity|]. split; [reflexivity|]. split; [|reflexivity].
    unfold loadRoutineFull in L.
    destruct (find (fun r => String.eqb (r_id r) id) (routines (db w)))
      as [row|] eqn:F; [discriminate|].
    destruct (has_key r_id id (routines (db w))) eqn:K; [|reflexivity].
    apply find_has_key in K. destruct K as [r [K _]]. congruence.
Qed.

(** ** Listing the routines *)

Lemma routines_by_update_sorted (d : DB) :
  Sorted (fun a b => newer_first (r_updatedAt a) (r_updatedAt b))
    (routines_by_update d).
Proof.
  unfold routines_by_update.
  eapply Sorted_weaken; [|apply order_by_sorted].
  - intros a b. unfold cmp_leb, DESC, newer_first.
    destruct (r_updatedAt a) as [x|], (r_updatedAt b) as [y|]; simpl; auto.
    + destruct (Z.compare_spec y x); intro; try discriminate; lia.
    + discriminate.
  - intros a b. unfold DESC.
    destruct (r_updatedAt a) as [x|], (r_updatedAt b) as [y|]; simpl; auto.
    apply Z.compare_antisym.
Qed.

(** X5. [GET /api/routines] changes nothing and lists every routine of the
    table exactly once, most recently updated first (a routine without a
    stamp last); each entry carries as many placeholder exercises as the
    routine has links, whether or not the catalogue knows their
    exercise. *)
Theorem get_routines_spec env (w : World) :
  fst (handle env GET_routines w) = w /\
  exists rows,
    snd (handle env GET_routines w) = json_routines rows /\
    Permutation (map sum_row rows) (routines (db w)) /\
    Sorted (fun a b => newer_first (r_updatedAt (sum_row a))
                         (r_updatedAt (sum_row b))) rows /\
    forall s, In s rows ->
      List.length (sum_exercises s) =
      List.length (filter (fun re => String.eqb (re_routine_id re)
                                       (r_id (sum_row s)))
                     (routine_exercises (db w))).
Proof.
  split; [reflexivity|].
  exists (get_routines (db w)). split; [reflexivity|].
  unfold get_routines. split; [|split].
  - rewrite map_map. simpl. rewrite map_id.
    apply Permutation_sym. apply order_by_perm.
  - pose proof (routines_by_update_sorted (db w)) as S.
    induction S as [|a l S IH H]; simpl; constructor; auto.
    destruct H; simpl; constructor; auto.
  - intros s Hs. apply in_map_iff in Hs. destruct Hs as [r [<- _]].
    simpl. apply repeat_length.
Qed.

Lemma get_routines_witness :
  map (fun s => (r_id (sum_row s), r_updatedAt (sum_row s),
                 List.length (sum_exercises s)))
    (get_routines (db (two_routines (ticking true)))) =
    [("rut_02", Some 1004, 1%nat); ("rut_01", Some 1000, O)] /\
  exists rows,
    snd (handle (ticking true) GET_routines (two_routines (ticking true)))
      = json_routines rows /\
    Permutation (map sum_row rows)
      (routines (db (two_routines (ticking true)))).
Proof.
  split; [vm_compute; reflexivity|].
  destruct (get_routines_spec (ticking true) (two_routines (ticking true)))
    as (_ & rows & E & P & _).
  exists rows. split; [exact E | exact P].
Defined.

Lemma fold_left_add_zero {A : Type} (f : A -> nat) (l : list A) :
  (forall x, In x l -> f x = O) -> forall acc,
  fold_left (fun acc e => (acc + f e)%nat) l acc = acc.
Proof.
  induction l as [|x l IH]; intros H acc; simpl; [reflexivity|].
  rewrite (H x) by now left. rewrite Nat.add_0_r.
  apply IH. intros y Hy. apply H. now right.
Qed.

(** X6. The card of a routine in the list view always shows 0 series,
    whatever sets the routine has: the entries [GET /api/routines] sends
    carry only empty placeholders.  The badge of the card is the number of
    links of the routine. *)
Theorem routine_card_counts env (w : World) (rows : list RoutineSummary) :
  snd (handle env GET_routines w) = json_routines rows ->
  forall s, In s rows ->
    totalSets s = O /\
    badge s = mapExercises (r_id (sum_row s)) (db w).
Proof.
  intros E s Hs. injection E as <-.
  unfold get_routines in Hs. apply in_map_iff in Hs.
  destruct Hs as [r [<- _]]. unfold totalSets, badge. simpl. split.
  - apply (fold_left_add_zero (@List.length SetView)).
    intros x Hx. apply repeat_spec in Hx. subst x. reflexivity.
  - apply repeat_length.
Qed.

Lemma routine_card_witness :
  let w := two_routines (ticking true) in
  let rows := get_routines (db w) in
  snd (handle (ticking true) GET_routines w) = json_routines rows /\
  List.length (setsByRex "rex_03" (db w)) = 2%nat /\
  map (fun s => (r_id (sum_row s), badge s, totalSets s)) rows =
    [("rut_02", 1%nat, O); ("rut_01", O, O)] /\
  forall s, In s rows -> totalSets s = O.
Proof.
  intros w rows.
  split; [reflexivity|]. split; [reflexivity|]. split; [reflexivity|].
  intros s Hs.
  apply (routine_card_counts (ticking true) w rows eq_refl s Hs).
Defined.

Lemma filter_key_length {R : Type} (key : R -> string) (k : string)
    (t : list R) :
  NoDup (map key t) ->
  List.length (filter (fun r => String.eqb (key r) k) t) =
  if has_key key k t then 1%nat else O.
Proof.
  induction t as [|r t IH]; simpl; intro N; [reflexivity|].
  inversion N as [|x l Hn N']; subst.
  destruct (String.eqb (key r) k) eqn:E; simpl.
  - apply String.eqb_eq in E.
    rewrite (filter_none (fun r => String.eqb (key r) k) t); [reflexivity|].
    intros y Hy. destruct (String.eqb (key y) k) eqn:Q; [|reflexivity].
    apply String.eqb_eq in Q. exfalso. apply Hn. rewrite E, <- Q.
    apply in_map. exact Hy.
  - apply IH. exact N'.
Qed.

Lemma flat_map_length_le {A B : Type} (g : A -> list B) (l : list A) :
  (forall x, In x l -> (List.length (g x) <= 1)%nat) ->
  (List.length (flat_map g l) <= List.length l)%nat.
Proof.
  induction l as [|x l IH]; simpl; intro H; [lia|].
  rewrite length_app. specialize (H x (or_introl eq_refl)) as Hx.
  assert (List.length (flat_map g l) <= List.length l)%nat.
  { apply IH. intros y Hy. apply H. now right. }
  lia.
Qed.

Lemma flat_map_length_eq {A B : Type} (g : A -> list B) (l : list A) :
  (forall x, In x l -> List.length (g x) = 1%nat) ->
  List.length (flat_map g l) = List.length l.
Proof.
  induction l as [|x l IH]; simpl; intro H; [reflexivity|].
  rewrite length_app, (H x (or_introl eq_refl)), IH; [reflexivity|].
  intros y Hy. apply H. now right.
Qed.

(** X7. The list view and the full routine count differently.  With
    exercise ids unique, the full routine never lists more exercises than
    the list view announces, and lists exactly as many when the exercise of
    every link of the routine is in the catalogue. *)
Theorem full_routine_within_badge (id : string) (d : DB) (r : RoutineFull) :
  NoDup (map e_id (exercises d)) ->
  loadRoutineFull id d = Some r ->
  (List.length (full_exercises r) <= mapExercises id d)%nat /\
  ((forall re, In re (routine_exercises d) -> re_routine_id re = id ->
      has_key e_id (re_exercise_id re) (exercises d) = true) ->
   List.length (full_exercises r) = mapExercises id d).
Proof.
  intros N L. unfold loadRoutineFull in L.
  destruct (find _ (routines d)); [|discriminate].
  injection L as <-. simpl. rewrite length_map. unfold exs, mapExercises.
  rewrite <- (Permutation_length (order_by_perm _ _)).
  split.
  - apply flat_map_length_le. intros re _.
    rewrite length_map, (filter_key_length e_id _ _ N).
    destruct (has_key e_id (re_exercise_id re) (exercises d)); lia.
  - intro H. apply flat_map_length_eq. intros re Hre.
    apply filter_In in Hre. destruct Hre as [Hre Hid].
    apply String.eqb_eq in Hid.
    rewrite length_map, (filter_key_length e_id _ _ N), (H re Hre Hid).
    reflexivity.
Qed.

Lemma full_routine_within_badge_witness :
  let d := db (two_routines (ticking true)) in
  NoDup (map e_id (exercises d)) /\
  (exists r, loadRoutineFull "rut_02" d = Some r /\
             List.length (full_exercises r) = 1%nat) /\
  mapExercises "rut_02" d = 1%nat.
Proof.
  intro d.
  assert (N : NoDup (map e_id (exercises d))).
  { repeat constructor. intros []. }
  split; [exact N|].
  destruct (loadRoutineFull "rut_02" d) as [r|] eqn:L; [|discriminate].
  destruct (full_routine_within_badge "rut_02" d r N L) as [_ H].
  split; [|reflexivity].
  exists r. split; [reflexivity|]. rewrite H; [reflexivity|].
  intros re [<-|[]] _. reflexivity.
Defined.

(** ** Creating a routine *)

Lemma find_absent id (t : list Routine) :
  has_key r_id id t = false ->
  find (fun r => String.eqb (r_id r) id) t = None.
Proof.
  induction t as [|r t IH]; simpl; [reflexivity|].
  destruct (String.eqb (r_id r) id); simpl; [discriminate | exact IH].
Qed.

Lemma exs_no_links (id : string) (d : DB) :
  has_key re_routine_id id (routine_exercises d) = false -> exs id d = [].
Proof.
  intro H. unfold exs.
  rewrite (filter_none (fun re => String.eqb (re_routine_id re) id));
    [reflexivity|].
  intros re Hre. destruct (String.eqb (re_routine_id re) id) eqn:E;
    [|reflexivity].
  apply String.eqb_eq in E.
  assert (T : has_key re_routine_id id (routine_exercises d) = true).
  { apply has_key_spec. exists re. split; assumption. }
  congruence.
Qed.

(** X8. [POST /api/routines] always draws one id and reads the clock once.
    When the id is taken the request fails with status 500 and the database
    stays as it was.  Otherwise it appends a routine named as asked, or
    "Rutina" when the name is missing or empty, whose [createdAt] and
    [updatedAt] are both that reading of the clock, and answers with the
    full routine, which has no exercises unless links to the new id were
    already stored. *)
Theorem create_routine env (name : option string) (w : World) :
  let id := "rut_" ++ nanoid env (ids w) in
  let ts := Date_now env (clock w) in
  let row := {| r_id := id; r_name := or_else name "Rutina";
                r_createdAt := Some ts; r_updatedAt := Some ts |} in
  let w' := fst (handle env (POST_routines name) w) in
  let res := snd (handle env (POST_routines name) w) in
  clock w' = S (clock w) /\ ids w' = S (ids w) /\
  (has_key r_id id (routines (db w)) = true ->
   res = status_500 SQLITE_CONSTRAINT_PRIMARYKEY /\ db w' = db w) /\
  (has_key r_id id (routines (db w)) = false ->
   db w' = with_routines (routines (db w) ++ [row]) (db w) /\
   exists r,
     res = json_routine (Some r) /\
     full_id r = id /\ full_name r = or_else name "Rutina" /\
     full_createdAt r = Some ts /\ full_updatedAt r = Some ts /\
     (has_key re_routine_id id (routine_exercises (db w)) = false ->
      full_exercises r = [])).
Proof.
  intros id ts row w' res. subst w' res row. simpl in (value of id).
  unfold handle. simpl.
  unfold post_routines, bind, nanoid8, now, run, insert_routine, query.
  simpl. fold id. fold ts.
  destruct (has_key r_id id (routines (db w))) eqn:K; simpl.
  - repeat split; try reflexivity; discriminate.
  - split; [reflexivity|]. split; [reflexivity|].
    split; [discriminate|]. intros _. split; [reflexivity|].
    unfold loadRoutineFull. simpl.
    rewrite find_append, (find_absent id _ K). simpl.
    unfold id at 1. rewrite String.eqb_refl.
    eexists. split; [reflexivity|]. simpl.
    repeat split; try reflexivity.
    intro H. rewrite exs_no_links; [reflexivity | exact H].
Qed.

Lemma create_routine_witness :
  let env := ticking true in
  let res name := snd (handle env (POST_routines name) boot) in
  has_key r_id ("rut_" ++ nanoid env (ids boot)) (routines (db boot)) = false /\
  (exists r, res None = json_routine (Some r) /\ full_name r = "Rutina") /\
  (exists r, res (Some "") = json_routine (Some r) /\ full_name r = "Rutina") /\
  (exists r, res (Some " Legs ") = json_routine (Some r) /\
             full_name r = " Legs " /\ full_createdAt r = Some 1000 /\
             full_updatedAt r = Some 1000 /\ full_exercises r = []).
Proof.
  intros env res. split; [reflexivity|].
  destruct (create_routine env None boot) as (_ & _ & _ & H1).
  destruct (H1 eq_refl) as (_ & r1 & E1 & _ & N1 & _).
  destruct (create_routine env (Some "") boot) as (_ & _ & _ & H2).
  destruct (H2 eq_refl) as (_ & r2 & E2 & _ & N2 & _).
  destruct (create_routine env (Some " Legs ") boot) as (_ & _ & _ & H3).
  destruct (H3 eq_refl) as (_ & r3 & E3 & _ & N3 & C3 & U3 & X3).
  split; [exists r1; split; [exact E1 | exact N1]|].
  split; [exists r2; split; [exact E2 | exact N2]|].
  exists r3. repeat split; auto.
Defined.

(** ** Browsing the catalogue *)

Lemma String_leb_sorted {A : Type} (key : A -> string) (l : list A) :
  Sorted (fun a b => String.leb (key a) (key b) = true)
    (order_by (ASC key String.compare) l).
Proof.
  eapply Sorted_weaken; [|apply order_by_sorted].
  - intros a b. unfold cmp_leb, ASC, String.leb.
    destruct (String.compare (key a) (key b)); auto.
  - intros a b. unfold ASC. apply String.compare_antisym.
Qed.

(** X9. [GET /api/exercises/groups] changes nothing and answers with the
    body parts of the catalogue: every non-empty [bodyPart] of some
    exercise and nothing else, each once, in ascending order. *)
Theorem groups_spec env (w : World) :
  fst (handle env GET_exercises_groups w) = w /\
  exists rows,
    snd (handle env GET_exercises_groups w) = json_groups rows /\
    (forall g, In g rows <->
       g <> "" /\ exists e, In e (exercises (db w)) /\ e_bodyPart e = Some g) /\
    NoDup rows /\
    Sorted (fun a b => String.leb a b = true) rows.
Proof.
  split; [reflexivity|]. exists (groups (db w)). split; [reflexivity|].
  unfold groups. split; [|split].
  - intro g. rewrite order_by_In, distinct_In by apply String.eqb_eq.
    rewrite in_flat_map. split.
    + intros [e [He H]]. destruct (e_bodyPart e) as [[|c s]|] eqn:B;
        simpl in H; try contradiction.
      destruct H as [<-|[]]. split; [discriminate|]. exists e. auto.
    + intros [Hg [e [He B]]]. exists e. split; [exact He|]. rewrite B.
      destruct g; [congruence | now left].
  - eapply Permutation_NoDup; [apply order_by_perm|].
    apply distinct_NoDup. apply String.eqb_eq.
  - apply (String_leb_sorted (fun g : string => g)).
Qed.

Lemma Sorted_firstn {A : Type} (R : A -> A -> Prop) (n : nat) (l : list A) :
  Sorted R l -> Sorted R (firstn n l).
Proof.
  intro S. revert n. induction S as [|a l S IH H]; intro n.
  - rewrite firstn_nil. constructor.
  - destruct n; simpl; constructor; [apply IH|].
    destruct H; destruct n; simpl; constructor; auto.
Qed.

Lemma firstn_incl {A : Type} (n : nat) (l : list A) x :
  In x (firstn n l) -> In x l.
Proof.
  intro H. rewrite <- (firstn_skipn n l). apply in_or_app. now left.
Qed.

(** X10. [GET /api/exercises] changes nothing and answers with at most 300
    exercises of the catalogue in ascending order of name.  With a group
    other than "*" every row has a body part that matches [%group%] (an
    exercise without body part is never listed); with a query every row's
    name, lower-cased, matches the lower-cased [%q%].  Without group and
    query, a catalogue of at most 300 exercises is listed completely. *)
Theorem search_spec env (q group : option string) (w : World) :
  fst (handle env (GET_exercises q group) w) = w /\
  exists rows,
    snd (handle env (GET_exercises q group) w) = json_exercises rows /\
    (List.length rows <= 300)%nat /\
    (forall e, In e rows -> In e (exercises (db w))) /\
    Sorted (fun a b => String.leb (e_name a) (e_name b) = true) rows /\
    (forall g, group = Some g -> g <> "" -> g <> "*" ->
       forall e, In e rows ->
         exists b, e_bodyPart e = Some b /\
                   LIKE env b ("%" ++ g ++ "%") = true) /\
    (forall v, q = Some v -> v <> "" ->
       forall e, In e rows ->
         LIKE env (LOWER env (e_name e))
           ("%" ++ toLowerCase env v ++ "%") = true) /\
    (truthy q = false ->
     truthy group = false \/ group = Some "*" ->
     (List.length (exercises (db w)) <= 300)%nat ->
     Permutation rows (exercises (db w))).
Proof.
  split; [reflexivity|]. exists (search env q group (db w)).
  split; [reflexivity|]. unfold search.
  split; [apply firstn_le_length|].
  split.
  { intros e H. apply firstn_incl in H. apply order_by_In in H.
    apply filter_In in H. tauto. }
  split; [apply Sorted_firstn; apply String_leb_sorted|].
  split.
  { intros g -> Hg Hs e H. apply firstn_incl in H. apply order_by_In in H.
    apply filter_In in H. destruct H as [_ H].
    apply andb_true_iff in H. destruct H as [H _].
    apply String.eqb_neq in Hg, Hs. rewrite Hg, Hs in H. simpl in H.
    destruct (e_bodyPart e) as [b|]; [|discriminate].
    exists b. auto. }
  split.
  { intros v -> Hv e H. apply firstn_incl in H. apply order_by_In in H.
    apply filter_In in H. destruct H as [_ H].
    apply andb_true_iff in H. destruct H as [_ H].
    apply String.eqb_neq in Hv. rewrite Hv in H. exact H. }
  intros Hq Hg Hlen.
  assert (F : forall t : list Exercise,
            filter
              (fun e =>
                 (if negb (String.eqb
                             match group with Some v => v | None => "*" end "")
                     && negb (String.eqb
                                match group with Some v => v | None => "*" end
                                "*")
                  then match e_bodyPart e with
                       | Some b =>
                           LIKE env b
                             ("%" ++ match group with
                                     | Some v => v | None => "*" end ++ "%")
                       | None => false
                       end
                  else true)
                 && (if negb (String.eqb
                                match q with Some v => v | None => "" end "")
                     then LIKE env (LOWER env (e_name e))
                            ("%" ++ toLowerCase env
                                      match q with
                                      | Some v => v | None => "" end ++ "%")
                     else true)) t = t).
  { intro t.
    assert (Q : String.eqb match q with Some v => v | None => "" end "" = true).
    { destruct q as [[|c s]|]; try reflexivity. discriminate. }
    assert (G : negb (String.eqb
                        match group with Some v => v | None => "*" end "")
                && negb (String.eqb
                           match group with Some v => v | None => "*" end "*")
                = false).
    { destruct Hg as [Hg| ->]; [|reflexivity].
      destruct group as [[|c s]|]; try reflexivity. discriminate. }
    rewrite Q, G. simpl.
    induction t as [|e t IH]; simpl; [reflexivity|]. now rewrite IH. }
  rewrite F. rewrite firstn_all2.
  - apply Permutation_sym. apply order_by_perm.
  - rewrite <- (Permutation_length (order_by_perm _ _)). exact Hlen.
Qed.

Lemma search_witness :
  let env := ticking true in
  let w := two_routines env in
  truthy None = false /\
  (List.length (exercises (db w)) <= 300)%nat /\
  exists rows,
    snd (handle env (GET_exercises None (Some "*")) w) = json_exercises rows /\
    Permutation rows (exercises (db w)).
Proof.
  intros env w.
  assert (L : (List.length (exercises (db w)) <= 300)%nat).
  { assert (E : List.length (exercises (db w)) = 1%nat) by reflexivity.
    rewrite E. lia. }
  split; [reflexivity|]. split; [exact L|].
  destruct (search_spec env None (Some "*") w) as [_ [rows [E H]]].
  exists rows. split; [exact E|].
  apply H; [reflexivity | now right | exact L].
Defined.

(** ** Planned sets: adding and removing *)

Lemma post_routine_sets_run env (id rexId : string) reps peso (w : World) :
  handle env (POST_routine_sets id rexId reps peso) w =
  let setId := "set_" ++ nanoid env (ids w) in
  let row := {| rs_id := setId; rs_routine_exercise_id := rexId;
                rs_reps := reps; rs_peso := peso |} in
  let w1 := {| db := db w; clock := clock w; ids := S (ids w) |} in
  if has_key rs_id setId (routine_sets (db w))
  then (w1, status_500 SQLITE_CONSTRAINT_PRIMARYKEY)
  else if fk_ok env (has_key re_id rexId (routine_exercises (db w)))
  then ({| db :=
             with_routines
               (UPDATE (fun r => String.eqb (r_id r) id)
                  (touched (Date_now env (clock w))) (routines (db w)))
               (with_routine_sets (routine_sets (db w) ++ [row]) (db w));
           clock := S (clock w); ids := S (ids w) |},
        json_id setId)
  else (w1, status_500 SQLITE_CONSTRAINT_FOREIGNKEY).
Proof.
  unfold handle. simpl.
  unfold post_routine_sets, bind, nanoid8, now, run, insert_routine_set,
    update_routine_updatedAt.
  simpl.
  destruct (has_key rs_id _ (routine_sets (db w))); simpl; [reflexivity|].
  destruct (fk_ok env _); reflexivity.
Qed.

Lemma delete_routine_set_h_run env (id rexId setId : string) (w : World) :
  handle env (DELETE_routine_set id rexId setId) w =
  ({| db :=
        with_routines
          (UPDATE (fun r => String.eqb (r_id r) id)
             (touched (Date_now env (clock w))) (routines (db w)))
          (with_routine_sets
             (DELETE (fun s => String.eqb (rs_id s) setId
                               && String.eqb (rs_routine_exercise_id s) rexId)
                (routine_sets (db w))) (db w));
      clock := S (clock w); ids := ids w |},
   json_ok).
Proof. reflexivity. Qed.

Lemma DELETE_none {R : Type} (cond : R -> bool) (t : list R) :
  (forall r, In r t -> cond r = false) -> DELETE cond t = t.
Proof.
  intro H. unfold DELETE. induction t as [|r t IH]; simpl; [reflexivity|].
  rewrite (H r) by now left. simpl. f_equal. apply IH.
  intros y Hy. apply H. now right.
Qed.

Lemma has_key_absent {R : Type} (key : R -> string) k (t : list R) r :
  has_key key k t = false -> In r t -> String.eqb (key r) k = false.
Proof.
  intros H Hin. destruct (String.eqb (key r) k) eqn:E; [|reflexivity].
  apply String.eqb_eq in E.
  assert (T : has_key key k t = true).
  { apply has_key_spec. exists r. split; assumption. }
  congruence.
Qed.

(** X11. [POST /api/routines/:id/exercises/:rexId/sets] with a fresh id.
    When the link exists, or foreign keys are not enforced, the set is
    stored after all other sets, so it is the last set of its link; the
    routine of the URL is stamped and the answer is the new id.  When
    foreign keys are enforced and no link has the id [rexId], the request
    fails with status 500, stores nothing and does not even stamp the
    routine. *)
Theorem add_set env (id rexId : string) reps peso (w : World) :
  let setId := "set_" ++ nanoid env (ids w) in
  let row := {| rs_id := setId; rs_routine_exercise_id := rexId;
                rs_reps := reps; rs_peso := peso |} in
  let w' := fst (handle env (POST_routine_sets id rexId reps peso) w) in
  let res := snd (handle env (POST_routine_sets id rexId reps peso) w) in
  has_key rs_id setId (routine_sets (db w)) = false ->
  (foreign_keys env = false \/
   has_key re_id rexId (routine_exercises (db w)) = true ->
   res = json_id setId /\
   routine_sets (db w') = (routine_sets (db w) ++ [row])%list /\
   setsByRex rexId (db w') = (setsByRex rexId (db w) ++ [row])%list /\
   (forall other, other <> rexId ->
      setsByRex other (db w') = setsByRex other (db w)) /\
   updatedAt id (db w') =
     (if has_key r_id id (routines (db w))
      then Some (Date_now env (clock w)) else None) /\
   clock w' = S (clock w)) /\
  (foreign_keys env = true ->
   has_key re_id rexId (routine_exercises (db w)) = false ->
   res = status_500 SQLITE_CONSTRAINT_FOREIGNKEY /\
   db w' = db w /\ clock w' = clock w).
Proof.
  intros setId row w' res K. subst w' res.
  rewrite post_routine_sets_run. cbv zeta. fold setId. rewrite K.
  split.
  - intro H.
    assert (F : fk_ok env (has_key re_id rexId (routine_exercises (db w)))
                = true).
    { unfold fk_ok. destruct H as [-> | ->]; [reflexivity|].
      apply orb_true_r. }
    rewrite F. simpl. split; [reflexivity|]. split; [reflexivity|].
    split; [|split; [|split; [|reflexivity]]].
    + unfold setsByRex. simpl. rewrite filter_app. simpl.
      rewrite String.eqb_refl. reflexivity.
    + intros other Ho. unfold setsByRex. simpl. rewrite filter_app. simpl.
      apply String.eqb_neq in Ho. rewrite String.eqb_sym in Ho.
      rewrite Ho. apply app_nil_r.
    + unfold updatedAt. simpl. apply stamp_touch.
  - intros FK H. unfold fk_ok. rewrite FK, H. simpl. auto.
Qed.

Lemma add_set_witness :
  let w := two_routines (ticking true) in
  let w' := fst (handle (ticking true)
                   (POST_routine_sets "rut_02" "rex_03" None None) w) in
  let w'' := fst (handle (ticking true)
                    (POST_routine_sets "rut_02" "rex_99" None None) w) in
  has_key rs_id ("set_" ++ nanoid (ticking true) (ids w))
    (routine_sets (db w)) = false /\
  has_key re_id "rex_03" (routine_exercises (db w)) = true /\
  has_key re_id "rex_99" (routine_exercises (db w)) = false /\
  map rs_id (setsByRex "rex_03" (db w')) = ["set_04"; "set_05"; "set_06"] /\
  updatedAt "rut_02" (db w') = Some 1005 /\
  db w'' = db w.
Proof.
  intros w w' w''.
  assert (K : has_key rs_id ("set_" ++ nanoid (ticking true) (ids w))
                (routine_sets (db w)) = false) by reflexivity.
  destruct (add_set (ticking true) "rut_02" "rex_03" None None w K)
    as [H _].
  destruct (add_set (ticking true) "rut_02" "rex_99" None None w K)
    as [_ H'].
  destruct (H (or_intror eq_refl)) as (_ & _ & S & _ & U & _).
  destruct (H' eq_refl eq_refl) as (_ & D & _).
  split; [exact K|]. split; [reflexivity|]. split; [reflexivity|].
  split; [|split; [exact U | exact D]].
  unfold w'. rewrite S. reflexivity.
Defined.

(** X12. [DELETE /api/routines/:id/exercises/:rexId/sets/:setId] removes
    exactly the sets whose id is [setId] and whose link is [rexId], always
    answers ok and always stamps the routine of the URL.  So removing a set
    just added, under the link it was added to, gives back the table of
    sets as it was before the addition, while the same request with another
    link id removes nothing. *)
Theorem remove_set env (id rexId setId : string) (w : World) :
  let w' := fst (handle env (DELETE_routine_set id rexId setId) w) in
  snd (handle env (DELETE_routine_set id rexId setId) w) = json_ok /\
  (forall s, In s (routine_sets (db w')) <->
     In s (routine_sets (db w)) /\
     ~ (rs_id s = setId /\ rs_routine_exercise_id s = rexId)) /\
  updatedAt id (db w') =
    (if has_key r_id id (routines (db w))
     then Some (Date_now env (clock w)) else None) /\
  (forall id0 rex0 reps peso,
     let v := fst (handle env (POST_routine_sets id0 rex0 reps peso) w) in
     has_key rs_id ("set_" ++ nanoid env (ids w)) (routine_sets (db w))
       = false ->
     setId = "set_" ++ nanoid env (ids w) ->
     snd (handle env (POST_routine_sets id0 rex0 reps peso) w)
       = json_id setId ->
     routine_sets (db (fst (handle env (DELETE_routine_set id rexId setId) v)))
     = if String.eqb rex0 rexId
       then routine_sets (db w) else routine_sets (db v)).
Proof.
  intros w'. subst w'. rewrite delete_routine_set_h_run. simpl.
  split; [reflexivity|]. split; [|split].
  - intro s. rewrite In_DELETE. split; intros [H1 H2]; split; auto.
    + intros [E1 E2]. rewrite E1, E2, !String.eqb_refl in H2. discriminate.
    + destruct (String.eqb (rs_id s) setId) eqn:E1; [|reflexivity].
      destruct (String.eqb (rs_routine_exercise_id s) rexId) eqn:E2;
        [|reflexivity].
      apply String.eqb_eq in E1, E2. tauto.
  - unfold updatedAt. simpl. apply stamp_touch.
  - intros id0 rex0 reps peso K E R.
    rewrite post_routine_sets_run in R |- *. cbv zeta in R |- *.
    cbn [append] in R |- *. rewrite K in R |- *.
    destruct (fk_ok env (has_key re_id rex0 (routine_exercises (db w))));
      [|discriminate].
    rewrite <- E. simpl. unfold DELETE. rewrite filter_app. simpl.
    rewrite String.eqb_refl. simpl.
    assert (D : filter
                  (fun s => negb (String.eqb (rs_id s) setId
                                  && String.eqb (rs_routine_exercise_id s)
                                       rexId))
                  (routine_sets (db w)) = routine_sets (db w)).
    { apply (DELETE_none
               (fun s => String.eqb (rs_id s) setId
                         && String.eqb (rs_routine_exercise_id s) rexId)).
      intros s Hs. rewrite E.
      rewrite (has_key_absent rs_id _ _ s K Hs). reflexivity. }
    rewrite D.
    destruct (String.eqb rex0 rexId); simpl; [apply app_nil_r | reflexivity].
Qed.

Lemma remove_set_witness :
  let env := ticking true in
  let w := two_routines env in
  has_key rs_id ("set_" ++ nanoid env (ids w)) (routine_sets (db w)) = false /\
  snd (handle env (POST_routine_sets "rut_02" "rex_03" None None) w)
    = json_id "set_06" /\
  routine_sets
    (db (fst (handle env (DELETE_routine_set "rut_02" "rex_03" "set_06")
                (fst (handle env
                        (POST_routine_sets "rut_02" "rex_03" None None) w)))))
    = routine_sets (db w) /\
  routine_sets
    (db (fst (handle env (DELETE_routine_set "rut_02" "rex_04" "set_06")
                (fst (handle env
                        (POST_routine_sets "rut_02" "rex_03" None None) w)))))
    = routine_sets
        (db (fst (handle env
                    (POST_routine_sets "rut_02" "rex_03" None None) w))).
Proof.
  intros env w.
  assert (K : has_key rs_id ("set_" ++ nanoid env (ids w))
                (routine_sets (db w)) = false) by (vm_compute; reflexivity).
  assert (E : "set_06" = "set_" ++ nanoid env (ids w))
    by (vm_compute; reflexivity).
  assert (R : snd (handle env (POST_routine_sets "rut_02" "rex_03" None None) w)
              = json_id "set_06") by (vm_compute; reflexivity).
  split; [exact K|]. split; [exact R|].
  split.
  - destruct (remove_set env "rut_02" "rex_03" "set_06" w)
      as (_ & _ & _ & H).
    pose proof (H "rut_02" "rex_03" None None K E R) as P.
    change (String.eqb "rex_03" "rex_03") with true in P.
    exact P.
  - destruct (remove_set env "rut_02" "rex_04" "set_06" w)
      as (_ & _ & _ & H).
    pose proof (H "rut_02" "rex_03" None None K E R) as P.
    change (String.eqb "rex_03" "rex_04") with false in P.
    exact P.
Defined.

(** ** Links: failed additions and the way back *)

Lemma post_routine_exercises_run env (id : string) c s (w : World) :
  handle env (POST_routine_exercises id (Some (String c s))) w =
  let rexId := "rex_" ++ nanoid env (ids w) in
  let row := {| re_id := rexId; re_routine_id := id;
                re_exercise_id := String c s;
                re_order_index := next_order id (db w) |} in
  let w1 := {| db := db w; clock := clock w; ids := S (ids w) |} in
  if has_key re_id rexId (routine_exercises (db w))
  then (w1, status_500 SQLITE_CONSTRAINT_PRIMARYKEY)
  else if fk_ok env (has_key r_id id (routines (db w)))
          && fk_ok env (has_key e_id (String c s) (exercises (db w)))
  then
    let d' :=
      with_routines
        (UPDATE (fun r => String.eqb (r_id r) id)
           (touched (Date_now env (clock w))) (routines (db w)))
        (with_routine_exercises (routine_exercises (db w) ++ [row]) (db w)) in
    ({| db := d'; clock := S (clock w); ids := S (ids w) |},
     json_routine (loadRoutineFull id d'))
  else (w1, status_500 SQLITE_CONSTRAINT_FOREIGNKEY).
Proof.
  unfold handle. simpl.
  unfold post_routine_exercises, transaction, bind, nanoid8, now, run, query,
    insert_routine_exercise, update_routine_updatedAt.
  simpl.
  destruct (has_key re_id _ (routine_exercises (db w))); simpl;
    [reflexivity|].
  destruct (fk_ok env (has_key r_id id (routines (db w)))
            && fk_ok env (has_key e_id (String c s) (exercises (db w))));
    reflexivity.
Qed.

(** X13. [POST /api/routines/:id/exercises] with a fresh id and an
    exercise id that is not empty.  With foreign keys enforced, an unknown
    routine or an unknown exercise makes the request fail with status 500:
    nothing is stored and nothing is stamped.  Without enforcement the link
    is stored all the same; the answer is then null for an unknown routine,
    and for an unknown exercise the answer does not list the new link. *)
Theorem add_exercise_unknown_parent env (id ex : string) (w : World) :
  let rexId := "rex_" ++ nanoid env (ids w) in
  let w' := fst (handle env (POST_routine_exercises id (Some ex)) w) in
  let res := snd (handle env (POST_routine_exercises id (Some ex)) w) in
  ex <> "" ->
  has_key re_id rexId (routine_exercises (db w)) = false ->
  has_key r_id id (routines (db w)) = false \/
  has_key e_id ex (exercises (db w)) = false ->
  (foreign_keys env = true ->
   res = status_500 SQLITE_CONSTRAINT_FOREIGNKEY /\
   db w' = db w /\ clock w' = clock w) /\
  (foreign_keys env = false ->
   has_key re_id rexId (routine_exercises (db w')) = true /\
   (has_key r_id id (routines (db w)) = false -> res = json_routine None) /\
   (has_key e_id ex (exercises (db w)) = false ->
    forall r, res = json_routine (Some r) ->
      forall v, In v (full_exercises r) -> rex_id v <> rexId)).
Proof.
  intros rexId w' res Hex K Hmiss. subst w' res.
  destruct ex as [|c s]; [congruence|].
  rewrite post_routine_exercises_run. cbv zeta. fold rexId. rewrite K.
  unfold fk_ok. split; intro FK; rewrite FK; simpl.
  - assert (F : has_key r_id id (routines (db w))
                && has_key e_id (String c s) (exercises (db w)) = false).
    { destruct Hmiss as [-> | ->]; [reflexivity | apply andb_false_r]. }
    rewrite F. simpl. auto.
  - split; [|split].
    + rewrite has_key_snoc. simpl. rewrite String.eqb_refl. apply orb_true_r.
    + intro Hr. f_equal. unfold loadRoutineFull. simpl.
      rewrite find_UPDATE by reflexivity.
      rewrite (find_absent id _ Hr). reflexivity.
    + intros He r E v Hv Hid. injection E as E.
      unfold loadRoutineFull in E. simpl in E.
      destruct (find _ _) as [r0|]; [|discriminate].
      injection E as <-. simpl in Hv.
      apply in_map_iff in Hv. destruct Hv as [[re e] [<- Hin]].
      simpl in Hid. apply in_exs in Hin. simpl in Hin.
      destruct Hin as (Hre & _ & Hx & Hxe).
      apply in_app_iff in Hre. destruct Hre as [Hre|[<-|[]]].
      * pose proof (has_key_absent re_id _ _ re K Hre) as A.
        rewrite Hid, String.eqb_refl in A. discriminate.
      * simpl in Hxe.
        pose proof (has_key_absent e_id _ _ e He Hx) as A.
        rewrite Hxe, String.eqb_refl in A. discriminate.
Qed.

Lemma add_exercise_unknown_parent_witness :
  let w := two_routines (ticking true) in
  let v := two_routines (ticking false) in
  "cus_77" <> "" /\
  has_key re_id ("rex_" ++ nanoid (ticking true) (ids w))
    (routine_exercises (db w)) = false /\
  has_key e_id "cus_77" (exercises (db w)) = false /\
  snd (handle (ticking true) (POST_routine_exercises "rut_01" (Some "cus_77")) w)
    = status_500 SQLITE_CONSTRAINT_FOREIGNKEY /\
  has_key re_id "rex_06"
    (routine_exercises
       (db (fst (handle (ticking false)
                   (POST_routine_exercises "rut_01" (Some "cus_77")) v))))
    = true.
Proof.
  intros w v.
  assert (N : "cus_77" <> "") by discriminate.
  assert (K : has_key re_id ("rex_" ++ nanoid (ticking true) (ids w))
                (routine_exercises (db w)) = false)
    by (vm_compute; reflexivity).
  assert (M : has_key e_id "cus_77" (exercises (db w)) = false)
    by (vm_compute; reflexivity).
  assert (K' : has_key re_id ("rex_" ++ nanoid (ticking false) (ids v))
                 (routine_exercises (db v)) = false)
    by (vm_compute; reflexivity).
  assert (M' : has_key e_id "cus_77" (exercises (db v)) = false)
    by (vm_compute; reflexivity).
  split; [exact N|]. split; [exact K|]. split; [exact M|]. split.
  - destruct (add_exercise_unknown_parent (ticking true) "rut_01" "cus_77" w
                N K (or_intror M)) as [H _].
    destruct (H eq_refl) as [R _]. exact R.
  - destruct (add_exercise_unknown_parent (ticking false) "rut_01" "cus_77" v
                N K' (or_intror M')) as [_ H].
    destruct (H eq_refl) as [R _].
    change ("rex_" ++ nanoid (ticking false) (ids v)) with "rex_06" in R.
    exact R.
Defined.

Lemma next_order_ext (id : string) (d d' : DB) :
  routine_exercises d = routine_exercises d' ->
  next_order id d = next_order id d'.
Proof. intro E. unfold next_order. rewrite E. reflexivity. Qed.

(** X14. Adding an exercise to a routine and removing the new link again,
    through the same routine, gives back the table of links as it was, so
    the next exercise added takes the position the removed one had; the
    planned sets are untouched when none was stored under the new link's
    id.  The same removal addressed to another routine leaves the new link
    in place. *)
Theorem add_then_remove_exercise env (id ex : string) (w : World) :
  let rexId := "rex_" ++ nanoid env (ids w) in
  let v := fst (handle env (POST_routine_exercises id (Some ex)) w) in
  ex <> "" ->
  has_key re_id rexId (routine_exercises (db w)) = false ->
  failed (snd (handle env (POST_routine_exercises id (Some ex)) w)) = false ->
  has_key re_id rexId (routine_exercises (db v)) = true /\
  (let w' := fst (handle env (DELETE_routine_exercise id rexId) v) in
   routine_exercises (db w') = routine_exercises (db w) /\
   next_order id (db w') = next_order id (db w) /\
   (has_key rs_routine_exercise_id rexId (routine_sets (db w)) = false ->
    routine_sets (db w') = routine_sets (db w))) /\
  (forall other, other <> id ->
     routine_exercises
       (db (fst (handle env (DELETE_routine_exercise other rexId) v))) =
     routine_exercises (db v)).
Proof.
  intros rexId v Hex K Hok. subst v.
  destruct ex as [|c s]; [congruence|].
  rewrite post_routine_exercises_run in Hok |- *.
  cbv zeta in Hok |- *. fold rexId in Hok |- *. rewrite K in Hok |- *.
  destruct (fk_ok env (has_key r_id id (routines (db w)))
            && fk_ok env (has_key e_id (String c s) (exercises (db w))));
    [|discriminate].
  clear Hok. unfold handle. simpl route.
  rewrite !delete_routine_exercise_h_run. simpl.
  assert (Old : forall cond : RoutineExercise -> bool,
            (forall re, String.eqb (re_id re) rexId = false ->
               cond re = false) ->
            DELETE cond (routine_exercises (db w)) = routine_exercises (db w)).
  { intros cond H. apply DELETE_none. intros re Hre. apply H.
    exact (has_key_absent re_id _ _ re K Hre). }
  split; [|split].
  - rewrite has_key_snoc. simpl. rewrite String.eqb_refl. apply orb_true_r.
  - assert (L : DELETE
                  (fun re => String.eqb (re_id re) rexId
                             && String.eqb (re_routine_id re) id)
                  (routine_exercises (db w) ++
                   [{| re_id := rexId; re_routine_id := id;
                       re_exercise_id := String c s;
                       re_order_index := next_order id (db w) |}]) =
                routine_exercises (db w)).
    { unfold DELETE. rewrite filter_app. simpl.
      rewrite !String.eqb_refl. simpl. rewrite app_nil_r.
      apply (Old (fun re => String.eqb (re_id re) rexId
                            && String.eqb (re_routine_id re) id)).
      intros re ->. reflexivity. }
    split; [exact L|]. split.
    + apply next_order_ext. exact L.
    + intro Hs. apply DELETE_none. intros s0 Hs0.
      exact (has_key_absent rs_routine_exercise_id _ _ s0 Hs Hs0).
  - intros other Hne. rewrite delete_routine_exercise_h_run. simpl.
    apply DELETE_none. intros re Hre.
    apply in_app_iff in Hre. destruct Hre as [Hre|[<-|[]]].
    + rewrite (has_key_absent re_id _ _ re K Hre). reflexivity.
    + simpl. apply String.eqb_neq in Hne. rewrite String.eqb_sym in Hne.
      rewrite Hne. apply andb_false_r.
Qed.

Lemma add_then_remove_exercise_witness :
  let env := ticking true in
  let w := two_routines env in
  ("cus_00" <> "" /\
   has_key re_id ("rex_" ++ nanoid env (ids w)) (routine_exercises (db w))
     = false /\
   failed (snd (handle env (POST_routine_exercises "rut_02" (Some "cus_00")) w))
     = false) /\
  next_order "rut_02" (db w) = Some 2 /\
  next_order "rut_02"
    (db (fst (handle env (DELETE_routine_exercise "rut_02"
                            ("rex_" ++ nanoid env (ids w)))
                (fst (handle env
                        (POST_routine_exercises "rut_02" (Some "cus_00"))
                        w))))) = Some 2.
Proof.
  intros env w.
  assert (N : "cus_00" <> "") by discriminate.
  assert (K : has_key re_id ("rex_" ++ nanoid env (ids w))
                (routine_exercises (db w)) = false)
    by (vm_compute; reflexivity).
  assert (F : failed (snd (handle env
                             (POST_routine_exercises "rut_02" (Some "cus_00"))
                             w)) = false)
    by (vm_compute; reflexivity).
  assert (O : next_order "rut_02" (db w) = Some 2)
    by (vm_compute; reflexivity).
  split; [split; [exact N | split; [exact K | exact F]]|].
  split; [exact O|].
  destruct (add_then_remove_exercise env "rut_02" "cus_00" w N K F)
    as (_ & (_ & H & _) & _).
  rewrite <- O. exact H.
Defined.

(** ** Renaming a routine *)

Lemma UPDATE_none {R : Type} (cond : R -> bool) (set : R -> R) (t : list R) :
  (forall r, In r t -> cond r = false) -> UPDATE cond set t = t.
Proof.
  intro H. unfold UPDATE. induction t as [|r t IH]; simpl; [reflexivity|].
  rewrite (H r) by now left. f_equal. apply IH.
  intros y Hy. apply H. now right.
Qed.

Lemma with_routines_same (d : DB) : with_routines (routines d) d = d.
Proof. destruct d. reflexivity. Qed.

Lemma loadRoutineFull_renamed (id other n : string) (ts : Z) (d : DB) :
  loadRoutineFull other
    (with_routines
       (UPDATE (fun r => String.eqb (r_id r) id) (renamed n ts) (routines d))
       d) =
  if String.eqb other id
  then option_map
         (fun r => {| full_id := full_id r; full_name := n;
                      full_createdAt := full_createdAt r;
                      full_updatedAt := Some ts;
                      full_exercises := full_exercises r |})
         (loadRoutineFull id d)
  else loadRoutineFull other d.
Proof.
  unfold loadRoutineFull. simpl. rewrite find_UPDATE by reflexivity.
  destruct (String.eqb other id) eqn:E.
  - apply String.eqb_eq in E. subst other.
    destruct (find (fun r => String.eqb (r_id r) id) (routines d))
      as [r|] eqn:F; simpl; [|reflexivity].
    apply find_some in F. destruct F as [_ F]. rewrite F. reflexivity.
  - destruct (find (fun r => String.eqb (r_id r) other) (routines d))
      as [r|] eqn:F; simpl; [|reflexivity].
    apply find_some in F. destruct F as [_ F].
    apply String.eqb_eq in F. rewrite <- F in E. rewrite E. reflexivity.
Qed.

(** X15. [PUT /api/routines/:id] with only a name.  A missing or empty
    name changes nothing at all; the answer is the routine as it is, or
    null, not 404, when the id is unknown.  A name that is not empty is
    stored as sent, without trimming: the routine then reads with the new
    name and the clock's reading as [updatedAt], its id, [createdAt] and
    exercises as before, and every other routine reads as before.  For an
    unknown id the clock is read, the database stays as it was and the
    answer is null. *)
Theorem rename_routine env (id : string) (name : option string) (w : World) :
  let w' := fst (handle env (PUT_routine id (name_body name)) w) in
  let res := snd (handle env (PUT_routine id (name_body name)) w) in
  (truthy name = false ->
   w' = w /\ res = json_routine (loadRoutineFull id (db w))) /\
  (forall n, name = Some n -> n <> "" ->
   clock w' = S (clock w) /\
   (forall other, other <> id ->
      loadRoutineFull other (db w') = loadRoutineFull other (db w)) /\
   match loadRoutineFull id (db w) with
   | Some r0 =>
       res = json_routine
               (Some {| full_id := full_id r0; full_name := n;
                        full_createdAt := full_createdAt r0;
                        full_updatedAt := Some (Date_now env (clock w));
                        full_exercises := full_exercises r0 |})
   | None => res = json_routine None /\ db w' = db w
   end).
Proof.
  intros w' res. subst w' res. rewrite put_routine_run. simpl. split.
  - intro H. destruct name as [[|c s]|]; try discriminate; auto.
  - intros n -> Hn. destruct n as [|c s]; [congruence|]. simpl.
    split; [reflexivity|]. split.
    + intros other Ho. rewrite loadRoutineFull_renamed.
      apply String.eqb_neq in Ho. rewrite Ho. reflexivity.
    + rewrite loadRoutineFull_renamed, String.eqb_refl.
      destruct (loadRoutineFull id (db w)) as [r0|] eqn:L; simpl;
        [reflexivity|].
      split; [reflexivity|].
      rewrite UPDATE_none; [apply with_routines_same|].
      intros r Hr. destruct (String.eqb (r_id r) id) eqn:E; [|reflexivity].
      apply String.eqb_eq in E. exfalso.
      apply (loadRoutineFull_exists id (db w)); [|exact L].
      apply has_key_spec. exists r. auto.
Qed.

Lemma rename_routine_witness :
  let env := ticking true in
  let w := two_routines env in
  truthy (Some "") = false /\
  " Leg day " <> "" /\
  fst (handle env (PUT_routine "rut_01" (name_body (Some ""))) w) = w /\
  snd (handle env (PUT_routine "rut_09" (name_body (Some " Leg day "))) w)
    = json_routine None /\
  snd (handle env (PUT_routine "rut_01" (name_body (Some " Leg day "))) w)
    = json_routine
        (Some {| full_id := "rut_01"; full_name := " Leg day ";
                 full_createdAt := Some 1000; full_updatedAt := Some 1005;
                 full_exercises := [] |}).
Proof.
  intros env w.
  assert (N : " Leg day " <> "") by discriminate.
  split; [reflexivity|]. split; [exact N|].
  destruct (rename_routine env "rut_01" (Some "") w) as [H1 _].
  destruct (rename_routine env "rut_09" (Some " Leg day ") w) as [_ H2].
  destruct (rename_routine env "rut_01" (Some " Leg day ") w) as [_ H3].
  split; [apply H1; reflexivity|].
  split.
  - destruct (H2 _ eq_refl N) as (_ & _ & H).
    assert (L : loadRoutineFull "rut_09" (db w) = None)
      by (vm_compute; reflexivity).
    rewrite L in H. apply H.
  - destruct (H3 _ eq_refl N) as (_ & _ & H).
    assert (L : loadRoutineFull "rut_01" (db w) =
                Some {| full_id := "rut_01"; full_name := "A";
                        full_createdAt := Some 1000;
                        full_updatedAt := Some 1000;
                        full_exercises := [] |})
      by (vm_compute; reflexivity).
    rewrite L in H. exact H.
Defined.

(** ** Seeding the catalogue *)

Lemma with_exercises_same (d : DB) : with_exercises (exercises d) d = d.
Proof. destruct d. reflexivity. Qed.

Lemma NoDup_map_app_l {R : Type} (key : R -> string) (t u : list R) :
  NoDup (map key (t ++ u)) -> NoDup (map key t).
Proof.
  rewrite map_app. intro N. apply NoDup_app_remove_r in N. exact N.
Qed.

Lemma seed_loop (seed : list Exercise) :
  forall (i : Z) (w : World),
    NoDup (map e_id (exercises (db w))) ->
    match forEach_from i (fun r _ => run (insert_exercise r)) seed w with
    | (w', Ok _) =>
        NoDup (map e_id (exercises (db w) ++ seed)) /\
        w' = set_db (with_exercises (exercises (db w) ++ seed) (db w)) w
    | (w', Throw e) =>
        e = SQLITE_CONSTRAINT_PRIMARYKEY /\
        ~ NoDup (map e_id (exercises (db w) ++ seed)) /\
        clock w' = clock w /\ ids w' = ids w
    end.
Proof.
  induction seed as [|x seed IH]; intros i w N; simpl.
  - rewrite app_nil_r. split; [exact N|].
    rewrite with_exercises_same. destruct w. reflexivity.
  - unfold bind at 1. unfold run at 1. unfold insert_exercise at 1.
    destruct (has_key e_id (e_id x) (exercises (db w))) eqn:K.
    + split; [reflexivity|]. split; [|split; reflexivity].
      intro N'. rewrite map_app in N'. simpl in N'.
      apply NoDup_remove_2 in N'. apply N'. apply in_or_app. left.
      apply has_key_spec in K. destruct K as [r [Hr <-]].
      apply in_map. exact Hr.
    + set (w1 := set_db (with_exercises (exercises (db w) ++ [x]) (db w)) w).
      assert (N1 : NoDup (map e_id (exercises (db w1)))).
      { simpl. apply NoDup_map_snoc; assumption. }
      specialize (IH (i + 1) w1 N1).
      destruct (forEach_from (i + 1) (fun r _ => run (insert_exercise r))
                  seed w1) as [w' [u|e]].
      * simpl in IH. rewrite <- app_assoc in IH. simpl in IH.
        destruct IH as [IH1 IH2]. split; [exact IH1|].
        rewrite IH2. reflexivity.
      * simpl in IH. rewrite <- app_assoc in IH. simpl in IH. exact IH.
Qed.

(** X16. The start-up seeding.  On a catalogue that is not empty it does
    nothing.  On an empty catalogue it stores the bundled rows in their
    order when their ids are pairwise different, and otherwise throws and
    stores none of them.  Either way nothing but the catalogue changes, and
    seeding once more changes nothing further. *)
Theorem seeding (seed : list Exercise) (w : World) :
  let w' := fst (seed_exercises seed w) in
  (exercises (db w) <> [] -> w' = w) /\
  (exercises (db w) = [] -> NoDup (map e_id seed) ->
   snd (seed_exercises seed w) = Ok tt /\
   w' = set_db (with_exercises seed (db w)) w) /\
  (exercises (db w) = [] -> ~ NoDup (map e_id seed) ->
   snd (seed_exercises seed w) = Throw SQLITE_CONSTRAINT_PRIMARYKEY /\
   w' = w) /\
  fst (seed_exercises seed w') = w'.
Proof.
  intro w'.
  assert (Full : forall v, exercises (db v) <> [] ->
            seed_exercises seed v = (v, Ok tt)).
  { intros v H. unfold seed_exercises, bind, query. simpl.
    destruct (exercises (db v)); [congruence | reflexivity]. }
  assert (Empty : exercises (db w) = [] ->
            (NoDup (map e_id seed) /\
             seed_exercises seed w =
               (set_db (with_exercises seed (db w)) w, Ok tt)) \/
            (~ NoDup (map e_id seed) /\
             seed_exercises seed w =
               (w, Throw SQLITE_CONSTRAINT_PRIMARYKEY))).
  { intro E. unfold seed_exercises, bind, query, transaction, forEach.
    simpl. rewrite E. simpl.
    assert (N : NoDup (map e_id (exercises (db w)))).
    { rewrite E. constructor. }
    pose proof (seed_loop seed 0 w N) as L. rewrite E in L. simpl in L.
    destruct (forEach_from 0 (fun r _ => run (insert_exercise r)) seed w)
      as [v [u|e]].
    - left. destruct L as [L1 L2]. split; [exact L1|].
      rewrite L2. destruct u. reflexivity.
    - right. destruct L as (-> & L1 & L2 & L3). split; [exact L1|].
      f_equal. apply World_ext; simpl; auto. }
  split; [|split; [|split]].
  - intro H. unfold w'. rewrite Full by exact H. reflexivity.
  - intros E N. unfold w'.
    destruct (Empty E) as [[_ R]|[H _]]; [rewrite R; auto | contradiction].
  - intros E N. unfold w'.
    destruct (Empty E) as [[H _]|[_ R]]; [contradiction | rewrite R; auto].
  - destruct (exercises (db w)) as [|e t] eqn:E.
    + destruct (Empty eq_refl) as [[_ R]|[_ R]]; unfold w'; rewrite R; simpl.
      * destruct seed as [|x seed].
        -- assert (S : set_db (with_exercises [] (db w)) w = w).
           { apply World_ext; simpl; auto.
             rewrite <- E. apply with_exercises_same. }
           rewrite S, R. simpl. exact S.
        -- rewrite Full; [reflexivity | simpl; discriminate].
      * rewrite R. reflexivity.
    + assert (H : exercises (db w) <> []) by (rewrite E; discriminate).
      unfold w'. rewrite (Full w H). simpl. rewrite (Full w H). reflexivity.
Qed.

Lemma seeding_witness :
  exercises (db boot) = [] /\
  NoDup (map e_id a_seed) /\
  ~ NoDup (map e_id (a_seed ++ a_seed)) /\
  fst (seed_exercises a_seed boot)
    = set_db (with_exercises a_seed (db boot)) boot /\
  fst (seed_exercises (a_seed ++ a_seed) boot) = boot /\
  exercises (db (fst (seed_exercises a_seed boot))) <> [] /\
  fst (seed_exercises (a_seed ++ a_seed) (fst (seed_exercises a_seed boot)))
    = fst (seed_exercises a_seed boot).
Proof.
  assert (N : NoDup (map e_id a_seed)).
  { repeat constructor; simpl; intuition discriminate. }
  assert (D : ~ NoDup (map e_id (a_seed ++ a_seed))).
  { intro H. inversion H as [|x l H1 H2]; subst. apply H1. simpl. tauto. }
  assert (F : exercises (db (fst (seed_exercises a_seed boot))) <> [])
    by discriminate.
  split; [reflexivity|]. split; [exact N|]. split; [exact D|].
  destruct (seeding a_seed boot) as (_ & H1 & _ & _).
  destruct (seeding (a_seed ++ a_seed) boot) as (_ & _ & H2 & _).
  destruct (seeding (a_seed ++ a_seed) (fst (seed_exercises a_seed boot)))
    as (H3 & _ & _ & _).
  split; [apply (H1 eq_refl N)|].
  split; [apply (H2 eq_refl D)|].
  split; [exact F | exact (H3 F)].
Defined.

(** ** Personal records over time *)

Lemma keeps_history_kept env (d0 : DB) : kept_by_statements env (keeps_history d0).
Proof.
  intros stmt d d' S H E.
  assert (Grows : (forall x, In x (workout_items d) -> In x (workout_items d')) ->
                  (forall x, In x (workout_sets d) -> In x (workout_sets d')) ->
                  keeps_history d0 d').
  { intros Hi Hs [wi ws] Hj. apply H in Hj. apply in_joined in Hj.
    apply in_joined. destruct Hj as (A & B & C). auto. }
  destruct S;
    try (injection E as <-; apply Grows; simpl; auto);
    try (unfold insert_exercise, insert_routine, insert_routine_exercise,
           insert_routine_set, insert_workout, insert_workout_item,
           insert_workout_set, delete_routine_exercise in E;
         repeat match type of E with
                | (if ?c then _ else _) = _ => destruct c; try discriminate
                end;
         injection E as <-; apply Grows; simpl; auto;
         intros x Hx; apply in_or_app; now left).
Qed.

Lemma ranks_weight (s t : WorkoutSet) :
  ranks_no_lower s t -> weight_no_lower (ws_peso s) (ws_peso t).
Proof.
  unfold ranks_no_lower, weight_no_lower, desc_nulls_last, tie.
  destruct (ws_peso s) as [a|], (ws_peso t) as [b|]; try tauto.
  intros [H|[H _]]; [apply Qlt_le_weak; exact H|].
  rewrite H. apply Qle_refl.
Qed.

(** X17. Personal records never get worse.  Whatever requests are served,
    an exercise that has a record keeps one, and the recorded weight does
    not go down: it is at least the weight it was, and a record with a
    weight never turns into one without. *)
Theorem personal_records_never_worsen env (reqs : list Request) (w : World)
    (m : MarkRow) :
  In m (marks (db w)) ->
  exists m',
    In m' (marks (db (serve env reqs w))) /\
    m_exercise_id m' = m_exercise_id m /\
    weight_no_lower (pr_weight m') (pr_weight m).
Proof.
  intro Hm.
  assert (K : keeps_history (db w) (db (serve env reqs w))).
  { apply keeps_serve; [apply keeps_history_kept | intros j Hj; exact Hj]. }
  destruct (marks_winner (db w) m Hm) as (wi & top & Hj & He & _ & ->).
  apply K in Hj.
  destruct (marks_present _ wi top Hj) as [m' [Hm' He']].
  exists m'. split; [exact Hm'|]. split; [simpl; congruence|].
  destruct (marks_winner _ m' Hm') as (wi' & top' & _ & _ & Hbest & ->).
  simpl. apply ranks_weight. apply (Hbest wi top Hj).
  symmetry. exact He'.
Qed.

Lemma personal_records_witness :
  let m := {| m_exercise_id := Some "E"; m_name := Some "Press";
              m_bodyPart := Some "Chest"; m_image := Some "";
              pr_weight := Some 100%Q; reps_at_pr := Some 0 |} in
  In m (marks reps_left_blank) /\
  exists m',
    In m' (marks (db (serve (ticking true)
                        [ POST_workouts
                            (a_session "R1"
                               [an_item "E" "Press"
                                  [a_set (Some 3) (Some 80%Q) true]]) ]
                        {| db := reps_left_blank; clock := 0; ids := 3 |}))) /\
    weight_no_lower (pr_weight m') (Some 100%Q).
Proof.
  intro m.
  assert (H : In m (marks reps_left_blank)) by (vm_compute; auto).
  split; [exact H|].
  destruct (personal_records_never_worsen (ticking true)
              [ POST_workouts
                  (a_session "R1"
                     [an_item "E" "Press" [a_set (Some 3) (Some 80%Q) true]]) ]
              {| db := reps_left_blank; clock := 0; ids := 3 |} m H)
    as [m' [H1 [_ H2]]].
  exists m'. split; [exact H1 | exact H2].
Defined.

(** ** Personal records and the [done] flag *)

Lemma filter_map_comm {A B : Type} (f : B -> bool) (g : A -> B) (l : list A) :
  filter f (map g l) = map g (filter (fun x => f (g x)) l).
Proof.
  induction l as [|x l IH]; simpl; [reflexivity|].
  destruct (f (g x)); simpl; now rewrite IH.
Qed.

Lemma map_flat_map_comm {A B C : Type} (g : B -> C) (F : A -> list B)
    (l : list A) :
  map g (flat_map F l) = flat_map (fun x => map g (F x)) l.
Proof.
  induction l as [|x l IH]; simpl; [reflexivity|].
  now rewrite map_app, IH.
Qed.

Lemma flat_map_of_map {A B C : Type} (F : B -> list C) (h : A -> B)
    (l : list A) :
  flat_map F (map h l) = flat_map (fun x => F (h x)) l.
Proof.
  induction l as [|x l IH]; simpl; [reflexivity|]. now rewrite IH.
Qed.

Lemma insert_row_map {A B : Type} (cmp : B -> B -> comparison) (g : A -> B)
    (x : A) (l : list A) :
  insert_row cmp (g x) (map g l) =
  map g (insert_row (fun a b => cmp (g a) (g b)) x l).
Proof.
  induction l as [|y l IH]; simpl; [reflexivity|].
  unfold cmp_leb. destruct (cmp (g x) (g y)); simpl;
    try reflexivity.
  now rewrite IH.
Qed.

Lemma order_by_map {A B : Type} (cmp : B -> B -> comparison) (g : A -> B)
    (l : list A) :
  order_by cmp (map g l) = map g (order_by (fun a b => cmp (g a) (g b)) l).
Proof.
  induction l as [|x l IH]; simpl; [reflexivity|].
  rewrite IH. apply insert_row_map.
Qed.

Lemma ROW_NUMBER_map {A B : Type} (g : A -> B) (l : list A) :
  ROW_NUMBER (map g l) = map (fun r => (g (fst r), snd r)) (ROW_NUMBER l).
Proof.
  unfold ROW_NUMBER. rewrite length_map.
  generalize (map Z.of_nat (seq 1 (List.length l))). 
  induction l as [|x l IH]; intros [|n ns]; simpl; try reflexivity.
  now rewrite IH.
Qed.

Lemma joined_forget (d : DB) :
  joined (with_workout_sets (map forget_done (workout_sets d)) d) =
  map (fun j => (fst j, forget_done (snd j))) (joined d).
Proof.
  unfold joined. simpl.
  rewrite flat_map_of_map, map_flat_map_comm.
  apply flat_map_ext. intro ws. simpl. rewrite map_map. reflexivity.
Qed.

Lemma marks_forget (d : DB) :
  marks (with_workout_sets (map forget_done (workout_sets d)) d) = marks d.
Proof.
  unfold marks. f_equal. unfold ranked. rewrite joined_forget.
  set (g := fun j : WorkoutItem * WorkoutSet => (fst j, forget_done (snd j))).
  rewrite map_map. simpl.
  rewrite !filter_flat_map, !map_flat_map_comm.
  apply flat_map_ext. intro k.
  rewrite (filter_map_comm (same_exercise k) g).
  rewrite (order_by_map pr_order g).
  rewrite ROW_NUMBER_map, filter_map_comm, map_map. simpl.
  reflexivity.
Qed.

(** X18. The personal records do not look at the [done] flag: two
    databases with the same workout items, whose workout sets differ only
    in [done], have the same records.  A set that was never ticked off
    counts like a completed one. *)
Theorem marks_ignore_done (d d' : DB) :
  workout_items d = workout_items d' ->
  map forget_done (workout_sets d) = map forget_done (workout_sets d') ->
  marks d = marks d'.
Proof.
  intros Hi Hs. rewrite <- (marks_forget d), <- (marks_forget d').
  apply marks_ext; simpl; assumption.
Qed.

Lemma marks_ignore_done_witness :
  workout_items reps_left_blank = workout_items never_ticked /\
  map forget_done (workout_sets reps_left_blank)
    = map forget_done (workout_sets never_ticked) /\
  map ws_done (workout_sets reps_left_blank) = [Some 1] /\
  map ws_done (workout_sets never_ticked) = [Some 0] /\
  marks reps_left_blank = marks never_ticked.
Proof.
  assert (Hi : workout_items reps_left_blank = workout_items never_ticked)
    by (vm_compute; reflexivity).
  assert (Hs : map forget_done (workout_sets reps_left_blank)
               = map forget_done (workout_sets never_ticked))
    by (vm_compute; reflexivity).
  split; [exact Hi|]. split; [exact Hs|].
  split; [vm_compute; reflexivity|]. split; [vm_compute; reflexivity|].
  exact (marks_ignore_done reps_left_blank never_ticked Hi Hs).
Defined.

(** ** The client: escaping *)

Lemma entity_some (c : ascii) (e : string) :
  entity c = Some e ->
  (c = "&"%char /\ e = "&amp;") \/ (c = "<"%char /\ e = "&lt;") \/
  (c = ">"%char /\ e = "&gt;") \/ (c = quot /\ e = "&quot;") \/
  (c = apos /\ e = "&#39;").
Proof.
  unfold entity.
  destruct (Ascii.eqb_spec c "&"); [intro H; injection H as <-; auto|].
  destruct (Ascii.eqb_spec c "<"); [intro H; injection H as <-; auto|].
  destruct (Ascii.eqb_spec c ">"); [intro H; injection H as <-; auto 6|].
  destruct (Ascii.eqb_spec c quot); [intro H; injection H as <-; auto 6|].
  destruct (Ascii.eqb_spec c apos); [intro H; injection H as <-; auto 6|].
  discriminate.
Qed.

Lemma entity_none (c : ascii) :
  entity c = None ->
  c <> "&"%char /\ c <> "<"%char /\ c <> ">"%char /\ c <> quot /\ c <> apos.
Proof.
  unfold entity.
  destruct (Ascii.eqb_spec c "&"); [discriminate|].
  destruct (Ascii.eqb_spec c "<"); [discriminate|].
  destruct (Ascii.eqb_spec c ">"); [discriminate|].
  destruct (Ascii.eqb_spec c quot); [discriminate|].
  destruct (Ascii.eqb_spec c apos); [discriminate|].
  auto.
Qed.

Lemma replace_all_chars (s : string) (c : ascii) :
  In c (list_ascii_of_string (replace_all s)) ->
  c <> "<"%char /\ c <> ">"%char /\ c <> quot /\ c <> apos.
Proof.
  induction s as [|a s IH]; simpl; [tauto|].
  destruct (entity a) as [e|] eqn:E.
  - apply entity_some in E.
    destruct E as [[_ ->]|[[_ ->]|[[_ ->]|[[_ ->]|[_ ->]]]]]; simpl;
      intro H;
      repeat (destruct H as [<-|H];
              [repeat split; intro Q; vm_compute in Q; discriminate|]);
      apply IH; exact H.
  - apply entity_none in E. simpl. intros [<-|H]; [tauto | apply IH; exact H].
Qed.

Lemma replace_all_injective (s t : string) :
  replace_all s = replace_all t -> s = t.
Proof.
  revert t. induction s as [|a s IH]; intros [|b t]; simpl; auto.
  - destruct (entity b) as [e|] eqn:E; [|discriminate].
    apply entity_some in E.
    destruct E as [[_ ->]|[[_ ->]|[[_ ->]|[[_ ->]|[_ ->]]]]]; discriminate.
  - destruct (entity a) as [e|] eqn:E; [|discriminate].
    apply entity_some in E.
    destruct E as [[_ ->]|[[_ ->]|[[_ ->]|[[_ ->]|[_ ->]]]]]; discriminate.
  - destruct (entity a) as [e|] eqn:Ea, (entity b) as [e'|] eqn:Eb.
    + apply entity_some in Ea, Eb.
      destruct Ea as [[-> ->]|[[-> ->]|[[-> ->]|[[-> ->]|[-> ->]]]]],
               Eb as [[-> ->]|[[-> ->]|[[-> ->]|[[-> ->]|[-> ->]]]]];
        simpl; intro H; try discriminate;
        injection H as H; f_equal; apply IH; exact H.
    + apply entity_some in Ea. apply entity_none in Eb.
      destruct Ea as [[-> ->]|[[-> ->]|[[-> ->]|[[-> ->]|[-> ->]]]]];
        simpl; intro H; injection H as H _; symmetry in H; tauto.
    + apply entity_none in Ea. apply entity_some in Eb.
      destruct Eb as [[-> ->]|[[-> ->]|[[-> ->]|[[-> ->]|[-> ->]]]]];
        simpl; intro H; injection H as H _; tauto.
    + intro H. injection H as -> H. f_equal. apply IH. exact H.
Qed.

(** X19. [escapeHtml] makes a text safe for HTML content and attribute
    values and loses nothing: its result never contains [<], [>], a double
    quote or an apostrophe, two different texts are never escaped to the
    same result, and a missing argument gives the empty text. *)
Theorem escapeHtml_safe :
  (forall str c, In c (list_ascii_of_string (escapeHtml str)) ->
     c <> "<"%char /\ c <> ">"%char /\ c <> quot /\ c <> apos) /\
  (forall s t, escapeHtml (Some s) = escapeHtml (Some t) -> s = t) /\
  escapeHtml None = "".
Proof.
  split; [|split].
  - intros str c. apply replace_all_chars.
  - intros s t. apply replace_all_injective.
  - reflexivity.
Qed.

Lemma escapeHtml_witness :
  escapeHtml (Some "<b title='a&b'>") = "&lt;b title=&#39;a&amp;b&#39;&gt;" /\
  ~ In "<"%char
      (list_ascii_of_string (escapeHtml (Some "<b title='a&b'>"))).
Proof.
  split; [reflexivity|]. intro H.
  destruct (proj1 escapeHtml_safe _ _ H) as [N _]. apply N. reflexivity.
Defined.

(** ** The client: progress of a session *)

Lemma fold_left_lengths {A B : Type} (g : A -> list B) (l : list A) (a : nat) :
  fold_left (fun acc x => (acc + List.length (g x))%nat) l a =
  (a + List.length (flat_map g l))%nat.
Proof.
  revert a. induction l as [|x l IH]; intro a; simpl; [lia|].
  rewrite IH, length_app. lia.
Qed.

Lemma completedSetsCount_filter (s : Session) :
  completedSetsCount s = List.length (filter ss_done (all_sets s)).
Proof.
  unfold completedSetsCount, all_sets.
  rewrite (fold_left_lengths (fun it => filter ss_done (si_sets it))).
  rewrite filter_flat_map. reflexivity.
Qed.

Lemma maxSetsCount_length (s : Session) :
  maxSetsCount s =
  match all_sets s with [] => 1%nat | _ => List.length (all_sets s) end.
Proof.
  unfold maxSetsCount, all_sets.
  rewrite (fold_left_lengths si_sets). simpl.
  destruct (flat_map si_sets (sess_items s)); reflexivity.
Qed.

Lemma filter_all {A : Type} (f : A -> bool) (l : list A) :
  List.length (filter f l) = List.length l <-> Forall (fun x => f x = true) l.
Proof.
  induction l as [|x l IH]; simpl.
  - split; auto.
  - pose proof (filter_length_le f l) as L.
    destruct (f x) eqn:E; simpl; split; intro H.
    + constructor; [exact E|]. apply IH. lia.
    + inversion H; subst. f_equal. apply IH. assumption.
    + lia.
    + inversion H; subst. congruence.
Qed.

(** X20. The two counters behind the progress bar of a session: the
    completed sets are never more than the maximum, the maximum is never 0
    (a session without sets counts as one open set), the two are equal
    exactly when the session has a set and every set is ticked, and a
    session that just started has no completed set. *)
Theorem session_progress_counts (s : Session) :
  (completedSetsCount s <= maxSetsCount s)%nat /\
  (1 <= maxSetsCount s)%nat /\
  (all_sets s = [] -> maxSetsCount s = 1%nat) /\
  (all_sets s <> [] -> maxSetsCount s = List.length (all_sets s)) /\
  (completedSetsCount s = maxSetsCount s <->
   all_sets s <> [] /\ Forall (fun x => ss_done x = true) (all_sets s)) /\
  (forall r now, startWorkout r now = Some s -> completedSetsCount s = O).
Proof.
  rewrite completedSetsCount_filter, maxSetsCount_length.
  pose proof (filter_length_le ss_done (all_sets s)) as L.
  pose proof (filter_all ss_done (all_sets s)) as F.
  split; [|split; [|split; [|split; [|split]]]].
  - destruct (all_sets s); simpl in *; lia.
  - destruct (all_sets s); simpl; lia.
  - intros ->. reflexivity.
  - destruct (all_sets s); [congruence | reflexivity].
  - destruct (all_sets s) as [|x l] eqn:E.
    + simpl. split; [discriminate | intros [H _]; congruence].
    + split.
      * intro H. split; [discriminate|]. apply F. exact H.
      * intros [_ H]. apply F. exact H.
  - intros r now H. unfold startWorkout in H.
    destruct r as [r|]; [|discriminate].
    destruct (full_exercises r) as [|x l] eqn:Ex; [discriminate|].
    rewrite <- Ex in H. injection H as H. subst s.
    unfold all_sets. cbn [sess_items].
    apply length_zero_iff_nil. apply filter_none.
    intros y Hy. apply in_flat_map in Hy. destruct Hy as [it [Hit Hy]].
    apply in_map_iff in Hit. destruct Hit as [v [<- _]]. simpl in Hy.
    apply in_map_iff in Hy. destruct Hy as [z [<- _]]. reflexivity.
Qed.

Lemma session_progress_witness :
  exists s,
    a_started_session = Some s /\
    List.length (all_sets s) = 2%nat /\
    completedSetsCount s = O /\ maxSetsCount s = 2%nat.
Proof.
  eexists. split; [vm_compute; reflexivity|].
  split; [vm_compute; reflexivity|]. split; [|vm_compute; reflexivity].
  refine (proj2 (proj2 (proj2 (proj2 (proj2 (session_progress_counts _)))))
            (loadRoutineFull "rut_02" (db (two_routines (ticking true))))
            5000 _).
  vm_compute. reflexivity.
Defined.

(** ** The client: moving through a session *)


Lemma map_at_index {A B : Type} (g : A -> B) (n : nat) (f : A -> A)
    (l : list A) :
  (forall x, g (f x) = g x) -> map g (at_index n f l) = map g l.
Proof.
  intro H. revert n. induction l as [|x l IH]; intros [|n]; simpl; auto.
  - now rewrite H.
  - now rewrite IH.
Qed.

Lemma click_items (c : Click) (s : Session) :
  map item_identity (sess_items (click c s)) = map item_identity (sess_items s)
  /\ sess_routineId (click c s) = sess_routineId s
  /\ sess_startedAt (click c s) = sess_startedAt s.
Proof.
  destruct c; simpl; repeat split;
    destruct (sess_currentIndex s <? 0); auto;
    apply map_at_index; reflexivity.
Qed.

Lemma click_on_screen (c : Click) (s : Session) :
  on_screen s -> on_screen (click c s).
Proof.
  unfold on_screen.
  assert (L : List.length (sess_items (click c s)) = List.length (sess_items s)).
  { rewrite <- (length_map item_identity (sess_items (click c s))).
    rewrite (proj1 (click_items c s)). apply length_map. }
  rewrite L. destruct c; simpl; lia.
Qed.

Lemma clicks_keep (cs : list Click) :
  forall s, on_screen s ->
    on_screen (clicks cs s) /\
    map item_identity (sess_items (clicks cs s)) =
      map item_identity (sess_items s) /\
    sess_routineId (clicks cs s) = sess_routineId s /\
    sess_startedAt (clicks cs s) = sess_startedAt s.
Proof.
  induction cs as [|c cs IH]; intros s On; simpl; auto.
  destruct (IH (click c s) (click_on_screen c s On)) as (A & B & C & D).
  destruct (click_items c s) as (B' & C' & D').
  unfold clicks in *. simpl.
  split; [exact A|]. split; [rewrite B; exact B'|].
  split; [rewrite C; exact C' | rewrite D; exact D'].
Qed.

Lemma startWorkout_some (r : option RoutineFull) (now : Z) (s : Session) :
  startWorkout r now = Some s ->
  on_screen s /\ sess_startedAt s = now /\
  exists r0,
    r = Some r0 /\ full_exercises r0 <> [] /\
    sess_routineId s = full_id r0 /\
    map item_identity (sess_items s) =
      map (fun x => (x_id (rex_exercise x), x_name (rex_exercise x),
                     x_image (rex_exercise x), x_bodyPart (rex_exercise x)))
        (full_exercises r0).
Proof.
  intro H. unfold startWorkout in H. destruct r as [r0|]; [|discriminate].
  destruct (full_exercises r0) as [|x l] eqn:Ex; [discriminate|].
  rewrite <- Ex in H. injection H as <-.
  split.
  { unfold on_screen. simpl. rewrite length_map, Ex. simpl. lia. }
  split; [reflexivity|].
  exists r0. split; [reflexivity|]. split; [rewrite Ex; discriminate|].
  split; [reflexivity|]. simpl. rewrite map_map. reflexivity.
Qed.

(** A session starts at the first item, not finished, with no time on the
    stopwatch. *)
Lemma startWorkout_first (r : option RoutineFull) (now : Z) (s : Session) :
  startWorkout r now = Some s ->
  sess_currentIndex s = 0 /\ sess_finishedAt s = None /\
  sess_durationSec s = 0.
Proof.
  intro H. unfold startWorkout in H. destruct r as [r0|]; [|discriminate].
  destruct (full_exercises r0) as [|x l]; [discriminate|].
  injection H as <-. simpl. auto.
Qed.

(** X21. The item on screen always exists.  A session is started only for
    a routine that lists an exercise, it starts at the first item (index 0,
    not finished, no time on the stopwatch), and whatever the user clicks
    (arrows at either end included) the index stays within the items; the
    items keep their exercise, name, image and body part, and the session
    its routine and start time. *)
Theorem current_item_on_screen (r : option RoutineFull) (now : Z)
    (s : Session) (cs : list Click) :
  startWorkout r now = Some s ->
  on_screen (clicks cs s) /\
  map item_identity (sess_items (clicks cs s)) =
    map item_identity (sess_items s) /\
  sess_routineId (clicks cs s) = sess_routineId s /\
  sess_startedAt (clicks cs s) = now /\
  (exists r0, r = Some r0 /\ full_exercises r0 <> [] /\
              sess_routineId s = full_id r0 /\
              List.length (sess_items s) = List.length (full_exercises r0)) /\
  sess_currentIndex s = 0 /\
  sess_finishedAt s = None /\
  sess_durationSec s = 0.
Proof.
  intro H. destruct (startWorkout_some r now s H) as (On & St & r0 & R0).
  destruct (clicks_keep cs s On) as (A & B & C & D).
  split; [exact A|]. split; [exact B|]. split; [exact C|].
  split; [rewrite D; exact St|].
  split; [|exact (startWorkout_first r now s H)].
  exists r0. destruct R0 as (R1 & R2 & R3 & R4).
  repeat split; try assumption.
  rewrite <- (length_map item_identity), R4. apply length_map.
Qed.

Lemma current_item_witness :
  exists s,
    a_started_session = Some s /\
    sess_currentIndex (clicks [wo_prev; wo_next; wo_next; toggle 1] s) = 0 /\
    on_screen (clicks [wo_prev; wo_next; wo_next; toggle 1] s) /\
    sess_currentIndex s = 0.
Proof.
  eexists. split; [vm_compute; reflexivity|].
  split; [vm_compute; reflexivity|].
  refine ((fun P => conj (proj1 P)
             (proj1 (proj2 (proj2 (proj2 (proj2 (proj2 P)))))))
            (current_item_on_screen
               (loadRoutineFull "rut_02" (db (two_routines (ticking true))))
               5000 _ [wo_prev; wo_next; wo_next; toggle 1] _)).
  vm_compute. reflexivity.
Defined.

(** ** From the session on screen to the recorded workout *)

Lemma Forall2_set_columns (owner : string) (sts : list StBody)
    (rows : list WorkoutSet) :
  Forall2 (set_snapshot owner) sts rows ->
  map (fun x => (ws_workout_item_id x, ws_reps x, ws_peso x, ws_done x)) rows =
  map (fun st => (owner, st_reps st, st_peso st,
                  Some (if st_done st then 1 else 0))) sts.
Proof.
  induction 1 as [|st row sts rows H _ IH]; simpl; [reflexivity|].
  destruct H as (-> & -> & -> & ->). now rewrite IH.
Qed.

Lemma snapshot_columns (wid : string) (its : list ItBody) :
  forall (idx : Z) (rows : list WorkoutItem) (sets : list WorkoutSet),
    snapshot wid idx its rows sets ->
    map (fun i => (wi_workout_id i, wi_exercise_id i, wi_name i,
                   wi_image i, wi_bodyPart i)) rows =
      map (fun it => (wid, it_exerciseId it, it_name it, it_image it,
                      it_bodyPart it)) its /\
    map wi_order_index rows =
      map (fun k => Some (idx + Z.of_nat k)) (seq 0 (List.length its)) /\
    map (fun x => (ws_workout_item_id x, ws_reps x, ws_peso x, ws_done x))
      sets =
      flat_map
        (fun p => map (fun st => (wi_id (fst p), st_reps st, st_peso st,
                                  Some (if st_done st then 1 else 0)))
                    (or_nil (it_sets (snd p))))
        (combine rows its).
Proof.
  induction its as [|it its IH]; intros idx [|row rows] sets H; simpl in H;
    try contradiction.
  - subst sets. simpl. auto.
  - destruct H as [(H1 & H2 & H3 & H4 & H5 & H6) (mine & rest & -> & F & S)].
    destruct (IH (idx + 1) rows rest S) as (A & B & C).
    simpl. rewrite H1, H2, H3, H4, H5, H6, A. split; [reflexivity|].
    split.
    + f_equal; [f_equal; lia|]. rewrite B, <- seq_shift, map_map.
      apply map_ext. intro k. f_equal. lia.
    + rewrite map_app, C, (Forall2_set_columns _ _ _ F). reflexivity.
Qed.

(** X22. A session that was started from a routine and finished is
    recorded as that routine's workout.  When [POST /api/workouts] accepts
    the finished session, whatever the user clicked in between, the new
    workout row carries the routine's id, the start and finish times and
    the stopwatch's last reading; the new item rows are the exercises the
    routine listed at the start, in that order at positions 0, 1, ..., with
    their names, images and body parts; and the new set rows are the sets
    of the session in order, each under the row of its item, with the reps
    and weights last entered and 1 or 0 for ticked or not. *)
Theorem finished_session_is_recorded env (r : option RoutineFull)
    (now fin : Z) (s : Session) (cs : list Click) (w : World) :
  startWorkout r now = Some s ->
  let s' := clicks cs s in
  let req := POST_workouts (payload (finish fin s')) in
  let wid := "wo_" ++ nanoid env (ids w) in
  let w' := fst (handle env req w) in
  failed (snd (handle env req w)) = false ->
  exists r0 rows sets,
    r = Some r0 /\
    workouts (db w') =
      (workouts (db w) ++
       [ {| w_id := wid; w_routine_id := Some (full_id r0);
            w_startedAt := Some now; w_finishedAt := Some fin;
            w_durationSec := Some (sess_durationSec s') |} ])%list /\
    workout_items (db w') = (workout_items (db w) ++ rows)%list /\
    workout_sets (db w') = (workout_sets (db w) ++ sets)%list /\
    map (fun i => (wi_workout_id i, wi_exercise_id i, wi_name i,
                   wi_image i, wi_bodyPart i)) rows =
      map (fun x => (wid, Some (x_id (rex_exercise x)),
                     Some (x_name (rex_exercise x)),
                     x_image (rex_exercise x), x_bodyPart (rex_exercise x)))
        (full_exercises r0) /\
    map wi_order_index rows =
      map (fun k => Some (Z.of_nat k))
        (seq 0 (List.length (full_exercises r0))) /\
    map (fun x => (ws_workout_item_id x, ws_reps x, ws_peso x, ws_done x))
      sets =
      flat_map
        (fun p => map (fun x => (wi_id (fst p), ss_reps x, ss_peso x,
                                 Some (if ss_done x then 1 else 0)))
                    (si_sets (snd p)))
        (combine rows (sess_items s')).
Proof.
  intros H s' req wid w' Hok.
  destruct (startWorkout_some r now s H) as (On & St & r0 & R1 & R2 & R3 & R4).
  destruct (clicks_keep cs s On) as (_ & B & C & D). fold s' in B, C, D.
  pose proof (post_workouts_run env (payload (finish fin s')) w) as P.
  cbv zeta in P. fold req in P. fold w' in P.
  destruct P as [(rows & sets & _ & P1 & P2 & P3 & P4 & _)|(e & P & _)];
    [|rewrite P in Hok; discriminate].
  simpl in P1, P4.
  destruct (snapshot_columns _ _ _ _ _ P4) as (S1 & S2 & S3).
  exists r0, rows, sets. split; [exact R1|].
  split; [rewrite P1, C, D, R3, St; reflexivity|].
  split; [exact P2|]. split; [exact P3|].
  assert (Len : List.length (sess_items s') = List.length (full_exercises r0)).
  { rewrite <- (length_map item_identity), B, R4. apply length_map. }
  split; [|split].
  - rewrite S1, map_map. simpl.
    transitivity
      (map (fun q : string * string * option string * option string =>
              (wid, Some (fst (fst (fst q))), Some (snd (fst (fst q))),
               snd (fst q), snd q))
         (map item_identity (sess_items s'))).
    + rewrite map_map. reflexivity.
    + rewrite B, R4, map_map. reflexivity.
  - rewrite S2, length_map, Len. apply map_ext. intro k. reflexivity.
  - rewrite S3. clear.
    generalize (sess_items s'). revert rows.
    induction rows as [|row rows IH]; intros [|it its]; simpl;
      try reflexivity.
    rewrite map_map, IH. reflexivity.
Qed.

Lemma finished_session_witness :
  exists s,
    a_started_session = Some s /\
    failed
      (snd (handle (ticking true)
              (POST_workouts (payload (finish 66000 (clicks some_clicks s))))
              (two_routines (ticking true)))) = false /\
    map (fun x => (ws_reps x, ws_done x))
      (workout_sets
         (db (fst (handle (ticking true)
                     (POST_workouts
                        (payload (finish 66000 (clicks some_clicks s))))
                     (two_routines (ticking true)))))) =
      [(Some 5, Some 1); (Some 12, Some 0)] /\
    exists r0,
      loadRoutineFull "rut_02" (db (two_routines (ticking true))) = Some r0 /\
      workouts
        (db (fst (handle (ticking true)
                    (POST_workouts
                       (payload (finish 66000 (clicks some_clicks s))))
                    (two_routines (ticking true))))) =
        (workouts (db (two_routines (ticking true))) ++
         [ {| w_id := "wo_" ++ nanoid (ticking true)
                                 (ids (two_routines (ticking true)));
              w_routine_id := Some (full_id r0);
              w_startedAt := Some 5000; w_finishedAt := Some 66000;
              w_durationSec :=
                Some (sess_durationSec (clicks some_clicks s)) |} ])%list.
Proof.
  eexists. split; [vm_compute; reflexivity|].
  match goal with
  | |- failed (snd (handle _ (POST_workouts (payload (finish _ (clicks _ ?s))))
                      _)) = false /\ _ =>
      assert (E : startWorkout
                    (loadRoutineFull "rut_02" (db (two_routines (ticking true))))
                    5000 = Some s) by (vm_compute; reflexivity);
      assert (F : failed
                    (snd (handle (ticking true)
                            (POST_workouts
                               (payload (finish 66000 (clicks some_clicks s))))
                            (two_routines (ticking true)))) = false)
        by (vm_compute; reflexivity);
      destruct (finished_session_is_recorded (ticking true) _ 5000 66000 s
                  some_clicks (two_routines (ticking true)) E F)
        as (r0 & rows & sets & R & W & _)
  end.
  split; [exact F|]. split; [vm_compute; reflexivity|].
  exists r0. split; [exact R | exact W].
Defined.

(** ** The client: saving the editor *)

Lemma final_edit_blank (es : list SetBody) (s : RoutineSet) :
  (forall e, In e es -> s_reps e = None /\ s_peso e = None) ->
  final_edit es s =
  if existsb (fun e => addresses e s) es then edited None None s else s.
Proof.
  intro H. unfold final_edit.
  destruct (find (fun e => addresses e s) (rev es)) as [e|] eqn:F.
  - apply find_some in F. destruct F as [Hin Ha].
    apply in_rev in Hin. destruct (H e Hin) as [-> ->].
    assert (X : existsb (fun e => addresses e s) es = true).
    { apply existsb_exists. exists e. auto. }
    rewrite X. reflexivity.
  - destruct (existsb (fun e => addresses e s) es) eqn:X; [|reflexivity].
    apply existsb_exists in X. destruct X as [e [Hin Ha]].
    apply in_rev in Hin. pose proof (find_none _ _ F e Hin) as N.
    simpl in N. congruence.
Qed.

Lemma existsb_flat_map {A B : Type} (f : B -> bool) (g : A -> list B)
    (l : list A) :
  existsb f (flat_map g l) = existsb (fun x => existsb f (g x)) l.
Proof.
  induction l as [|x l IH]; simpl; [reflexivity|].
  now rewrite existsb_app, IH.
Qed.

Lemma existsb_map {A B : Type} (f : B -> bool) (h : A -> B) (l : list A) :
  existsb f (map h l) = existsb (fun x => f (h x)) l.
Proof.
  induction l as [|x l IH]; simpl; [reflexivity|]. now rewrite IH.
Qed.

Lemma existsb_andb_const {A : Type} (b : bool) (f : A -> bool) (l : list A) :
  existsb (fun x => b && f x) l = b && existsb f l.
Proof.
  induction l as [|x l IH]; simpl; [now rewrite andb_false_r|].
  rewrite IH. destruct b; reflexivity.
Qed.

Lemma existsb_ext {A : Type} (f g : A -> bool) (l : list A) :
  (forall x, f x = g x) -> existsb f l = existsb g l.
Proof.
  intro H. induction l as [|x l IH]; simpl; [reflexivity|].
  now rewrite H, IH.
Qed.

Lemma addresses_blank_entry (i : string) reps peso (s : RoutineSet) :
  addresses {| s_id := Some i; s_reps := reps; s_peso := peso |} s =
  negb (String.eqb (rs_id s) "") && String.eqb i (rs_id s).
Proof.
  unfold addresses. simpl. destruct i as [|c i].
  - destruct (rs_id s); reflexivity.
  - rewrite (String.eqb_sym (String c i)).
    destruct (String.eqb (rs_id s) (String c i)) eqn:E;
      [|now rewrite andb_false_r].
    apply String.eqb_eq in E. rewrite E. reflexivity.
Qed.

Section SavingTheEditor.
Variable env : Env.
Variable parseInt : string -> option Z.
Variable parseFloat : string -> option Q.

Lemma untouched_entries (r : RoutineFull) :
  entries
    (or_nil (body_exercises
               (collectRoutineFromDOM parseInt parseFloat
                  (renderEditRoutine r)))) =
  flat_map
    (fun x => map (fun v => {| s_id := Some (set_id v); s_reps := None;
                               s_peso := None |}) (rex_sets x))
    (full_exercises r).
Proof.
  unfold entries, renderEditRoutine. simpl.
  rewrite map_map, flat_map_of_map. apply flat_map_ext. intro x. simpl.
  rewrite map_map. reflexivity.
Qed.

Lemma save_untouched_sets (w : World) (r : RoutineFull) :
  routine_sets
    (db (fst (handle env
                (save_routine parseInt parseFloat r (renderEditRoutine r)) w)))
  = map (fun s => if negb (String.eqb (rs_id s) "") && shown r (rs_id s)
                  then edited None None s else s)
      (routine_sets (db w)).
Proof.
  unfold save_routine. rewrite put_routine_run. cbv zeta.
  cbn [body_name body_exercises collectRoutineFromDOM fst].
  rewrite updateSets_run. cbn [fst db]. simpl routine_sets.
  pose proof (untouched_entries r) as U. simpl in U. rewrite U.
  apply map_ext. intro s. rewrite final_edit_blank.
  - rewrite existsb_flat_map.
    assert (X : existsb
                  (fun x =>
                     existsb (fun e => addresses e s)
                       (map (fun v => {| s_id := Some (set_id v);
                                         s_reps := None; s_peso := None |})
                          (rex_sets x)))
                  (full_exercises r)
                = negb (String.eqb (rs_id s) "") && shown r (rs_id s)).
    { unfold shown. rewrite <- existsb_andb_const. apply existsb_ext.
      intro x. rewrite existsb_map, <- existsb_andb_const.
      apply existsb_ext. intro v. apply addresses_blank_entry. }
    rewrite X. reflexivity.
  - intros e He. apply in_flat_map in He. destruct He as [x [_ He]].
    apply in_map_iff in He. destruct He as [v [<- _]]. auto.
Qed.

(** X23. Saving the editor without typing anything blanks the plan.  The
    editor renders the two inputs of every set empty, whatever is stored,
    and an empty input is sent as null; so after the Save button the stored
    reps and weight of every set shown in the editor are NULL, every other
    set is as before, and the routine reads back with no reps and no
    weight in any of its sets. *)
Theorem saving_an_untouched_form (id : string) (w : World) (r : RoutineFull) :
  loadRoutineFull id (db w) = Some r ->
  let w' := fst (handle env
                   (save_routine parseInt parseFloat r (renderEditRoutine r))
                   w) in
  routine_sets (db w') =
    map (fun s => if negb (String.eqb (rs_id s) "") && shown r (rs_id s)
                  then edited None None s else s)
      (routine_sets (db w)) /\
  forall r', loadRoutineFull id (db w') = Some r' ->
    forall x v, In x (full_exercises r') -> In v (rex_sets x) ->
      set_id v <> "" -> set_reps v = None /\ set_peso v = None.
Proof.
  intros L w'. pose proof (save_untouched_sets w r) as S. fold w' in S.
  split; [exact S|].
  assert (T : routine_exercises (db w') = routine_exercises (db w) /\
              exercises (db w') = exercises (db w)).
  { unfold w', save_routine. rewrite put_routine_run. cbv zeta.
    cbn [body_name body_exercises collectRoutineFromDOM fst].
    rewrite updateSets_run. split; reflexivity. }
  destruct T as [T1 T2].
  intros r' L' x v Hx Hv Hid.
  unfold loadRoutineFull in L, L'.
  destruct (find _ (routines (db w'))) as [row'|]; [|discriminate].
  destruct (find _ (routines (db w))) as [row|]; [|discriminate].
  injection L' as <-. simpl in Hx.
  apply in_map_iff in Hx. destruct Hx as [[re e] [<- Hin]]. simpl in Hv.
  assert (Hin0 : In (re, e) (exs id (db w))).
  { apply in_exs. apply in_exs in Hin. rewrite T1, T2 in Hin. exact Hin. }
  apply in_map_iff in Hv. destruct Hv as [s' [<- Hs']].
  apply filter_In in Hs'. destruct Hs' as [Hs' Ho].
  rewrite S in Hs'. apply in_map_iff in Hs'. destruct Hs' as [s [Es Hs]].
  assert (Id : rs_id s' = rs_id s /\
               rs_routine_exercise_id s' = rs_routine_exercise_id s).
  { subst s'. destruct (negb _ && _); auto. }
  destruct Id as [I1 I2]. simpl in Hid. rewrite I1 in Hid.
  assert (Sh : shown r (rs_id s) = true).
  { injection L as <-. unfold shown. simpl. rewrite existsb_map.
    apply existsb_exists. exists (re, e). split; [exact Hin0|]. simpl.
    rewrite existsb_map. apply existsb_exists. exists s. split.
    - apply filter_In. split; [exact Hs|]. rewrite <- I2. exact Ho.
    - simpl. apply String.eqb_refl. }
  apply String.eqb_neq in Hid. rewrite Hid, Sh in Es. simpl in Es.
  subst s'. auto.
Qed.

End SavingTheEditor.

Lemma saving_witness :
  exists r,
    loadRoutineFull "rut_02" (db (two_routines (ticking true))) = Some r /\
    map (fun s => (rs_id s, rs_reps s, rs_peso s))
      (routine_sets (db (two_routines (ticking true)))) =
      [("set_04", Some 5, Some 60%Q); ("set_05", Some 5, Some 70%Q)] /\
    map (fun s => (rs_id s, rs_reps s, rs_peso s))
      (routine_sets
         (db (fst (handle (ticking true)
                     (save_routine (fun _ => None) (fun _ => None) r
                        (renderEditRoutine r))
                     (two_routines (ticking true)))))) =
      [("set_04", None, None); ("set_05", None, None)].
Proof.
  eexists. split; [vm_compute; reflexivity|].
  split; [vm_compute; reflexivity|].
  match goal with
  | |- context [save_routine _ _ ?r _] =>
      assert (E : loadRoutineFull "rut_02" (db (two_routines (ticking true)))
                  = Some r) by (vm_compute; reflexivity);
      rewrite (proj1 (saving_an_untouched_form (ticking true)
                        (fun _ => None) (fun _ => None) "rut_02"
                        (two_routines (ticking true)) r E))
  end.
  vm_compute. reflexivity.
Defined.

(** ** Requests that fail *)

Lemma post_routines_run env (name : option string) (w : World) :
  handle env (POST_routines name) w =
  let id := "rut_" ++ nanoid env (ids w) in
  let row := {| r_id := id; r_name := or_else name "Rutina";
                r_createdAt := Some (Date_now env (clock w));
                r_updatedAt := Some (Date_now env (clock w)) |} in
  if has_key r_id id (routines (db w))
  then ({| db := db w; clock := S (clock w); ids := S (ids w) |},
        status_500 SQLITE_CONSTRAINT_PRIMARYKEY)
  else
    let d' := with_routines (routines (db w) ++ [row]) (db w) in
    ({| db := d'; clock := S (clock w); ids := S (ids w) |},
     json_routine (loadRoutineFull id d')).
Proof.
  unfold handle. simpl.
  unfold post_routines, bind, nanoid8, now, run, insert_routine, query.
  simpl.
  destruct (has_key r_id _ (routines (db w))); reflexivity.
Qed.

Lemma post_exercises_run env (p : ExerciseBody) (w : World) :
  handle env (POST_exercises p) w =
  match p_name p with
  | None | Some EmptyString => (w, json_error 400 "name required")
  | Some name =>
      let ex :=
        {| e_id := "cus_" ++ nanoid env (ids w); e_name := trim name;
           e_image := Some (or_else (p_image p) "");
           e_bodyPart := Some (or_else (p_bodyPart p) "");
           e_primaryMuscles := Some (or_else (p_primaryMuscles p) "");
           e_secondaryMuscles := Some (or_else (p_secondaryMuscles p) "");
           e_equipment := Some (or_else (p_equipment p) "");
           e_isCustom := Some 1 |} in
      if has_key e_id (e_id ex) (exercises (db w))
      then ({| db := db w; clock := clock w; ids := S (ids w) |},
            status_500 SQLITE_CONSTRAINT_PRIMARYKEY)
      else ({| db := with_exercises (exercises (db w) ++ [ex]) (db w);
               clock := clock w; ids := S (ids w) |},
            json_exercise ex)
  end.
Proof.
  unfold handle. simpl. unfold post_exercises.
  destruct (p_name p) as [[|c s]|]; try reflexivity.
  unfold bind, nanoid8, run, insert_exercise. simpl.
  destruct (has_key e_id _ (exercises (db w))); reflexivity.
Qed.

Lemma fk_ok_false env (b : bool) :
  fk_ok env b = false -> foreign_keys env = true.
Proof. unfold fk_ok. destruct (foreign_keys env); [reflexivity | discriminate]. Qed.

Lemma insert_sets_throw env (wi : string) (sets : list StBody) :
  forall (i : Z) (w w' : World) (e : SqliteError),
    forEach_from i
      (fun st _ =>
         n <- nanoid8 env ;;
         run (insert_workout_set env
                {| ws_id := "ws_" ++ n; ws_workout_item_id := wi;
                   ws_reps := st_reps st; ws_peso := st_peso st;
                   ws_done := Some (if st_done st then 1 else 0) |}))
      sets w = (w', Throw e) ->
    e = SQLITE_CONSTRAINT_FOREIGNKEY -> foreign_keys env = true.
Proof.
  induction sets as [|st sets IH]; intros i w w' e H; simpl in H.
  - discriminate.
  - unfold bind at 1 in H. unfold bind at 1 in H.
    unfold nanoid8 at 1 in H. unfold run at 1 in H. simpl in H.
    unfold insert_workout_set in H. simpl in H.
    destruct (has_key ws_id _ _).
    { injection H as _ <-. discriminate. }
    destruct (fk_ok env _) eqn:F.
    + exact (IH _ _ _ _ H).
    + intros _. exact (fk_ok_false env _ F).
Qed.

Lemma insert_items_throw env (wid : string) (its : list ItBody) :
  forall (idx : Z) (w w' : World) (e : SqliteError),
    forEach_from idx (insert_item env wid) its w = (w', Throw e) ->
    e = SQLITE_CONSTRAINT_FOREIGNKEY -> foreign_keys env = true.
Proof.
  induction its as [|it its IH]; intros idx w w' e H; simpl in H.
  - discriminate.
  - unfold bind at 1 in H. unfold insert_item at 1 in H.
    unfold bind at 1 in H. unfold nanoid8 at 1 in H.
    unfold bind at 1 in H. unfold run at 1 in H. simpl in H.
    unfold insert_workout_item in H. simpl in H.
    destruct (has_key wi_id _ _).
    { injection H as _ <-. discriminate. }
    destruct (fk_ok env _) eqn:F.
    + unfold insert_sets, forEach in H.
      destruct (forEach_from 0 _ _ _) as [w1 [[]|e1]] eqn:E1.
      * exact (IH _ _ _ _ H).
      * injection H as _ <-. exact (insert_sets_throw env _ _ _ _ _ _ E1).
    + injection H as _ <-. intros _. exact (fk_ok_false env _ F).
Qed.

(** X24. Reading never writes, and a request that is rejected or aborted by
    a key constraint leaves no trace in the database.  A GET request leaves
    the world exactly as it was, whatever it answers, and so does every
    request answered 400 or 404.  A request is aborted (500) only by a key
    constraint: a generated id that is taken or, with foreign keys
    enforced, a missing parent row; only the five POST requests, which
    insert, can be aborted so, and then the database afterwards is the
    database before.  The PUT and the two DELETEs run UPDATE and DELETE
    statements only and are never rejected or aborted. *)
Theorem failed_requests_change_nothing env (req : Request) (w : World) :
  (reads req = true -> fst (handle env req w) = w) /\
  (failed (snd (handle env req w)) = true ->
   db (fst (handle env req w)) = db w) /\
  (forall c m, snd (handle env req w) = json_error c m ->
     fst (handle env req w) = w) /\
  (forall e, snd (handle env req w) = status_500 e ->
     inserts req = true /\
     (e = SQLITE_CONSTRAINT_FOREIGNKEY -> foreign_keys env = true)) /\
  (only_updates req = true -> failed (snd (handle env req w)) = false).
Proof.
  split; [|split; [|split; [|split]]].
  - destruct req; try discriminate; intros _; try reflexivity.
    unfold handle. simpl. unfold get_routine, bind, query. simpl.
    destruct (loadRoutineFull id (db w)); reflexivity.
  - destruct req; try (intros _; reflexivity).
    + rewrite post_exercises_run.
      destruct (p_name p) as [[|c s]|]; try (intros _; reflexivity).
      cbv zeta. destruct (has_key e_id _ (exercises (db w)));
        [intros _; reflexivity | discriminate].
    + rewrite post_routines_run. cbv zeta.
      destruct (has_key r_id _ (routines (db w)));
        [intros _; reflexivity | discriminate].
    + unfold handle. simpl. unfold get_routine, bind, query. simpl.
      destruct (loadRoutineFull id (db w)); reflexivity.
    + rewrite put_routine_run. discriminate.
    + unfold handle. simpl route.
      rewrite delete_routine_exercise_h_run. discriminate.
    + destruct exerciseId as [[|c s]|]; try (intros _; reflexivity).
      rewrite post_routine_exercises_run. cbv zeta.
      destruct (has_key re_id _ (routine_exercises (db w)));
        [intros _; reflexivity|].
      destruct (fk_ok env _ && fk_ok env _);
        [discriminate | intros _; reflexivity].
    + rewrite post_routine_sets_run. cbv zeta.
      destruct (has_key rs_id _ (routine_sets (db w)));
        [intros _; reflexivity|].
      destruct (fk_ok env _); [discriminate | intros _; reflexivity].
    + rewrite delete_routine_set_h_run. discriminate.
    + pose proof (post_workouts_run env s w) as P. cbv zeta in P.
      destruct P as [(rows & sets & -> & _)|(e & _ & P)];
        [discriminate | intros _; exact P].
  - intros c m. destruct req; try discriminate; try (intros _; reflexivity).
    + rewrite post_exercises_run.
      destruct (p_name p) as [[|c0 s]|]; try (intros _; reflexivity).
      cbv zeta. destruct (has_key e_id _ (exercises (db w))); discriminate.
    + rewrite post_routines_run. cbv zeta.
      destruct (has_key r_id _ (routines (db w))); discriminate.
    + unfold handle. simpl. unfold get_routine, bind, query. simpl.
      destruct (loadRoutineFull id (db w)); reflexivity.
    + rewrite put_routine_run. discriminate.
    + unfold handle. simpl route.
      rewrite delete_routine_exercise_h_run. discriminate.
    + destruct exerciseId as [[|c0 s]|]; try (intros _; reflexivity).
      rewrite post_routine_exercises_run. cbv zeta.
      destruct (has_key re_id _ (routine_exercises (db w)));
        [discriminate|].
      destruct (fk_ok env _ && fk_ok env _); discriminate.
    + rewrite post_routine_sets_run. cbv zeta.
      destruct (has_key rs_id _ (routine_sets (db w))); [discriminate|].
      destruct (fk_ok env _); discriminate.
    + pose proof (post_workouts_run env s w) as P. cbv zeta in P.
      destruct P as [(rows & sets & -> & _)|(e & -> & _)]; discriminate.
  - intros e. destruct req; try discriminate.
    + rewrite post_exercises_run.
      destruct (p_name p) as [[|c s]|]; try discriminate.
      cbv zeta. destruct (has_key e_id _ (exercises (db w)));
        [|discriminate].
      intros H. injection H as <-. split; [reflexivity | discriminate].
    + rewrite post_routines_run. cbv zeta.
      destruct (has_key r_id _ (routines (db w))); [|discriminate].
      intros H. injection H as <-. split; [reflexivity | discriminate].
    + unfold handle. simpl. unfold get_routine, bind, query. simpl.
      destruct (loadRoutineFull id (db w)); discriminate.
    + rewrite put_routine_run. discriminate.
    + unfold handle. simpl route.
      rewrite delete_routine_exercise_h_run. discriminate.
    + destruct exerciseId as [[|c s]|]; try discriminate.
      rewrite post_routine_exercises_run. cbv zeta.
      destruct (has_key re_id _ (routine_exercises (db w))).
      { intros H. injection H as <-. split; [reflexivity | discriminate]. }
      destruct (fk_ok env (has_key r_id id (routines (db w)))) eqn:F1;
        cbn [andb].
      * destruct (fk_ok env (has_key e_id (String c s) (exercises (db w))))
          eqn:F2; [discriminate|].
        intros _. split; [reflexivity|]. intros _.
        exact (fk_ok_false env _ F2).
      * intros _. split; [reflexivity|]. intros _.
        exact (fk_ok_false env _ F1).
    + rewrite post_routine_sets_run. cbv zeta.
      destruct (has_key rs_id _ (routine_sets (db w))).
      { intros H. injection H as <-. split; [reflexivity | discriminate]. }
      destruct (fk_ok env _) eqn:F; [discriminate|].
      intros _. split; [reflexivity|]. intros _.
      exact (fk_ok_false env _ F).
    + intros H. split; [reflexivity|]. revert H.
      unfold handle, route, post_workouts, transaction, bind, nanoid8, run,
        insert_workout, ret. simpl.
      destruct (has_key w_id _ _); simpl.
      { intros H. injection H as <-. discriminate. }
      unfold forEach.
      destruct (forEach_from 0 _ _ _) as [w1 [[]|e1]] eqn:E; simpl.
      * discriminate.
      * intros H. injection H as <-.
        exact (insert_items_throw env _ _ _ _ _ _ E).
  - destruct req; try discriminate; intros _.
    + rewrite put_routine_run. reflexivity.
    + unfold handle. simpl route.
      rewrite delete_routine_exercise_h_run. reflexivity.
    + rewrite delete_routine_set_h_run. reflexivity.
Qed.

Lemma failed_requests_witness :
  reads GET_marks = true /\
  fst (handle (ticking true) GET_marks (two_routines (ticking true))) =
    two_routines (ticking true) /\
  snd (handle (ticking true)
         (POST_routine_sets "rut_02" "rex_99" None None)
         (two_routines (ticking true))) =
    status_500 SQLITE_CONSTRAINT_FOREIGNKEY /\
  db (fst (handle (ticking true)
             (POST_routine_sets "rut_02" "rex_99" None None)
             (two_routines (ticking true)))) =
    db (two_routines (ticking true)) /\
  snd (handle (ticking true) (GET_routine "rut_99")
         (two_routines (ticking true))) = json_error 404 "not found" /\
  fst (handle (ticking true) (GET_routine "rut_99")
         (two_routines (ticking true))) = two_routines (ticking true) /\
  failed (snd (handle (ticking true)
                 (PUT_routine "rut_99" (sets_body stray_entries))
                 (two_routines (ticking true)))) = false.
Proof.
  assert (F : snd (handle (ticking true)
                     (POST_routine_sets "rut_02" "rex_99" None None)
                     (two_routines (ticking true))) =
              status_500 SQLITE_CONSTRAINT_FOREIGNKEY)
    by (vm_compute; reflexivity).
  assert (G : snd (handle (ticking true) (GET_routine "rut_99")
                     (two_routines (ticking true))) =
              json_error 404 "not found")
    by (vm_compute; reflexivity).
  split; [reflexivity|]. split.
  { exact (proj1 (failed_requests_change_nothing (ticking true) GET_marks
                    (two_routines (ticking true))) eq_refl). }
  split; [exact F|]. split.
  { apply (proj1 (proj2 (failed_requests_change_nothing (ticking true)
                    (POST_routine_sets "rut_02" "rex_99" None None)
                    (two_routines (ticking true))))).
    rewrite F. reflexivity. }
  split; [exact G|]. split.
  { exact (proj1 (proj2 (proj2 (failed_requests_change_nothing
                    (ticking true) (GET_routine "rut_99")
                    (two_routines (ticking true))))) _ _ G). }
  exact (proj2 (proj2 (proj2 (proj2 (failed_requests_change_nothing
                  (ticking true)
                  (PUT_routine "rut_99" (sets_body stray_entries))
                  (two_routines (ticking true))))))
               eq_refl).
Defined.

(** ** The client: forms *)

Lemma or_else_some (s d : string) : s <> "" -> or_else (Some s) d = s.
Proof. destruct s; [congruence | reflexivity]. Qed.

Lemma trim_not_blank (s : string) : trim s <> "" -> s <> "".
Proof. intros H E. subst s. apply H. reflexivity. Qed.

(** X25. The forms of the client never send a blank name.  The routine
    form and the rename dialog send nothing when the text is empty or white
    space, and the trimmed text otherwise; so a routine created through the
    form is stored under that trimmed text, never under the default name
    because of an empty one.  The exercise form sends nothing when the name
    is empty or white space, and otherwise the server stores the exercise
    under the trimmed name, which is not empty. *)
Theorem forms_send_no_blank_name env (w : World) :
  (forall value,
     match openCreateRoutine value with
     | None => trim value = ""
     | Some req =>
         trim value <> "" /\ req = POST_routines (Some (trim value)) /\
         (has_key r_id ("rut_" ++ nanoid env (ids w)) (routines (db w))
            = false ->
          exists r, snd (handle env req w) = json_routine (Some r) /\
                    full_name r = trim value)
     end) /\
  (forall r value,
     match rename_click r value with
     | None => trim value = ""
     | Some req =>
         trim value <> "" /\
         req = PUT_routine (full_id r) (name_body (Some (trim value)))
     end) /\
  (forall f,
     match openCreateExerciseForm f with
     | None => trim (ex_name f) = ""
     | Some req =>
         trim (ex_name f) <> "" /\
         (has_key e_id ("cus_" ++ nanoid env (ids w)) (exercises (db w))
            = false ->
          exists ex, snd (handle env req w) = json_exercise ex /\
                     e_name ex = trim (ex_name f) /\
                     In ex (exercises (db (fst (handle env req w)))))
     end).
Proof.
  split; [|split].
  - intro value. unfold openCreateRoutine.
    destruct (trim value) as [|c s] eqn:T; [reflexivity|].
    split; [discriminate|]. split; [reflexivity|]. intro K.
    rewrite post_routines_run. cbv zeta. rewrite K.
    unfold loadRoutineFull. simpl.
    rewrite find_append.
    change (String "r" (String "u" (String "t" (String "_"
              (nanoid env (ids w))))))
      with ("rut_" ++ nanoid env (ids w)).
    rewrite (find_absent _ _ K). simpl.
    change (String "r" (String "u" (String "t" (String "_"
              (nanoid env (ids w))))))
      with ("rut_" ++ nanoid env (ids w)).
    rewrite String.eqb_refl. eexists. split; reflexivity.
  - intros r value. unfold rename_click.
    destruct (trim value) as [|c s]; [reflexivity|].
    split; [discriminate | reflexivity].
  - intro f. unfold openCreateExerciseForm.
    destruct (trim (ex_name f)) as [|c s] eqn:T; [reflexivity|].
    split; [discriminate|]. intro K.
    assert (N : ex_name f <> "").
    { apply trim_not_blank. rewrite T. discriminate. }
    rewrite post_exercises_run. simpl p_name.
    destruct (ex_name f) as [|a n] eqn:E; [congruence|].
    cbv zeta. cbn [e_id]. rewrite K. simpl.
    eexists. split; [reflexivity|]. split; [exact T|].
    apply in_or_app. right. left. reflexivity.
Qed.

Lemma forms_witness :
  let env := ticking true in
  has_key r_id ("rut_" ++ nanoid env (ids boot)) (routines (db boot)) = false /\
  openCreateRoutine "   " = None /\
  openCreateRoutine "  Push  " = Some (POST_routines (Some "Push")) /\
  exists r,
    snd (handle env (POST_routines (Some "Push")) boot)
      = json_routine (Some r) /\
    full_name r = "Push".
Proof.
  intro env.
  assert (K : has_key r_id ("rut_" ++ nanoid env (ids boot))
                (routines (db boot)) = false) by reflexivity.
  split; [exact K|]. split; [vm_compute; reflexivity|].
  split; [vm_compute; reflexivity|].
  pose proof (proj1 (forms_send_no_blank_name env boot) "  Push  ") as H.
  assert (E : openCreateRoutine "  Push  " = Some (POST_routines (Some "Push")))
    by (vm_compute; reflexivity).
  rewrite E in H. destruct H as (_ & _ & H).
  destruct (H K) as [r [R N]].
  exists r. split; [exact R|]. rewrite N. vm_compute. reflexivity.
Defined.

(** ** The client: the stopwatch *)

Lemma padStart_two_digits (z : Z) :
  0 <= z < 100 -> padStart 2 "0" (String_of_Z z) = two_digits (Z.to_nat z).
Proof.
  intro H.
  assert (A : forallb
                (fun n => String.eqb
                            (padStart 2 "0" (String_of_Z (Z.of_nat n)))
                            (two_digits n))
                (seq 0 100) = true) by (vm_compute; reflexivity).
  rewrite forallb_forall in A.
  specialize (A (Z.to_nat z)). rewrite Z2Nat.id in A by lia.
  apply String.eqb_eq. apply A. apply in_seq. lia.
Qed.

Lemma two_digits_injective (n m : nat) :
  (n < 100)%nat -> (m < 100)%nat -> two_digits n = two_digits m -> n = m.
Proof.
  intros Hn Hm E.
  assert (A : forallb
                (fun n =>
                   forallb
                     (fun m => implb (String.eqb (two_digits n) (two_digits m))
                                 (Nat.eqb n m))
                     (seq 0 100))
                (seq 0 100) = true) by (vm_compute; reflexivity).
  rewrite forallb_forall in A.
  assert (In1 : In n (seq 0 100)) by (apply in_seq; lia).
  assert (In2 : In m (seq 0 100)) by (apply in_seq; lia).
  specialize (A n In1). rewrite forallb_forall in A. specialize (A m In2).
  apply String.eqb_eq in E. rewrite E in A. simpl in A.
  apply Nat.eqb_eq. exact A.
Qed.

Lemma fmtDuration_digits (a : Z) :
  0 <= a < 360000 ->
  fmtDuration a =
  (if a <? 3600 then "" else two_digits (Z.to_nat (a / 3600)) ++ ":")
  ++ two_digits (Z.to_nat (Z.rem a 3600 / 60)) ++ ":"
  ++ two_digits (Z.to_nat (Z.rem a 60)).
Proof.
  intro H. unfold fmtDuration. cbv zeta.
  assert (B : 0 <= a / 3600 < 100 /\ 0 <= Z.rem a 3600 / 60 < 60 /\
              0 <= Z.rem a 60 < 60 /\ (a < 3600 <-> a / 3600 <= 0)).
  { Z.to_euclidean_division_equations. lia. }
  destruct B as (B1 & B2 & B3 & B4).
  rewrite !padStart_two_digits by lia.
  destruct (Z.ltb_spec 0 (a / 3600)), (Z.ltb_spec a 3600);
    try reflexivity; lia.
Qed.

Lemma two_digits_cons (n : nat) (rest : string) :
  two_digits n ++ rest =
  String (ascii_of_nat (48 + n / 10))
    (String (ascii_of_nat (48 + n mod 10)) rest).
Proof. reflexivity. Qed.

Lemma string_app_nil_r (s : string) : s ++ "" = s.
Proof. induction s as [|c s IH]; simpl; [reflexivity | now rewrite IH]. Qed.

Lemma string_app_assoc (s t u : string) : (s ++ t) ++ u = s ++ t ++ u.
Proof. induction s as [|c s IH]; simpl; [reflexivity | now rewrite IH]. Qed.

Lemma two_digits_prefix (n m : nat) (r r' : string) :
  (n < 100)%nat -> (m < 100)%nat ->
  two_digits n ++ r = two_digits m ++ r' -> n = m /\ r = r'.
Proof.
  intros Hn Hm E. rewrite !two_digits_cons in E.
  injection E as E1 E2 E3. split; [|exact E3].
  apply two_digits_injective; try assumption.
  change (String (ascii_of_nat (48 + n / 10))
            (String (ascii_of_nat (48 + n mod 10)) "") =
          String (ascii_of_nat (48 + m / 10))
            (String (ascii_of_nat (48 + m mod 10)) "")).
  f_equal; [exact E1 | f_equal; exact E2].
Qed.

(** X26. The stopwatch display.  For a duration below 100 hours
    [fmtDuration] shows minutes and seconds as two digits each, preceded by
    the hours as two digits once an hour has passed: five characters below
    one hour and eight from then on.  Two different durations are never
    shown alike. *)
Theorem stopwatch_display (a b : Z) :
  0 <= a < 360000 -> 0 <= b < 360000 ->
  fmtDuration a =
    (if a <? 3600 then "" else two_digits (Z.to_nat (a / 3600)) ++ ":")
    ++ two_digits (Z.to_nat (Z.rem a 3600 / 60)) ++ ":"
    ++ two_digits (Z.to_nat (Z.rem a 60)) /\
  String.length (fmtDuration a) = (if a <? 3600 then 5%nat else 8%nat) /\
  (fmtDuration a = fmtDuration b -> a = b).
Proof.
  intros Ha Hb. pose proof (fmtDuration_digits a Ha) as Da.
  pose proof (fmtDuration_digits b Hb) as Db.
  split; [exact Da|].
  assert (La : String.length (fmtDuration a) = (if a <? 3600 then 5%nat else 8%nat)).
  { rewrite Da. destruct (a <? 3600); reflexivity. }
  assert (Lb : String.length (fmtDuration b) = (if b <? 3600 then 5%nat else 8%nat)).
  { rewrite Db. destruct (b <? 3600); reflexivity. }
  split; [exact La|]. intro E.
  assert (Ba : 0 <= a / 3600 < 100 /\ 0 <= Z.rem a 3600 / 60 < 60 /\
               0 <= Z.rem a 60 < 60 /\
               a = 3600 * (a / 3600) + 60 * (Z.rem a 3600 / 60) + Z.rem a 60).
  { Z.to_euclidean_division_equations. lia. }
  assert (Bb : 0 <= b / 3600 < 100 /\ 0 <= Z.rem b 3600 / 60 < 60 /\
               0 <= Z.rem b 60 < 60 /\
               b = 3600 * (b / 3600) + 60 * (Z.rem b 3600 / 60) + Z.rem b 60).
  { Z.to_euclidean_division_equations. lia. }
  destruct Ba as (A1 & A2 & A3 & A4), Bb as (B1 & B2 & B3 & B4).
  rewrite E in La. rewrite La in Lb.
  assert (T : forall r r' : string, ":" ++ r = ":" ++ r' -> r = r').
  { intros r r' Q. injection Q as Q. exact Q. }
  rewrite Da, Db in E.
  destruct (Z.ltb_spec a 3600), (Z.ltb_spec b 3600); try discriminate.
  - simpl append at 1 4 in E.
    apply two_digits_prefix in E; [|lia|lia]. destruct E as [E1 E].
    apply T in E.
    rewrite <- (string_app_nil_r (two_digits (Z.to_nat (Z.rem a 60)))) in E.
    rewrite <- (string_app_nil_r (two_digits (Z.to_nat (Z.rem b 60)))) in E.
    apply two_digits_prefix in E; [|lia|lia]. destruct E as [E2 _].
    assert (a / 3600 = 0 /\ b / 3600 = 0).
    { Z.to_euclidean_division_equations. lia. }
    lia.
  - rewrite !string_app_assoc in E.
    apply two_digits_prefix in E; [|lia|lia]. destruct E as [E0 E].
    apply T in E.
    apply two_digits_prefix in E; [|lia|lia]. destruct E as [E1 E].
    apply T in E.
    rewrite <- (string_app_nil_r (two_digits (Z.to_nat (Z.rem a 60)))) in E.
    rewrite <- (string_app_nil_r (two_digits (Z.to_nat (Z.rem b 60)))) in E.
    apply two_digits_prefix in E; [|lia|lia]. destruct E as [E2 _].
    lia.
Qed.

Lemma stopwatch_display_witness :
  fmtDuration 59 = "00:59" /\ fmtDuration 3725 = "01:02:05" /\
  String.length (fmtDuration 3725) = 8%nat.
Proof.
  assert (H : 0 <= 3725 < 360000) by lia.
  destruct (stopwatch_display 3725 3725 H H) as (_ & L & _).
  split; [reflexivity|]. split; [reflexivity | exact L].
Defined.

(** ** The routine just edited *)

Lemma mutation_is_local env (req : Request) (w : World) (R R2 : string) :
  mutates R req = true -> R2 <> R ->
  stamp R2 (routines (db (fst (handle env req w)))) =
  stamp R2 (routines (db w)).
Proof.
  intros M Hne. apply String.eqb_neq in Hne.
  destruct req; simpl in M; try discriminate.
  - apply andb_true_iff in M. destruct M as [M _].
    apply String.eqb_eq in M. subst id.
    rewrite put_routine_run. simpl.
    destruct (body_name body) as [[|c s]|],
      (body_exercises body) as [l|];
      rewrite ?updateSets_run; simpl;
      rewrite ?(stamp_UPDATE R2 R _ _) by reflexivity;
      rewrite ?Hne; reflexivity.
  - apply String.eqb_eq in M. subst id.
    unfold handle, route. rewrite delete_routine_exercise_h_run. simpl.
    rewrite (stamp_UPDATE R2 R _ _) by reflexivity. now rewrite Hne.
  - apply String.eqb_eq in M. subst id.
    destruct exerciseId as [[|c s]|]; try reflexivity.
    rewrite post_routine_exercises_run. cbv zeta.
    destruct (has_key re_id _ _); [reflexivity|].
    destruct (fk_ok env _ && fk_ok env _); [|reflexivity]. simpl.
    rewrite (stamp_UPDATE R2 R _ _) by reflexivity. now rewrite Hne.
  - apply String.eqb_eq in M. subst id.
    rewrite post_routine_sets_run. cbv zeta.
    destruct (has_key rs_id _ _); [reflexivity|].
    destruct (fk_ok env _); [|reflexivity]. simpl.
    rewrite (stamp_UPDATE R2 R _ _) by reflexivity. now rewrite Hne.
  - apply String.eqb_eq in M. subst id.
    rewrite delete_routine_set_h_run. simpl.
    rewrite (stamp_UPDATE R2 R _ _) by reflexivity. now rewrite Hne.
Qed.

Lemma stamp_unique (t : list Routine) (r : Routine) :
  NoDup (map r_id t) -> In r t -> stamp (r_id r) t = r_updatedAt r.
Proof.
  unfold stamp. induction t as [|x t IH]; simpl; intros N H;
    [contradiction|]. destruct H as [E|H].
  - subst x. now rewrite String.eqb_refl.
  - inversion N as [|y l Hn N']; subst.
    destruct (String.eqb (r_id x) (r_id r)) eqn:Q.
    + apply String.eqb_eq in Q. exfalso. apply Hn. rewrite Q.
      apply in_map. exact H.
    + apply IH; assumption.
Qed.

(** X27. The routine just edited heads the list.  With a clock that never
    repeats a reading and routine ids unique, after a request that changed
    the routine [R] through its own id and did not fail, the first entry of
    [GET /api/routines] is [R]. *)
Theorem edited_routine_listed_first env (req : Request) (w : World)
    (R : string) :
  strictly_increasing env -> stamped env w ->
  NoDup (map r_id (routines (db w))) ->
  has_key r_id R (routines (db w)) = true ->
  mutates R req = true ->
  failed (snd (handle env req w)) = false ->
  exists top rest,
    snd (handle env GET_routines (fst (handle env req w))) =
      json_routines (top :: rest) /\
    r_id (sum_row top) = R /\
    r_updatedAt (sum_row top) =
      Some (Date_now env (pred (clock (fst (handle env req w))))).
Proof.
  intros Inc St N HR M F.
  destruct (handle_touch env req w R M F HR) as [Hc Hu].
  set (w' := fst (handle env req w)) in *.
  assert (N' : NoDup (map r_id (routines (db w')))).
  { assert (P : kept_by_statements env
                  (fun d => NoDup (map r_id (routines d)))).
    { intros stmt d d' S H E.
      destruct S;
        try (injection E as <-; simpl; auto;
             rewrite map_key_UPDATE by reflexivity; exact H);
        try (unfold insert_exercise, insert_routine_exercise,
               insert_routine_set, insert_workout, insert_workout_item,
               insert_workout_set, delete_routine_exercise in E;
             repeat match type of E with
                    | (if ?c then _ else _) = _ =>
                        destruct c; try discriminate
                    end;
             injection E as <-; exact H).
      unfold insert_routine in E.
      destruct (has_key r_id (r_id row) (routines d)) eqn:K; [discriminate|].
      injection E as <-. simpl. apply NoDup_map_snoc; assumption. }
    exact (keeps_handle env _ P req w N). }
  assert (HR' : has_key r_id R (routines (db w')) = true).
  { destruct (handle_stamp env req w R) as [_ [[E _]|[E _]]];
      fold w' in E; congruence. }
  apply has_key_spec in HR'. destruct HR' as [rowR [InR IdR]].
  assert (SR : r_updatedAt rowR = Some (Date_now env (pred (clock w')))).
  { rewrite <- (stamp_unique _ rowR N' InR), IdR. exact Hu. }
  unfold handle. simpl. unfold bind, query. simpl.
  unfold get_routines, routines_by_update.
  destruct (order_by (DESC r_updatedAt (cmp_null Z.compare))
              (routines (db w'))) as [|x rest] eqn:O.
  { exfalso. apply (order_by_In (DESC r_updatedAt (cmp_null Z.compare)))
      in InR. rewrite O in InR. exact InR. }
  simpl. eexists. eexists. split; [reflexivity|]. simpl.
  assert (Hx : In x (routines (db w'))).
  { apply (order_by_In (DESC r_updatedAt (cmp_null Z.compare))).
    rewrite O. now left. }
  assert (Le : cmp_leb (DESC r_updatedAt (cmp_null Z.compare)) x rowR = true).
  { apply (order_by_first _ x (routines (db w'))).
    - apply weak_order_DESC. apply weak_order_null. apply weak_order_Z.
    - rewrite O. reflexivity.
    - exact InR. }
  destruct (String.eqb (r_id x) R) eqn:Q.
  - apply String.eqb_eq in Q. split; [exact Q|].
    rewrite <- (stamp_unique _ x N' Hx), Q. exact Hu.
  - exfalso. apply String.eqb_neq in Q.
    pose proof (mutation_is_local env req w R (r_id x) M Q) as L.
    fold w' in L. rewrite (stamp_unique _ x N' Hx) in L.
    assert (Kx : has_key r_id (r_id x) (routines (db w)) = true).
    { destruct (handle_stamp env req w (r_id x)) as [_ [[E _]|[_ [k [Hk E]]]]];
        fold w' in E.
      - rewrite <- E. apply has_key_spec. exists x. auto.
      - unfold updatedAt in E. rewrite (stamp_unique _ x N' Hx) in E.
        rewrite E in L.
        destruct (has_key r_id (r_id x) (routines (db w))) eqn:K;
          [reflexivity|].
        rewrite (stamp_absent _ _ K) in L. discriminate. }
    destruct (St (r_id x) Kx) as [k [Hk Ek]]. unfold updatedAt in Ek.
    rewrite Ek in L.
    unfold cmp_leb, DESC in Le. rewrite SR, L in Le. simpl in Le.
    assert (Lt : Date_now env k < Date_now env (pred (clock w'))).
    { apply Inc. lia. }
    apply Z.compare_gt_iff in Lt. rewrite Lt in Le. discriminate.
Qed.

Lemma edited_routine_witness :
  let env := ticking true in
  let w := two_routines env in
  let req := PUT_routine "rut_01" (name_body (Some "Push day")) in
  (strictly_increasing env /\ stamped env w /\
   NoDup (map r_id (routines (db w))) /\
   has_key r_id "rut_01" (routines (db w)) = true /\
   mutates "rut_01" req = true /\
   failed (snd (handle env req w)) = false) /\
  map (fun s => r_id (sum_row s)) (get_routines (db w)) = ["rut_02"; "rut_01"] /\
  exists top rest,
    snd (handle env GET_routines (fst (handle env req w))) =
      json_routines (top :: rest) /\
    r_id (sum_row top) = "rut_01".
Proof.
  intros env w req.
  assert (Inc : strictly_increasing env) by apply ticking_strictly_increasing.
  assert (St : stamped env w).
  { unfold w, two_routines. apply stamped_serve. apply stamped_boot. }
  assert (N : NoDup (map r_id (routines (db w)))).
  { assert (E : map r_id (routines (db w)) = ["rut_01"; "rut_02"])
      by (vm_compute; reflexivity).
    rewrite E. repeat constructor; simpl; intuition discriminate. }
  assert (K : has_key r_id "rut_01" (routines (db w)) = true)
    by (vm_compute; reflexivity).
  assert (M : mutates "rut_01" req = true) by reflexivity.
  assert (F : failed (snd (handle env req w)) = false)
    by (vm_compute; reflexivity).
  split; [repeat split; assumption|].
  split; [vm_compute; reflexivity|].
  destruct (edited_routine_listed_first env req w "rut_01" Inc St N K M F)
    as (top & rest & E & I & _).
  exists top, rest. split; [exact E | exact I].
Defined.

(** ** Recording a workout never trips a foreign key *)

Lemma insert_sets_no_fk env (wi : string) (sets : list StBody) :
  forall (i : Z) (w : World),
    has_key wi_id wi (workout_items (db w)) = true ->
    snd (forEach_from i
           (fun st _ =>
              n <- nanoid8 env ;;
              run (insert_workout_set env
                     {| ws_id := "ws_" ++ n; ws_workout_item_id := wi;
                        ws_reps := st_reps st; ws_peso := st_peso st;
                        ws_done := Some (if st_done st then 1 else 0) |}))
           sets w) <> Throw SQLITE_CONSTRAINT_FOREIGNKEY.
Proof.
  induction sets as [|st sets IH]; intros i w K; simpl; [discriminate|].
  unfold bind at 1. unfold bind at 1. unfold nanoid8 at 1.
  unfold run at 1. unfold insert_workout_set at 1. simpl.
  destruct (has_key ws_id _ (workout_sets (db w))); simpl; [discriminate|].
  rewrite K, fk_ok_present. simpl. apply IH. simpl. exact K.
Qed.

Lemma insert_items_no_fk env (wid : string) (its : list ItBody) :
  forall (idx : Z) (w : World),
    has_key w_id wid (workouts (db w)) = true ->
    snd (forEach_from idx (insert_item env wid) its w)
    <> Throw SQLITE_CONSTRAINT_FOREIGNKEY.
Proof.
  induction its as [|it its IH]; intros idx w K; simpl; [discriminate|].
  unfold bind at 1. unfold insert_item at 1.
  unfold bind at 1. unfold nanoid8 at 1. unfold bind at 1.
  unfold run at 1. unfold insert_workout_item at 1. simpl.
  destruct (has_key wi_id _ (workout_items (db w))); simpl; [discriminate|].
  rewrite K, fk_ok_present. simpl.
  match goal with
  | |- snd (let (w', o) := insert_sets env ?wi ?sets ?w1 in _) <> _ =>
      pose proof (insert_sets_no_fk env wi sets 0 w1) as N;
      pose proof (insert_sets_run env wi sets 0 w1) as R;
      unfold insert_sets, forEach;
      destruct (forEach_from 0 _ sets w1) as [w2 [u|e]] eqn:E
  end.
  - destruct u. destruct (R w2 eq_refl) as (rows & _ & _ & _ & W & _).
    apply IH. rewrite W. simpl. exact K.
  - simpl. intro H. apply N.
    + simpl. rewrite has_key_snoc, String.eqb_refl. apply orb_true_r.
    + simpl. exact H.
Qed.

(** X28. [POST /api/workouts] never fails on a foreign key, enforced or
    not: the workout row is stored before its items and every item before
    its sets, all in one transaction.  So the request either answers with
    the new id or fails because a generated id was taken. *)
Theorem post_workouts_never_trips_a_foreign_key env (s : WorkoutBody)
    (w : World) :
  snd (handle env (POST_workouts s) w) = json_id ("wo_" ++ nanoid env (ids w))
  \/ snd (handle env (POST_workouts s) w) =
     status_500 SQLITE_CONSTRAINT_PRIMARYKEY.
Proof.
  remember (snd (handle env (POST_workouts s) w)) as res eqn:E.
  unfold handle in E. simpl in E. unfold post_workouts in E.
  unfold bind at 1 in E. unfold nanoid8 at 1 in E.
  unfold bind at 1 in E. unfold transaction in E. unfold bind at 1 in E.
  unfold run at 1 in E. unfold insert_workout at 1 in E. simpl in E.
  destruct (has_key w_id _ (workouts (db w))); simpl in E; [now right|].
  match type of E with
  | context [forEach (insert_item env ?wid) ?its ?w1] =>
      pose proof (insert_items_no_fk env wid its 0 w1) as N;
      unfold forEach in E;
      destruct (forEach_from 0 (insert_item env wid) its w1)
        as [w2 [u|e]] eqn:F
  end.
  - left. exact E.
  - right. simpl in E. rewrite E. destruct e; [reflexivity|].
    exfalso. apply N; [|reflexivity].
    simpl. rewrite has_key_snoc, String.eqb_refl. apply orb_true_r.
Qed.

(** ** A new exercise in the catalogue *)

Lemma in_groups (d : DB) (g : string) :
  In g (groups d) <->
  g <> "" /\ exists e, In e (exercises d) /\ e_bodyPart e = Some g.
Proof.
  unfold groups. rewrite order_by_In, distinct_In by apply String.eqb_eq.
  rewrite in_flat_map. split.
  - intros [e [He H]]. destruct (e_bodyPart e) as [[|c s]|] eqn:B;
      simpl in H; try contradiction.
    destruct H as [<-|[]]. split; [discriminate|]. exists e. auto.
  - intros [Hg [e [He B]]]. exists e. split; [exact He|]. rewrite B.
    destruct g; [congruence | now left].
Qed.

Lemma search_unfiltered env (d : DB) :
  search env None None d =
  firstn 300 (order_by (ASC e_name String.compare) (exercises d)).
Proof.
  unfold search. cbv zeta.
  match goal with
  | |- context [filter ?f (exercises d)] =>
      replace (filter f (exercises d)) with (exercises d); [reflexivity|]
  end.
  induction (exercises d) as [|e t IH]; [reflexivity|].
  cbn [filter]. simpl andb. cbv iota. f_equal. exact IH.
Qed.

(** X29. An exercise just created is part of the catalogue at once.
    After [POST /api/exercises] with a name and a fresh id, the new
    exercise's body part, when it has one, is among the groups (and the
    groups are as before when it has none); the unfiltered search lists the
    exercise as long as the catalogue has at most 300 entries; and adding
    it to an existing routine succeeds, foreign keys enforced or not, and
    the routine then shows it under its trimmed name. *)
Theorem created_exercise_is_listed env (p : ExerciseBody) (name : string)
    (w : World) :
  p_name p = Some name -> name <> "" ->
  has_key e_id ("cus_" ++ nanoid env (ids w)) (exercises (db w)) = false ->
  let w' := fst (handle env (POST_exercises p) w) in
  exists ex,
    snd (handle env (POST_exercises p) w) = json_exercise ex /\
    e_id ex = "cus_" ++ nanoid env (ids w) /\ e_name ex = trim name /\
    (forall g, p_bodyPart p = Some g -> g <> "" -> In g (groups (db w'))) /\
    (truthy (p_bodyPart p) = false -> groups (db w') = groups (db w)) /\
    ((List.length (exercises (db w)) < 300)%nat ->
     In ex (search env None None (db w'))) /\
    (forall id,
       has_key r_id id (routines (db w)) = true ->
       has_key re_id ("rex_" ++ nanoid env (ids w'))
         (routine_exercises (db w)) = false ->
       exists r v,
         snd (handle env (POST_routine_exercises id (Some (e_id ex))) w') =
           json_routine (Some r) /\
         In v (full_exercises r) /\
         rex_id v = "rex_" ++ nanoid env (ids w') /\
         x_name (rex_exercise v) = trim name).
Proof.
  intros Hn Hne K w'. subst w'.
  rewrite post_exercises_run, Hn.
  destruct name as [|a n]; [congruence|].
  cbv zeta. cbn [e_id]. rewrite K. cbn [fst snd].
  eexists. split; [reflexivity|]. cbn [e_id e_name db].
  split; [reflexivity|]. split; [reflexivity|].
  split; [|split; [|split]].
  - intros g Hg Hg'. apply in_groups. split; [exact Hg'|].
    eexists. split; [simpl; apply in_or_app; right; left; reflexivity|].
    simpl. rewrite Hg. f_equal. apply or_else_some. exact Hg'.
  - intro Hb. unfold groups. simpl. rewrite flat_map_app. simpl.
    assert (E : or_else (p_bodyPart p) "" = "").
    { destruct (p_bodyPart p) as [[|c s]|]; try reflexivity. discriminate. }
    rewrite E. simpl. rewrite app_nil_r. reflexivity.
  - intro Hlen. rewrite search_unfiltered. rewrite firstn_all2.
    + apply order_by_In. simpl. apply in_or_app. right. left. reflexivity.
    + rewrite <- (Permutation_length (order_by_perm _ _)). simpl.
      rewrite length_app. simpl. lia.
  - intros id Hr Hfresh. cbn [append].
    rewrite post_routine_exercises_run. cbv zeta. cbn [db ids].
    simpl routine_exercises. simpl routines. simpl exercises.
    cbn [append] in Hfresh. simpl ids in Hfresh.
    change (String "r" (String "e" (String "x" (String "_"
              (nanoid env (S (ids w)))))))
      with ("rex_" ++ nanoid env (S (ids w))) in *.
    rewrite Hfresh.
    assert (F : fk_ok env (has_key r_id id (routines (db w))) = true).
    { rewrite Hr. apply fk_ok_present. }
    rewrite F.
    match goal with
    | |- context [fk_ok env (has_key e_id ?i (?t ++ [?ex]))] =>
        assert (G : fk_ok env (has_key e_id i (t ++ [ex])) = true)
          by (rewrite has_key_snoc; simpl e_id; rewrite String.eqb_refl,
                orb_true_r; apply fk_ok_present);
        rewrite G; set (new := ex)
    end.
    simpl andb. cbv iota. cbn [snd].
    match goal with
    | |- exists r v, json_routine (loadRoutineFull id ?d1) = _ /\ _ =>
        set (d' := d1)
    end.
    assert (L : loadRoutineFull id d' <> None).
    { apply loadRoutineFull_exists. unfold d'. simpl.
      rewrite has_key_UPDATE by reflexivity. exact Hr. }
    destruct (loadRoutineFull id d') as [r|] eqn:E; [|congruence].
    destruct (loadRoutineFull_lists id d' r
                {| re_id := "rex_" ++ nanoid env (S (ids w));
                   re_routine_id := id; re_exercise_id := e_id new;
                   re_order_index :=
                     next_order id
                       (with_exercises (exercises (db w) ++ [new]) (db w)) |}
                new E)
      as (v & V1 & V2 & _ & V4 & _).
    + unfold d'. simpl. apply in_or_app. right. left. reflexivity.
    + reflexivity.
    + unfold d'. simpl. apply in_or_app. right. left. reflexivity.
    + reflexivity.
    + exists r, v. split; [reflexivity|]. split; [exact V1|].
      split; [exact V2|]. rewrite V4. reflexivity.
Qed.

Lemma created_exercise_witness :
  let env := ticking true in
  (p_name (an_exercise " Squat ") = Some " Squat " /\ " Squat " <> "" /\
   has_key e_id ("cus_" ++ nanoid env (ids boot)) (exercises (db boot))
     = false) /\
  exists ex,
    snd (handle env (POST_exercises (an_exercise " Squat ")) boot)
      = json_exercise ex /\
    e_name ex = "Squat" /\
    In "Legs"
      (groups (db (fst (handle env (POST_exercises (an_exercise " Squat "))
                          boot)))).
Proof.
  intro env.
  assert (N : " Squat " <> "") by discriminate.
  assert (K : has_key e_id ("cus_" ++ nanoid env (ids boot))
                (exercises (db boot)) = false) by reflexivity.
  split; [split; [reflexivity | split; [exact N | exact K]]|].
  destruct (created_exercise_is_listed env (an_exercise " Squat ") " Squat "
              boot eq_refl N K) as (ex & R & _ & T & G & _).
  exists ex. split; [exact R|]. split.
  - rewrite T. vm_compute. reflexivity.
  - apply (G "Legs"); [reflexivity | discriminate].
Defined.

(** ** From the session on screen to the personal records *)





